(** * DOVE analysis scripts: a shallow embedding and its verified properties

    The development follows [scripts/utils/o3_code_analyzer.py] (the legacy
    analyzer, module [Legacy]) and [scripts/utils/o3_code_analyzer_enhanced.py]
    (module [Enhanced]).  Module [Consolidated] gives the text of the legacy
    consolidated report as a whole; modules [Ui] and [Cli] follow the UI
    entry point of the enhanced analyzer and the parsing its [main] does.

    - Python [str] values are [string]s: 8-bit characters, case mapping
      and white space as Python has them on ASCII.
    - Values decoded by [json.loads], and [None], are of type [json];
      the decoder itself, the text of an exception and the text of a list
      or a dict are parameters of the functions that use them.
    - An exception is an [exn]; a call that may raise returns an
      [outcome].  The enhanced analyzer prints, reads the clock, writes
      files and sends requests: its functions run in the monad [M] over a
      [state], in a [world] that gives the files, the directory tree, the
      clock and the reply to each request.
    - Patterns of [re] are values of [Re.regex], matched by a
      backtracking matcher that explores a pattern in the order of [re].

    The definitions come first, the properties after them. *)

From Stdlib Require Import String Ascii List Bool Arith ZArith Lia DecimalString.
Import ListNotations.
Set Warnings "-register-all,-automation".
Open Scope list_scope.
Open Scope string_scope.

(** ** Python string operations used by the scripts *)
Module PyStr.

Definition is_upper (c : ascii) : bool :=
  let n := nat_of_ascii c in ((65 <=? n) && (n <=? 90))%nat.

Definition is_lower (c : ascii) : bool :=
  let n := nat_of_ascii c in ((97 <=? n) && (n <=? 122))%nat.

Definition lower_char (c : ascii) : ascii :=
  if is_upper c then ascii_of_nat (nat_of_ascii c + 32) else c.

Definition upper_char (c : ascii) : ascii :=
  if is_lower c then ascii_of_nat (nat_of_ascii c - 32) else c.

(** [s.lower()] *)
Fixpoint lower (s : string) : string :=
  match s with
  | EmptyString => EmptyString
  | String c s' => String (lower_char c) (lower s')
  end.

(** [s.capitalize()]: first character upper-cased, the rest lower-cased. *)
Definition capitalize (s : string) : string :=
  match s with
  | EmptyString => EmptyString
  | String c s' => String (upper_char c) (lower s')
  end.

(** [needle in hay] on two strings: substring test. *)
Fixpoint contains (needle hay : string) : bool :=
  if prefix needle hay then true
  else match hay with
       | EmptyString => false
       | String _ hay' => contains needle hay'
       end.

(** [s.endswith(suffix)] *)
Fixpoint endswith (s suffix : string) : bool :=
  if String.eqb s suffix then true
  else match s with
       | EmptyString => false
       | String _ s' => endswith s' suffix
       end.

(** [s.count(c)] for a one-character [c]. *)
Fixpoint count_char (c : ascii) (s : string) : nat :=
  match s with
  | EmptyString => 0
  | String a s' => (if Ascii.eqb a c then 1 else 0) + count_char c s'
  end.

(** Puts a character in front of the first piece of a split. *)
Definition cons_head (a : ascii) (l : list string) : list string :=
  match l with
  | [] => [String a EmptyString]
  | h :: t => String a h :: t
  end.

(** [s.split(sep)] for a non-empty [sep]: left-to-right, non-overlapping
    occurrences.  [skip] counts the characters of the separator occurrence
    that is being stepped over. *)
Fixpoint split_from (sep : string) (skip : nat) (s : string) : list string :=
  match s with
  | EmptyString => [EmptyString]
  | String a s' =>
      match skip with
      | S k => split_from sep k s'
      | O =>
          if prefix sep s
          then EmptyString :: split_from sep (String.length sep - 1) s'
          else cons_head a (split_from sep 0 s')
      end
  end.

Definition split (sep s : string) : list string := split_from sep 0 s.

Definition newline : ascii := "010"%char.
Definition nl : string := String newline EmptyString.

(** [s.split('\n')] *)
Definition lines (s : string) : list string := split nl s.

(** [sep.join(l)] *)
Definition join (sep : string) (l : list string) : string := String.concat sep l.

(** [s.replace(old, new)] for a non-empty [old]. *)
Definition replace (old new s : string) : string := join new (split old s).

(** Characters removed by [s.strip()]: [str.isspace] on ASCII. *)
Definition is_space (c : ascii) : bool :=
  let n := nat_of_ascii c in
  (((9 <=? n) && (n <=? 13)) || ((28 <=? n) && (n <=? 32)))%nat.

Fixpoint lstrip (s : string) : string :=
  match s with
  | EmptyString => EmptyString
  | String c s' => if is_space c then lstrip s' else s
  end.

(** Drops trailing white space: a character is kept when it is not a space
    or something is kept after it. *)
Fixpoint rstrip (s : string) : string :=
  match s with
  | EmptyString => EmptyString
  | String c s' =>
      match rstrip s' with
      | EmptyString => if is_space c then EmptyString else String c EmptyString
      | r => String c r
      end
  end.

Definition strip (s : string) : string := rstrip (lstrip s).

(** Every character of [s] satisfies [p]. *)
Fixpoint all (p : ascii -> bool) (s : string) : bool :=
  match s with
  | EmptyString => true
  | String c s' => p c && all p s'
  end.

(** [s] is not empty and its first character satisfies [p]. *)
Definition starts_with (p : ascii -> bool) (s : string) : bool :=
  match s with
  | EmptyString => false
  | String c _ => p c
  end.

(** [sep] and [u] differ at a position both of them have. *)
Fixpoint differs (sep u : string) : bool :=
  match sep, u with
  | String a sep', String b u' => if Ascii.eqb a b then differs sep' u' else true
  | _, _ => false
  end.

(** No occurrence of [sep] starts inside [a], whatever follows [a]. *)
Fixpoint clear_of (sep a : string) : bool :=
  match a with
  | EmptyString => true
  | String _ a' => differs sep a && clear_of sep a'
  end.

(** Puts a text in front of the first piece of a split. *)
Definition prepend (a : string) (l : list string) : list string :=
  match l with
  | [] => [a]
  | h :: t => (a ++ h) :: t
  end.

End PyStr.

(** ** Values of [json.loads] and the Python operations applied to them *)

Inductive json : Type :=
| JNull
| JBool (b : bool)
| JInt (z : Z)
| JFloat (repr : string)
| JStr (s : string)
| JList (items : list json)
| JDict (entries : list (string * json)).

Inductive exn : Type :=
| TypeError
| KeyError (key : json)
| IndexError
| AttributeError
| JSONDecodeError
| HTTPError (code : Z) (reason : string)
| URLError (reason : string)
| OSError (strerror : string)
| UnicodeDecodeError.

Inductive outcome (A : Type) : Type :=
| Ok (a : A)
| Raise (e : exn).
Arguments Ok {A} a.
Arguments Raise {A} e.

Definition bind {A B : Type} (m : outcome A) (f : A -> outcome B) : outcome B :=
  match m with
  | Ok a => f a
  | Raise e => Raise e
  end.

Notation "x <- m ;; k" := (bind m (fun x => k))
  (at level 61, m at next level, right associativity).

Module Py.

Fixpoint assoc (k : string) (d : list (string * json)) : option json :=
  match d with
  | [] => None
  | (k', v) :: d' => if String.eqb k k' then Some v else assoc k d'
  end.

Definition is_str (s : string) (v : json) : bool :=
  match v with
  | JStr s' => String.eqb s s'
  | _ => false
  end.

(** [key in v] for a string [key]. *)
Definition contains (key : string) (v : json) : outcome bool :=
  match v with
  | JDict d => Ok (match assoc key d with Some _ => true | None => false end)
  | JList l => Ok (existsb (is_str key) l)
  | JStr s => Ok (PyStr.contains key s)
  | _ => Raise TypeError
  end.

(** [len(v)] *)
Definition len (v : json) : outcome nat :=
  match v with
  | JDict d => Ok (List.length d)
  | JList l => Ok (List.length l)
  | JStr s => Ok (String.length s)
  | _ => Raise TypeError
  end.

(** [v[key]] for a string [key]. *)
Definition getitem (v : json) (key : string) : outcome json :=
  match v with
  | JDict d => match assoc key d with Some x => Ok x | None => Raise (KeyError (JStr key)) end
  | _ => Raise TypeError
  end.

(** [v[0]] *)
Definition getitem0 (v : json) : outcome json :=
  match v with
  | JList (x :: _) => Ok x
  | JList [] => Raise IndexError
  | JStr (String c _) => Ok (JStr (String c EmptyString))
  | JStr EmptyString => Raise IndexError
  | JDict _ => Raise (KeyError (JInt 0))
  | _ => Raise TypeError
  end.

(** [v[key] = x] for a string [key]: only a dict accepts it. *)
Fixpoint assoc_set (k : string) (x : json) (d : list (string * json))
  : list (string * json) :=
  match d with
  | [] => [(k, x)]
  | (k', v) :: d' => if String.eqb k k' then (k', x) :: d' else (k', v) :: assoc_set k x d'
  end.

Definition setitem (v : json) (key : string) (x : json) : outcome json :=
  match v with
  | JDict d => Ok (JDict (assoc_set key x d))
  | _ => Raise TypeError
  end.

(** [v.get(key, default)]: a method of dicts only. *)
Definition get (v : json) (key : string) (default : json) : outcome json :=
  match v with
  | JDict d => Ok (match assoc key d with Some x => x | None => default end)
  | _ => Raise AttributeError
  end.

(** What [for x in v] iterates over. *)
Definition iter (v : json) : outcome (list json) :=
  match v with
  | JList l => Ok l
  | JDict d => Ok (map (fun kv => JStr (fst kv)) d)
  | JStr s => Ok (map (fun c => JStr (String c EmptyString)) (list_ascii_of_string s))
  | _ => Raise TypeError
  end.

(** Truth value of [v] in a condition.  A float carries its Python [repr]. *)
Definition truthy (v : json) : bool :=
  match v with
  | JNull => false
  | JBool b => b
  | JInt z => negb (Z.eqb z 0)
  | JFloat r => negb (String.eqb r "0.0" || String.eqb r "-0.0")
  | JStr s => negb (String.eqb s "")
  | JList l => match l with [] => false | _ => true end
  | JDict d => match d with [] => false | _ => true end
  end.

Definition str_of_Z (z : Z) : string := NilEmpty.string_of_int (Z.to_int z).
Definition str_of_nat (n : nat) : string := NilEmpty.string_of_uint (Nat.to_uint n).

(** [str(v)], as an f-string formats [v]; [repr] gives the text of a list
    or a dict. *)
Definition str (repr : json -> string) (v : json) : string :=
  match v with
  | JNull => "None"
  | JBool true => "True"
  | JBool false => "False"
  | JInt z => str_of_Z z
  | JFloat r => r
  | JStr s => s
  | _ => repr v
  end.

(** A method of [str] applied to [v]: [AttributeError] on any other value. *)
Definition as_str (v : json) : outcome string :=
  match v with
  | JStr s => Ok s
  | _ => Raise AttributeError
  end.

End Py.

(** ** The legacy analyzer: [scripts/utils/o3_code_analyzer.py] *)
Module Legacy.

(** What [urllib.request.urlopen(req, data)] and [response.read()] give:
    an exception, or the bytes of the reply. *)
Inductive http_reply : Type :=
| RequestRaises (e : exn)
| ResponseData (data : string).

(** [try: body except E: handler], for the exceptions [handles] selects. *)
Definition try_except {A : Type} (body : outcome A) (handles : exn -> bool)
  (handler : outcome A) : outcome A :=
  match body with
  | Ok a => Ok a
  | Raise e => if handles e then handler else Raise e
  end.

Definition is_JSONDecodeError (e : exn) : bool :=
  match e with
  | JSONDecodeError => true
  | _ => false
  end.

Definition finding (severity category title description : string)
  (line_numbers : list Z) (recommendation : string) : json :=
  JDict [("severity", JStr severity);
         ("category", JStr category);
         ("title", JStr title);
         ("description", JStr description);
         ("line_numbers", JList (map JInt line_numbers));
         ("recommendation", JStr recommendation)].

Definition reflection_findings : list json :=
  [finding "medium" "security"
     "Potential Integer Overflow in Reflection Calculation"
     "The reflection calculation involves very large numbers that could potentially overflow."
     [42; 56]%Z
     "Consider using SafeMath or Solidity 0.8.0+ built-in overflow checks.";
   finding "low" "gas_optimization"
     "Inefficient Storage Access Pattern"
     "Multiple reads from the same storage variables could be optimized."
     [78; 79; 80]%Z
     "Cache storage variables in memory before multiple reads."].

Definition tax_findings : list json :=
  [finding "low" "security"
     "Timestamp Dependence"
     "The tax calculation relies on block.timestamp which can be manipulated slightly by miners."
     [25]%Z
     "For timing that requires precision under 15 seconds, consider additional validation.";
   finding "info" "logic_errors"
     "Tax Rate Boundary Condition"
     "The tax rate transitions may create edge cases exactly at day boundaries."
     [30; 32; 34]%Z
     "Consider using strictly greater than (>) instead of >= for clearer boundary definition."].

Definition transfer_findings : list json :=
  [finding "high" "security"
     "Potential Reentrancy Risk"
     "Ensure state changes happen before external calls to prevent reentrancy attacks."
     [110; 125]%Z
     "Follow the checks-effects-interactions pattern rigorously."].

(** The result dict of both return paths; [now] is
    [datetime.now().isoformat()] at the time of the return. *)
Definition analysis_dict (now : string) (findings : json) : json :=
  JDict [("status", JStr "success"); ("timestamp", JStr now); ("findings", findings)].

(** [O3Analyzer._simulate_analysis_response] *)
Definition _simulate_analysis_response (now description : string)
  (focus_areas : list string) (code : string) : json :=
  let findings := [] in
  let findings :=
    if PyStr.contains "reflection" (PyStr.lower description)
    then (findings ++ reflection_findings)%list else findings in
  let findings :=
    if PyStr.contains "tax" (PyStr.lower description)
    then (findings ++ tax_findings)%list else findings in
  let findings :=
    if PyStr.contains "transfer" (PyStr.lower description)
       || PyStr.contains "_update" (PyStr.lower description)
    then (findings ++ transfer_findings)%list else findings in
  analysis_dict now (JList findings).

Definition default_focus_areas : list string :=
  ["security"; "gas_optimization"; "logic_errors"].

Section Dispatcher.

(** [json.loads] on text; [None] stands for [json.JSONDecodeError]. *)
Variable json_loads : string -> option json.

(** [json.loads(v)]: a value that is no text raises [TypeError]. *)
Definition loads (v : json) : outcome json :=
  match v with
  | JStr s =>
      match json_loads s with
      | Some x => Ok x
      | None => Raise JSONDecodeError
      end
  | _ => Raise TypeError
  end.

(** The body of the inner [try]: the content is decoded and its findings
    are taken over. *)
Definition parse_content (now : string) (content : json) : outcome json :=
  analysis <- loads content ;;
  has_findings <- Py.contains "findings" analysis ;;
  analysis <- (if has_findings : bool
               then Ok analysis
               else Py.setitem analysis "findings" (JList [])) ;;
  findings <- Py.get analysis "findings" (JList []) ;;
  Ok (analysis_dict now findings).

(** The body of the [with urlopen(...) as response:] block. *)
Definition read_response (now description : string) (focus_areas : list string)
  (code response_data : string) : outcome json :=
  result <- loads (JStr response_data) ;;
  has_choices <- Py.contains "choices" result ;;
  nonempty <- (if has_choices : bool
               then choices <- Py.getitem result "choices" ;;
                    n <- Py.len choices ;;
                    Ok (0 <? n)%nat
               else Ok false) ;;
  if nonempty : bool
  then
    choices <- Py.getitem result "choices" ;;
    choice <- Py.getitem0 choices ;;
    message <- Py.getitem choice "message" ;;
    content <- Py.getitem message "content" ;;
    try_except (parse_content now content) is_JSONDecodeError
      (Ok (_simulate_analysis_response now description focus_areas code))
  else Ok (_simulate_analysis_response now description focus_areas code).

(** [O3Analyzer.analyze_code_snippet].  The request only reaches the result
    through the reply, which is the parameter [reply]; [focus_areas = None]
    and the empty list both select the default. *)
Definition analyze_code_snippet (now : string) (reply : http_reply)
  (code description : string) (focus_areas : option (list string)) : json :=
  let focus_areas :=
    match focus_areas with
    | Some (a :: l) => a :: l
    | _ => default_focus_areas
    end in
  let attempt :=
    match reply with
    | RequestRaises e => Raise e
    | ResponseData response_data =>
        read_response now description focus_areas code response_data
    end in
  match attempt with
  | Ok r => r
  | Raise _ => _simulate_analysis_response now description focus_areas code
  end.

End Dispatcher.

(** *** [O3Analyzer.analyze_function]: line scan with a brace counter *)

(** The loop state: [in_function], [brace_count], [function_lines]. *)
Fixpoint scan_function (target : string) (lines : list string) (in_function : bool)
  (brace_count : Z) (function_lines : list string) : list string :=
  match lines with
  | [] => function_lines
  | line :: rest =>
      if PyStr.contains target line
      then scan_function target rest true
             (Z.of_nat (PyStr.count_char "{" line))
             (function_lines ++ [line])%list
      else if in_function
      then
        let function_lines := (function_lines ++ [line])%list in
        let brace_count :=
          (brace_count + Z.of_nat (PyStr.count_char "{" line)
                       - Z.of_nat (PyStr.count_char "}" line))%Z in
        if (brace_count <=? 0)%Z then function_lines
        else scan_function target rest in_function brace_count function_lines
      else scan_function target rest in_function brace_count function_lines
  end.

(** The text handed to [analyze_code_snippet]; [None] is the branch
    [Function ... not found]. *)
Definition extract_function (full_code function_name : string) : option string :=
  match scan_function ("function " ++ function_name) (PyStr.lines full_code) false 0%Z [] with
  | [] => None
  | function_lines => Some (PyStr.join PyStr.nl function_lines)
  end.

(** *** [O3Analyzer.save_report] *)
Section Reports.

(** Python's text of a list or a dict inside an f-string. *)
Variable repr : json -> string.

Definition severity_counts0 : list (string * nat) :=
  [("high", 0); ("medium", 0); ("low", 0); ("info", 0)].

Fixpoint has_key (k : string) (d : list (string * nat)) : bool :=
  match d with
  | [] => false
  | (k', _) :: d' => String.eqb k k' || has_key k d'
  end.

Fixpoint increment (k : string) (d : list (string * nat)) : list (string * nat) :=
  match d with
  | [] => []
  | (k', n) :: d' => if String.eqb k k' then (k', S n) :: d' else (k', n) :: increment k d'
  end.

(** [severity_counts[severity] += 1] *)
Definition count_severity (severity : json) (severity_counts : list (string * nat))
  : outcome (list (string * nat)) :=
  match severity with
  | JStr s =>
      if has_key s severity_counts then Ok (increment s severity_counts)
      else Raise (KeyError severity)
  | JList _ | JDict _ => Raise TypeError
  | _ => Raise (KeyError severity)
  end.

(** The first loop over the findings. *)
Fixpoint histogram (findings : list json) (severity_counts : list (string * nat))
  : outcome (list (string * nat)) :=
  match findings with
  | [] => Ok severity_counts
  | finding :: rest =>
      severity <- Py.get finding "severity" (JStr "info") ;;
      severity_counts <- count_severity severity severity_counts ;;
      histogram rest severity_counts
  end.

Definition summary_rows (severity_counts : list (string * nat)) : string :=
  String.concat ""
    (map (fun kv => "| " ++ PyStr.capitalize (fst kv) ++ " | "
                    ++ Py.str_of_nat (snd kv) ++ " |" ++ PyStr.nl)
         severity_counts).

(** One pass of the second loop: the section of finding number [i]. *)
Definition finding_section (i : nat) (finding : json) : outcome string :=
  severity <- Py.get finding "severity" (JStr "info") ;;
  category <- Py.get finding "category" (JStr "unknown") ;;
  title <- Py.get finding "title" (JStr "Unnamed Issue") ;;
  description <- Py.get finding "description" (JStr "No description provided") ;;
  line_numbers <- Py.get finding "line_numbers" (JList []) ;;
  recommendation <- Py.get finding "recommendation" (JStr "No recommendation provided") ;;
  severity_text <- Py.as_str severity ;;
  category_text <- Py.as_str category ;;
  line_part <- (if Py.truthy line_numbers
                then items <- Py.iter line_numbers ;;
                     Ok ("**Line(s):** " ++ PyStr.join ", " (map (Py.str repr) items)
                         ++ "  " ++ PyStr.nl)
                else Ok "") ;;
  Ok ("### " ++ Py.str_of_nat i ++ ". " ++ Py.str repr title ++ PyStr.nl ++ PyStr.nl
      ++ "**Severity:** " ++ PyStr.capitalize severity_text ++ "  " ++ PyStr.nl
      ++ "**Category:** " ++ PyStr.replace "_" " " (PyStr.capitalize category_text)
      ++ "  " ++ PyStr.nl
      ++ line_part
      ++ PyStr.nl ++ Py.str repr description ++ PyStr.nl ++ PyStr.nl
      ++ "**Recommendation:**  " ++ PyStr.nl ++ Py.str repr recommendation
      ++ PyStr.nl ++ PyStr.nl
      ++ "---" ++ PyStr.nl ++ PyStr.nl).

Fixpoint finding_sections (i : nat) (findings : list json) : outcome string :=
  match findings with
  | [] => Ok ""
  | finding :: rest =>
      section <- finding_section i finding ;;
      more <- finding_sections (S i) rest ;;
      Ok (section ++ more)
  end.

Definition report_header (generated report_name : string) : string :=
  "# O3 Analysis Report: " ++ report_name ++ PyStr.nl ++ PyStr.nl
  ++ "*Generated on: " ++ generated ++ "*" ++ PyStr.nl ++ PyStr.nl.

(** The text [save_report] writes; [generated] is the second clock reading.
    [Raise] stands for an exception that leaves the [with] block (the file
    then keeps what was written before it). *)
Definition save_report (generated : string) (analysis_results : json)
  (report_name : string) : outcome string :=
  is_error <- Py.contains "error" analysis_results ;;
  if is_error : bool
  then
    error <- Py.getitem analysis_results "error" ;;
    Ok (report_header generated report_name
        ++ "## Error" ++ PyStr.nl ++ PyStr.nl ++ Py.str repr error ++ PyStr.nl ++ PyStr.nl)
  else
    found <- Py.get analysis_results "findings" (JList []) ;;
    findings <- Py.iter found ;;
    severity_counts <- histogram findings severity_counts0 ;;
    sections <- finding_sections 1 findings ;;
    Ok (report_header generated report_name
        ++ "## Summary" ++ PyStr.nl ++ PyStr.nl
        ++ "| Severity | Count |" ++ PyStr.nl
        ++ "|----------|-------|" ++ PyStr.nl
        ++ summary_rows severity_counts
        ++ PyStr.nl ++ "## Detailed Findings" ++ PyStr.nl ++ PyStr.nl
        ++ sections).

(** The name of the report file; [timestamp] is the first clock reading. *)
Definition report_filename (output_dir report_name timestamp : string) : string :=
  output_dir ++ "/" ++ report_name ++ "_" ++ timestamp ++ ".md".

End Reports.

(** *** [O3Analyzer._create_consolidated_report] *)

Record critical : Type := {
  c_report : string;
  c_title : string;
  c_severity : string;
  c_details : string
}.

Definition in_strings (s : string) (l : list string) : bool :=
  existsb (String.eqb s) l.

Definition severity_marker : string := "**Severity:**".

Definition carriage_return : ascii := "013"%char.

(** [f.read()] on a file opened with [open(report_file, 'r')], whose
    characters are [data]: in text mode a carriage return, together with
    the line feed after it when there is one, is read as one line feed.
    The characters of a report file are those [save_report] wrote, as they
    are where the line separator is the line feed. *)
Fixpoint read_text (data : string) : string :=
  match data with
  | EmptyString => EmptyString
  | String c rest =>
      if Ascii.eqb c carriage_return
      then match rest with
           | String c' rest' =>
               if Ascii.eqb c' PyStr.newline
               then String PyStr.newline (read_text rest')
               else String PyStr.newline (read_text rest)
           | EmptyString => String PyStr.newline EmptyString
           end
      else String c (read_text rest)
  end.

(** The loop [for line in lines] with its [break] at the first line that
    carries the marker. *)
Fixpoint scan_severity (report_name title details : string) (lines : list string)
  (critical_findings : list critical) : list critical :=
  match lines with
  | [] => critical_findings
  | line :: rest =>
      if PyStr.contains severity_marker line
      then
        let severity := PyStr.strip (PyStr.replace severity_marker "" line) in
        if in_strings (PyStr.lower severity) ["high"; "medium"]
        then (critical_findings
                ++ [{| c_report := report_name; c_title := title;
                       c_severity := severity; c_details := details |}])%list
        else critical_findings
      else scan_severity report_name title details rest critical_findings
  end.

(** The loop [for section in sections[1:]]. *)
Fixpoint scan_sections (report_name : string) (sections : list string)
  (critical_findings : list critical) : list critical :=
  match sections with
  | [] => critical_findings
  | section :: rest =>
      let lines := PyStr.lines section in
      let title := hd "" lines in
      scan_sections report_name rest
        (scan_severity report_name title (PyStr.join PyStr.nl lines) lines
           critical_findings)
  end.

(** The loop [for report_file in report_files], over the texts read. *)
Fixpoint collect_critical (contents : list string) (critical_findings : list critical)
  : list critical :=
  match contents with
  | [] => critical_findings
  | content :: rest =>
      let report_name :=
        PyStr.replace "# O3 Analysis Report: " "" (hd "" (PyStr.lines content)) in
      let sections := PyStr.split "### " content in
      collect_critical rest (scan_sections report_name (tl sections) critical_findings)
  end.

Definition critical_findings (contents : list string) : list critical :=
  collect_critical contents [].

(** The text under [## Critical Findings Summary]. *)
Definition critical_table (critical_findings : list critical) : string :=
  match critical_findings with
  | [] => "No critical (high or medium severity) findings detected." ++ PyStr.nl
  | _ =>
      "| Severity | Report | Finding |" ++ PyStr.nl
      ++ "|----------|--------|--------|" ++ PyStr.nl
      ++ String.concat ""
           (map (fun f => "| " ++ c_severity f ++ " | " ++ c_report f ++ " | "
                          ++ c_title f ++ " |" ++ PyStr.nl)
                critical_findings)
  end.

End Legacy.

(** ** The fragment of Python's [re] the scripts use

    A backtracking matcher in continuation-passing style: alternatives are
    tried left to right and a star takes as many rounds as it can before it
    gives one back, which is the order in which [re] explores a pattern. *)
Module Re.

Inductive cclass : Type :=
| Lit (c : ascii)
| Dot
| Space
| OneOf (cs : list ascii)
| NoneOf (cs : list ascii).

Inductive regex : Type :=
| Eps
| Chr (c : cclass)
| Seq (r1 r2 : regex)
| Alt (r1 r2 : regex)
| Star (r : regex)
| Eos.

Definition mem (c : ascii) (cs : list ascii) : bool := existsb (Ascii.eqb c) cs.

Definition accepts (cl : cclass) (c : ascii) : bool :=
  match cl with
  | Lit a => Ascii.eqb c a
  | Dot => negb (Ascii.eqb c PyStr.newline)
  | Space => PyStr.is_space c
  | OneOf cs => mem c cs
  | NoneOf cs => negb (mem c cs)
  end.

(** [r+] *)
Definition Plus (r : regex) : regex := Seq r (Star r).

(** A literal text, as [re.escape] makes one. *)
Fixpoint Str (s : string) : regex :=
  match s with
  | EmptyString => Eps
  | String c s' => Seq (Chr (Lit c)) (Str s')
  end.

Fixpoint cat (rs : list regex) : regex :=
  match rs with
  | [] => Eps
  | [r] => r
  | r :: rs' => Seq r (cat rs')
  end.

(** [$]: at the end of the text, or before a newline that ends it. *)
Definition at_end (s : string) : bool :=
  String.eqb s "" || String.eqb s PyStr.nl.

(** The rounds of a star whose body is matched by [step]: one more round
    first, the rest of the pattern when no round leads to a match.  A round
    must consume a character. *)
Definition star_loop (step : string -> (string -> option string) -> option string)
  (k : string -> option string) : nat -> string -> option string :=
  fix rounds (fuel : nat) (s : string) {struct fuel} : option string :=
    match fuel with
    | O => k s
    | S fuel' =>
        match step s (fun s' =>
                if (String.length s' <? String.length s)%nat
                then rounds fuel' s' else None) with
        | Some rest => Some rest
        | None => k s
        end
    end.

(** [run r s k]: match [r] at the front of [s] and hand what is left to
    [k]; the first success in the order of exploration is the result.
    [length s] rounds are enough for a star on [s]. *)
Fixpoint run (r : regex) (s : string) (k : string -> option string) {struct r}
  : option string :=
  match r with
  | Eps => k s
  | Chr cl =>
      match s with
      | String c s' => if accepts cl c then k s' else None
      | EmptyString => None
      end
  | Seq r1 r2 => run r1 s (fun s' => run r2 s' k)
  | Alt r1 r2 =>
      match run r1 s k with
      | Some rest => Some rest
      | None => run r2 s k
      end
  | Star r1 => star_loop (run r1) k (String.length s) s
  | Eos => if at_end s then k s else None
  end.

(** [re.match(r, s)]: what follows the match at the start of [s]. *)
Definition match_ (r : regex) (s : string) : option string := run r s Some.

(** The first [n] characters of [s]. *)
Definition take (n : nat) (s : string) : string := substring 0 n s.

(** [re.search(r, s)]: the leftmost match, as (text before it, [group(0)]). *)
Fixpoint search_from (r : regex) (before s : string) : option (string * string) :=
  match match_ r s with
  | Some rest => Some (before, take (String.length s - String.length rest) s)
  | None =>
      match s with
      | EmptyString => None
      | String c s' => search_from r (before ++ String c EmptyString) s'
      end
  end.

Definition search (r : regex) (s : string) : option (string * string) :=
  search_from r "" s.

Definition matches (r : regex) (s : string) : bool :=
  match match_ r s with Some _ => true | None => false end.

Definition found (r : regex) (s : string) : bool :=
  match search r s with Some _ => true | None => false end.

End Re.

(** ** The enhanced analyzer: [scripts/utils/o3_code_analyzer_enhanced.py] *)
Module Enhanced.

Import Re.

Definition tab : ascii := "009"%char.

(** The source's group body: a star over the alternative of [[^{}]] and
    of [{], [[^{}]] starred, [}]; one level of nested braces. *)
Definition braces_body : regex :=
  Star (Alt (Chr (NoneOf ["{"; "}"]%char))
            (cat [Chr (Lit "{"); Star (Chr (NoneOf ["{"; "}"]%char)); Chr (Lit "}")])).

(** The source's pattern: [function], [\s+], the escaped name, [\s*], an
    opening parenthesis, [[^{]] starred, [{], the group body, [}]. *)
Definition function_pattern (function_name : string) : regex :=
  cat [Str "function"; Plus (Chr Space); Str function_name; Star (Chr Space);
       Chr (Lit "("); Star (Chr (NoneOf ["{"]%char)); Chr (Lit "{");
       braces_body; Chr (Lit "}")].

(** The source's pattern: [const], [\s+], the escaped name, [\s*], [=],
    [\s*], then either a parenthesised [[^{]] starred or [[^=]] starred,
    [\s*], [=>], [\s*], [{], the group body, [}]. *)
Definition arrow_pattern (function_name : string) : regex :=
  cat [Str "const"; Plus (Chr Space); Str function_name; Star (Chr Space);
       Chr (Lit "="); Star (Chr Space);
       Alt (cat [Chr (Lit "("); Star (Chr (NoneOf ["{"]%char)); Chr (Lit ")")])
           (Star (Chr (NoneOf ["="]%char)));
       Star (Chr Space); Str "=>"; Star (Chr Space); Chr (Lit "{");
       braces_body; Chr (Lit "}")].

(** The source's pattern: [def], [\s+], the escaped name, [\s*], an opening
    parenthesis, [[^:]] starred, [:], then the rest of the line [[^\n]]
    starred and [\n+], then a star over lines made of [[ \t]+], [[^\n]]
    starred and [\n+]. *)
Definition indented_line_pattern : regex :=
  cat [Plus (Chr (OneOf [" "%char; tab]));
       Star (Chr (NoneOf [PyStr.newline]));
       Plus (Chr (Lit PyStr.newline))].

Definition def_pattern (function_name : string) : regex :=
  cat [Str "def"; Plus (Chr Space); Str function_name; Star (Chr Space);
       Chr (Lit "("); Star (Chr (NoneOf [":"]%char)); Chr (Lit ":");
       Star (Chr (NoneOf [PyStr.newline])); Plus (Chr (Lit PyStr.newline));
       Star indented_line_pattern].

Definition endswith_any (s : string) (suffixes : list string) : bool :=
  existsb (PyStr.endswith s) suffixes.

(** What the extraction step of [analyze_function] decides. *)
Inductive extraction : Type :=
| NotFound
| Unit (function_code : string)
| WholeFile.

Definition group0 (m : option (string * string)) (wrap : string -> string) : extraction :=
  match m with
  | Some (_, matched) => Unit (wrap matched)
  | None => NotFound
  end.

(** The [if filepath.endswith(...)] chain of [analyze_function]. *)
Definition extract_function (filepath code function_name : string) : extraction :=
  if PyStr.endswith filepath ".sol"
  then group0 (search (function_pattern function_name) code)
              (fun matched => "function " ++ function_name ++ matched)
  else if endswith_any filepath [".js"; ".jsx"; ".ts"; ".tsx"]
  then group0 (search (Alt (function_pattern function_name) (arrow_pattern function_name))
                 code)
              (fun matched => matched)
  else if PyStr.endswith filepath ".py"
  then group0 (search (def_pattern function_name) code) (fun matched => matched)
  else WholeFile.

(** *** Discovery: the [os.walk] loop of [analyze_project] *)

(** A directory: the names of its files and its sub-directories, in the
    order [os.walk] lists them. *)
Inductive tree : Type :=
| Node (files : list string) (dirs : list (string * tree)).

(** [os.path.join(a, b)] *)
Definition path_join (a b : string) : string :=
  if prefix "/" b then b
  else if String.eqb a "" || PyStr.endswith a "/" then a ++ b
  else a ++ "/" ++ b.

Definition allowed_extensions : list string :=
  [".js"; ".jsx"; ".ts"; ".tsx"; ".py"; ".sol"; ".html"; ".css"; ".scss"].

(** ["node_modules"], ["dist"], [".git"], ["__pycache__"] read as patterns. *)
Definition default_exclude_patterns : list regex :=
  [Str "node_modules"; Str "dist"; Seq (Chr Dot) (Str "git"); Str "__pycache__"].

(** [any(re.match(pattern, d) for pattern in exclude_patterns)] *)
Definition dir_excluded (exclude_patterns : list regex) (d : string) : bool :=
  existsb (fun pattern => matches pattern d) exclude_patterns.

(** [any(re.search(pattern, filepath) for pattern in exclude_patterns)] *)
Definition path_excluded (exclude_patterns : list regex) (filepath : string) : bool :=
  existsb (fun pattern => found pattern filepath) exclude_patterns.

(** The loop [for file in files] of one directory. *)
Fixpoint keep_files (exclude_patterns : list regex) (root : string) (files : list string)
  : list string :=
  match files with
  | [] => []
  | file :: rest =>
      let filepath := path_join root file in
      if path_excluded exclude_patterns filepath
      then keep_files exclude_patterns root rest
      else if endswith_any file allowed_extensions
      then filepath :: keep_files exclude_patterns root rest
      else keep_files exclude_patterns root rest
  end.

(** [os.walk], top-down, with [dirs[:]] cut down to the directories no
    pattern matches before the walk goes on. *)
Fixpoint walk (exclude_patterns : list regex) (root : string) (t : tree) : list string :=
  match t with
  | Node files dirs =>
      (keep_files exclude_patterns root files
       ++ flat_map
            (fun d =>
               if dir_excluded exclude_patterns (fst d) then []
               else walk exclude_patterns (path_join root (fst d)) (snd d))
            dirs)%list
  end.

(** [exclude_patterns or [...]]: no pattern given selects the defaults. *)
Definition effective_patterns (exclude_patterns : list regex) : list regex :=
  match exclude_patterns with
  | [] => default_exclude_patterns
  | _ => exclude_patterns
  end.

(** [code_files] after the walk. *)
Definition discover (directory_path : string) (exclude_patterns : list regex) (t : tree)
  : list string :=
  walk (effective_patterns exclude_patterns) directory_path t.

(** Every file of the tree, pruning apart: the directories entered below
    the root on the way to it, its name, and its path as [os.walk] and
    [os.path.join] build it. *)
Record entry : Type := {
  e_dirs : list string;
  e_file : string;
  e_path : string
}.

Definition below (d : string) (e : entry) : entry :=
  {| e_dirs := d :: e_dirs e; e_file := e_file e; e_path := e_path e |}.

Fixpoint tree_files (root : string) (t : tree) : list entry :=
  match t with
  | Node files dirs =>
      (map (fun file => {| e_dirs := []; e_file := file; e_path := path_join root file |})
         files
       ++ flat_map
            (fun d => map (below (fst d)) (tree_files (path_join root (fst d)) (snd d)))
            dirs)%list
  end.

(** Induction over a tree and the trees of its directories. *)
Fixpoint tree_rect_dirs (P : tree -> Prop)
  (step : forall files dirs,
      (forall d, In d dirs -> P (snd d)) -> P (Node files dirs))
  (t : tree) {struct t} : P t :=
  match t with
  | Node files dirs =>
      step files dirs
        ((fix all (ds : list (string * tree))
            : forall d, In d ds -> P (snd d) :=
            match ds with
            | [] => fun d (H : In d []) => match H with end
            | d0 :: ds' =>
                fun d (H : In d (d0 :: ds')) =>
                  match H with
                  | or_introl Heq =>
                      eq_rect d0 (fun x => P (snd x)) (tree_rect_dirs P step (snd d0)) d Heq
                  | or_intror Hin => all ds' d Hin
                  end
            end) dirs)
  end.

(** *** The world the analyzer runs in, and its state *)

Inductive file_state : Type :=
| Missing
| Unreadable (e : exn)
| Text (content : string).

Record world : Type := {
  json_loads : string -> option json;       (* json.loads, None: JSONDecodeError *)
  exn_str : exn -> string;                  (* str(e) *)
  json_repr : json -> string;               (* text of a list or a dict *)
  strftime : string -> nat -> string;       (* format, number of the clock reading *)
  file : string -> file_state;              (* what open(path) finds *)
  directory : string -> option tree;        (* os.path.isdir and os.walk *)
  urlopen : nat -> string -> string -> Legacy.http_reply;
                                            (* reply to request number n *)
  relpath : string -> string -> string;     (* os.path.relpath *)
  normpath : string -> string               (* os.path.normpath *)
}.

Record analyzer : Type := {
  api_key : string;
  output_dir : string;
  debug : bool
}.

Record state : Type := {
  clock : nat;                              (* clock readings so far *)
  requests : list (string * string);        (* system and user message of each request *)
  written : list (string * string);         (* files written: path, text *)
  stdout : list string                      (* lines printed *)
}.

Definition initial : state :=
  {| clock := 0; requests := []; written := []; stdout := [] |}.

(** A call: it may raise, and the state it leaves is kept either way. *)
Definition M (A : Type) : Type := state -> outcome A * state.

Definition ret {A : Type} (a : A) : M A := fun st => (Ok a, st).

Definition raise {A : Type} (e : exn) : M A := fun st => (Raise e, st).

Definition bindM {A B : Type} (m : M A) (f : A -> M B) : M B :=
  fun st =>
    match m st with
    | (Ok a, st') => f a st'
    | (Raise e, st') => (Raise e, st')
    end.

Definition lift {A : Type} (o : outcome A) : M A := fun st => (o, st).

(** [try: m except Exception as e: handler e] *)
Definition catch {A : Type} (m : M A) (handler : exn -> M A) : M A :=
  fun st =>
    match m st with
    | (Ok a, st') => (Ok a, st')
    | (Raise e, st') => handler e st'
    end.

Notation "x <-- m ;; k" := (bindM m (fun x => k))
  (at level 61, m at next level, right associativity).
Notation "m ;;; k" := (bindM m (fun _ => k))
  (at level 61, right associativity).

Definition print (line : string) : M unit :=
  fun st => (Ok tt, {| clock := clock st; requests := requests st;
                       written := written st;
                       stdout := (stdout st ++ [line])%list |}).

Definition when (b : bool) (m : M unit) : M unit := if b then m else ret tt.

(** [time.sleep(2)] *)
Definition sleep : M unit := ret tt.

Definition file_stamp : string := "%Y-%m-%d_%H-%M-%S".
Definition human_stamp : string := "%Y-%m-%d %H:%M:%S".

(** ["choices" in response_data and len(response_data["choices"]) > 0] *)
Definition has_choices (response_data : json) : outcome bool :=
  present <- Py.contains "choices" response_data ;;
  if present : bool
  then choices <- Py.getitem response_data "choices" ;;
       n <- Py.len choices ;;
       Ok (0 <? n)%nat
  else Ok false.

(** [response_data["choices"][0]["message"]["content"]] *)
Definition first_content (response_data : json) : outcome json :=
  choices <- Py.getitem response_data "choices" ;;
  choice <- Py.getitem0 choices ;;
  message <- Py.getitem choice "message" ;;
  Py.getitem message "content".

Section Run.

Variable w : world.
Variable self : analyzer.

(** [datetime.now().strftime(fmt)] *)
Definition now (fmt : string) : M string :=
  fun st => (Ok (strftime w fmt (clock st)),
             {| clock := S (clock st); requests := requests st;
                written := written st; stdout := stdout st |}).

(** [with open(path, "w") as f: f.write(v)]: the file is created, and
    [write] takes text only. *)
Definition write_file (path : string) (v : json) : M unit :=
  fun st =>
    match v with
    | JStr text =>
        (Ok tt, {| clock := clock st; requests := requests st;
                   written := (written st ++ [(path, text)])%list;
                   stdout := stdout st |})
    | _ =>
        (Raise TypeError,
         {| clock := clock st; requests := requests st;
            written := (written st ++ [(path, "")])%list;
            stdout := stdout st |})
    end.

(** [urllib.request.urlopen(request)] and [response.read().decode("utf-8")] *)
Definition send (system_message user_message : string) : M Legacy.http_reply :=
  fun st =>
    (Ok (urlopen w (List.length (requests st)) system_message user_message),
     {| clock := clock st;
        requests := (requests st ++ [(system_message, user_message)])%list;
        written := written st; stdout := stdout st |}).

(** [O3Analyzer.read_code_file]: the text, or [None] after a printed error. *)
Definition read_code_file (filepath : string) : M json :=
  match file w filepath with
  | Text content => ret (JStr content)
  | Missing =>
      print ("Error reading file " ++ filepath ++ ": "
             ++ exn_str w (OSError "No such file or directory")) ;;;
      ret JNull
  | Unreadable e =>
      print ("Error reading file " ++ filepath ++ ": " ++ exn_str w e) ;;;
      ret JNull
  end.

(** [os.path.exists(filepath)] *)
Definition path_exists (filepath : string) : bool :=
  match file w filepath, directory w filepath with
  | Missing, None => false
  | _, _ => true
  end.

(** [O3Analyzer._generate_error_response] *)
Definition _generate_error_response (error_message : string) : M json :=
  generated <-- now human_stamp ;;
  ret (JStr ("# O3 Analysis Report Error" ++ PyStr.nl ++ PyStr.nl
             ++ "*Generated on: " ++ generated ++ "*" ++ PyStr.nl ++ PyStr.nl
             ++ "## Error" ++ PyStr.nl ++ error_message ++ PyStr.nl ++ PyStr.nl
             ++ "Please check your API key, network connection, and try again."
             ++ PyStr.nl)).

Definition system_message (focus_areas : list string) (severity : option string)
  : string :=
  let focus_str :=
    match focus_areas with
    | [] => ""
    | _ => "Focus on these specific areas: " ++ PyStr.join ", " focus_areas ++ ". "
    end in
  let severity_str :=
    match severity with
    | Some level =>
        if String.eqb level "" then ""
        else "Only report issues with severity " ++ level ++ " or higher. "
    | None => ""
    end in
  "You are O3, an advanced code analyzer that specializes in identifying "
  ++ "security vulnerabilities, performance issues, and best practice violations. "
  ++ "Analyze the provided code thoroughly and provide detailed feedback. "
  ++ focus_str ++ severity_str
  ++ "Format your response as a markdown report with the following sections:"
  ++ PyStr.nl
  ++ "1. Summary - Brief overview with counts of issues by severity" ++ PyStr.nl
  ++ "2. Detailed Findings - Each issue with severity (High/Medium/Low/Info), "
  ++ "category, affected lines, description, and specific recommendations.".

Definition user_message (code description : string) : string :=
  "# Code Analysis Request" ++ PyStr.nl ++ PyStr.nl
  ++ "## Description" ++ PyStr.nl ++ description ++ PyStr.nl ++ PyStr.nl
  ++ "## Code" ++ PyStr.nl ++ "```" ++ PyStr.nl ++ code ++ PyStr.nl ++ "```"
  ++ PyStr.nl ++ PyStr.nl
  ++ "Please provide a comprehensive analysis identifying any issues, vulnerabilities, "
  ++ "or optimization opportunities in this code.".

(** The body of the [with urlopen(request) as response:] block. *)
Definition read_response (data : string) : M json :=
  response_data <-- lift (Legacy.loads (json_loads w) (JStr data)) ;;
  when (debug self) (print "DEBUG: API Response received") ;;;
  nonempty <-- lift (has_choices response_data) ;;
  if nonempty : bool
  then lift (first_content response_data)
  else
    print "Error: Unexpected response format from API" ;;;
    when (debug self)
      (print ("Response: " ++ Py.str (json_repr w) response_data)) ;;;
    _generate_error_response "API response error".

(** The three [except] clauses, in their order. *)
Definition on_error (e : exn) : M json :=
  match e with
  | HTTPError code reason =>
      print ("HTTP Error: " ++ Py.str_of_Z code ++ " - " ++ reason) ;;;
      when (Z.eqb code 429) (print "Rate limit exceeded. Please wait and try again.") ;;;
      _generate_error_response ("HTTP Error: " ++ Py.str_of_Z code ++ " - " ++ reason)
  | JSONDecodeError =>
      print "Error: Invalid JSON response from API" ;;;
      _generate_error_response "Invalid JSON response"
  | _ =>
      print ("Error: " ++ exn_str w e) ;;;
      _generate_error_response (exn_str w e)
  end.

(** [O3Analyzer.analyze_code_snippet]: what it returns is whatever the reply
    holds under [choices[0].message.content], or an error report. *)
Definition analyze_code_snippet (code description : string)
  (focus_areas : list string) (severity : option string) : M json :=
  _ <-- now human_stamp ;;
  let system_message := system_message focus_areas severity in
  let user_message := user_message code description in
  when (debug self)
    (print "DEBUG: API Request" ;;;
     print ("System message: " ++ system_message) ;;;
     print ("User message: " ++ Re.take 100 user_message ++ "...")) ;;;
  catch
    (reply <-- send system_message user_message ;;
     match reply with
     | Legacy.RequestRaises e => raise e
     | Legacy.ResponseData data => read_response data
     end)
    on_error.

(** [os.path.basename] *)
Fixpoint basename (path : string) : string :=
  match path with
  | EmptyString => EmptyString
  | String c rest =>
      if PyStr.contains "/" rest then basename rest
      else if Ascii.eqb c "/" then rest
      else path
  end.

(** The description [analyze_code_file] gives of a file. *)
Definition file_description (filepath : string) (focus_areas : list string) : string :=
  "Analysis of file: " ++ filepath
  ++ match focus_areas with
     | [] => ""
     | _ => " with focus on: " ++ PyStr.join ", " focus_areas
     end.

(** [O3Analyzer.analyze_code_file] *)
Definition analyze_code_file (filepath : string) (focus_areas : list string)
  (severity : option string) : M json :=
  code <-- read_code_file filepath ;;
  if negb (Py.truthy code) then ret JNull
  else
    let file_basename := basename filepath in
    print "Analyzing: Code file..." ;;;
    let description := file_description filepath focus_areas in
    result <-- analyze_code_snippet (Py.str (json_repr w) code) description
                 focus_areas severity ;;
    timestamp <-- now file_stamp ;;
    let report_filename :=
      PyStr.replace "." "_" file_basename ++ "_" ++ timestamp ++ ".md" in
    let report_path := path_join (output_dir self) report_filename in
    write_file report_path result ;;;
    print ("Report saved to " ++ report_path) ;;;
    ret result.

(** [O3Analyzer.analyze_function] *)
Definition analyze_function (filepath function_name : string)
  (focus_areas : list string) (severity : option string) : M json :=
  code <-- read_code_file filepath ;;
  if negb (Py.truthy code) then ret JNull
  else
    print ("Analyzing: Function '" ++ function_name ++ "' from "
           ++ basename filepath ++ "...") ;;;
    match extract_function filepath (Py.str (json_repr w) code) function_name with
    | NotFound =>
        print ("Function " ++ function_name ++ " not found in " ++ filepath) ;;;
        ret JNull
    | WholeFile =>
        print "Function extraction not supported for this file type. Analyzing entire file." ;;;
        analyze_code_file filepath focus_areas severity
    | Unit function_code =>
        let description :=
          "Analysis of function '" ++ function_name ++ "' in " ++ basename filepath in
        result <-- analyze_code_snippet function_code description focus_areas severity ;;
        timestamp <-- now file_stamp ;;
        let report_path :=
          path_join (output_dir self) ("function_" ++ function_name ++ "_" ++ timestamp ++ ".md") in
        write_file report_path result ;;;
        print ("Report saved to " ++ report_path) ;;;
        ret result
    end.

(** [re.search(r"## Summary\n\n(.*?)(?=\n##|\Z)", report, re.DOTALL)]:
    the lazy group stops before the first ["\n##"], or at the end. *)
Fixpoint until_heading (s : string) : string :=
  if prefix (PyStr.nl ++ "##") s then ""
  else match s with
       | EmptyString => ""
       | String c s' => String c (until_heading s')
       end.

Definition summary_heading : string := "## Summary" ++ PyStr.nl ++ PyStr.nl.

Fixpoint drop (n : nat) (s : string) : string :=
  match n, s with
  | S n', String _ s' => drop n' s'
  | _, _ => s
  end.

(** [summary_match.group(1)], when there is a match. *)
Fixpoint summary_match (report : string) : option string :=
  if prefix summary_heading report
  then Some (until_heading (drop (String.length summary_heading) report))
  else match report with
       | EmptyString => None
       | String _ report' => summary_match report'
       end.

(** The loops that add the summary of each report; [re.search] takes text
    only. *)
Fixpoint add_summaries (name_of : string -> string) (results : list (string * json))
  (report : string) : outcome string :=
  match results with
  | [] => Ok report
  | (path, result) :: rest =>
      match result with
      | JStr text =>
          match summary_match text with
          | Some summary =>
              add_summaries name_of rest
                (report ++ "### " ++ name_of path ++ PyStr.nl ++ PyStr.nl
                 ++ PyStr.strip summary ++ PyStr.nl ++ PyStr.nl)
          | None => add_summaries name_of rest report
          end
      | _ => Raise TypeError
      end
  end.

(** The loop [for filepath in file_list] of [run_batch_analysis]. *)
Fixpoint batch_loop (focus_areas : list string) (severity : option string)
  (file_list : list string) (results : list (string * json))
  : M (list (string * json)) :=
  match file_list with
  | [] => ret results
  | filepath :: rest =>
      if negb (path_exists filepath)
      then
        print ("Warning: File " ++ filepath ++ " not found, skipping.") ;;;
        batch_loop focus_areas severity rest results
      else
        result <-- analyze_code_file filepath focus_areas severity ;;
        sleep ;;;
        batch_loop focus_areas severity rest (results ++ [(filepath, result)])%list
  end.

(** [O3Analyzer.run_batch_analysis] *)
Definition run_batch_analysis (file_list : list string) (focus_areas : list string)
  (severity : option string) : M string :=
  results <-- batch_loop focus_areas severity file_list [] ;;
  timestamp <-- now file_stamp ;;
  let batch_report_filename := "batch_analysis_" ++ timestamp ++ ".md" in
  let batch_report_path := path_join (output_dir self) batch_report_filename in
  generated <-- now human_stamp ;;
  let batch_report :=
    "# Batch Analysis Report" ++ PyStr.nl ++ PyStr.nl
    ++ "*Generated on: " ++ generated ++ "*" ++ PyStr.nl ++ PyStr.nl
    ++ "## Files Analyzed" ++ PyStr.nl ++ PyStr.nl
    ++ String.concat "" (map (fun r => "- " ++ fst r ++ PyStr.nl) results)
    ++ PyStr.nl ++ "## Summary of Findings" ++ PyStr.nl ++ PyStr.nl in
  batch_report <-- lift (add_summaries basename results batch_report) ;;
  write_file batch_report_path (JStr batch_report) ;;;
  print ("Batch analysis complete. Report saved to " ++ batch_report_path) ;;;
  ret batch_report_path.

(** The loop [for filepath in code_files] of [analyze_project]; the state
    of the loop is [consolidated_report] and [individual_reports]. *)
Fixpoint project_loop (directory_path : string) (focus_areas : list string)
  (severity : option string) (code_files : list string)
  (consolidated_report : string) (individual_reports : list (string * json))
  : M (string * list (string * json)) :=
  match code_files with
  | [] => ret (consolidated_report, individual_reports)
  | filepath :: rest =>
      let rel_path := relpath w filepath directory_path in
      let consolidated_report := consolidated_report ++ "- " ++ rel_path ++ PyStr.nl in
      code <-- read_code_file filepath ;;
      if Py.truthy code
      then
        report <-- analyze_code_file filepath focus_areas severity ;;
        let individual_reports := (individual_reports ++ [(rel_path, report)])%list in
        file_timestamp <-- now file_stamp ;;
        let file_report_filename :=
          PyStr.replace "." "_" (basename filepath) ++ "_" ++ file_timestamp ++ ".md" in
        write_file (path_join (output_dir self) file_report_filename) report ;;;
        sleep ;;;
        project_loop directory_path focus_areas severity rest
          consolidated_report individual_reports
      else
        project_loop directory_path focus_areas severity rest
          consolidated_report individual_reports
  end.

Definition cap_warning : string :=
  "Warning: Limiting analysis to the first 5 files to prevent excessive API usage.".

(** [O3Analyzer.analyze_project]; [None] is the return on an invalid
    directory. *)
Definition analyze_project (directory_path : string) (exclude_patterns : list regex)
  (focus_areas : list string) (severity : option string) : M (option string) :=
  match directory w directory_path with
  | None =>
      print ("Error: " ++ directory_path ++ " is not a valid directory") ;;;
      ret None
  | Some t =>
      print ("Analyzing project: " ++ directory_path ++ "...") ;;;
      let code_files := discover directory_path exclude_patterns t in
      print ("Found " ++ Py.str_of_nat (List.length code_files) ++ " files to analyze") ;;;
      timestamp <-- now file_stamp ;;
      let project_name := basename (normpath w directory_path) in
      let project_report_filename :=
        "project_" ++ project_name ++ "_" ++ timestamp ++ ".md" in
      let project_report_path := path_join (output_dir self) project_report_filename in
      generated <-- now human_stamp ;;
      let consolidated_report :=
        "# Project Analysis: " ++ project_name ++ PyStr.nl ++ PyStr.nl
        ++ "*Generated on: " ++ generated ++ "*" ++ PyStr.nl ++ PyStr.nl
        ++ "## Overview" ++ PyStr.nl ++ PyStr.nl
        ++ "This report combines analysis of multiple files in the project."
        ++ PyStr.nl ++ PyStr.nl
        ++ "## Files Analyzed" ++ PyStr.nl ++ PyStr.nl in
      code_files <-- (if (5 <? List.length code_files)%nat
                      then
                        print cap_warning ;;;
                        print "Consider analyzing specific directories or files instead." ;;;
                        ret (firstn 5 code_files)
                      else ret code_files) ;;
      looped <-- project_loop directory_path focus_areas severity code_files
                   consolidated_report [] ;;
      let consolidated_report :=
        fst looped ++ PyStr.nl ++ "## Summary of Findings" ++ PyStr.nl ++ PyStr.nl in
      consolidated_report <-- lift (add_summaries (fun rel_path => rel_path)
                                      (snd looped) consolidated_report) ;;
      let consolidated_report :=
        consolidated_report ++ PyStr.nl ++ "## Detailed Reports" ++ PyStr.nl ++ PyStr.nl
        ++ "Individual file reports are available in the reports directory."
        ++ PyStr.nl in
      write_file project_report_path (JStr consolidated_report) ;;;
      print ("Project analysis complete. Consolidated report saved to "
             ++ project_report_path) ;;;
      ret (Some project_report_path)
  end.

End Run.

End Enhanced.

(** ** The consolidated report as the specification words it

    The cross-cut table holds one row for each finding section whose
    severity line reads High or Medium, over all folded reports, in order. *)
Module TableSpec.

(** The finding sections of a rendered report: what follows each ["### "]. *)
Definition spec_sections (content : string) : list string :=
  tl (PyStr.split "### " content).

(** The severity line of a section: its first line with the marker. *)
Definition spec_severity_line (section : string) : option string :=
  find (PyStr.contains Legacy.severity_marker) (PyStr.lines section).

(** What the severity line reads: the line without marker and white space. *)
Definition spec_rendered_severity (section : string) : option string :=
  option_map (fun line => PyStr.strip (PyStr.replace Legacy.severity_marker "" line))
    (spec_severity_line section).

Definition spec_reads (levels : list string) (section : string) : bool :=
  match spec_rendered_severity section with
  | Some severity => Legacy.in_strings (PyStr.lower severity) levels
  | None => false
  end.

Definition spec_report_name (content : string) : string :=
  PyStr.replace "# O3 Analysis Report: " "" (hd "" (PyStr.lines content)).

Definition spec_row (content section : string) : Legacy.critical :=
  {| Legacy.c_report := spec_report_name content;
     Legacy.c_title := hd "" (PyStr.lines section);
     Legacy.c_severity :=
       match spec_rendered_severity section with Some severity => severity | None => "" end;
     Legacy.c_details := PyStr.join PyStr.nl (PyStr.lines section) |}.

Definition spec_table (contents : list string) : list Legacy.critical :=
  flat_map
    (fun content =>
       map (spec_row content)
         (filter (spec_reads ["high"; "medium"]) (spec_sections content)))
    contents.

(** The line of the table for one row. *)
Definition row_line (row : Legacy.critical) : string :=
  "| " ++ Legacy.c_severity row ++ " | " ++ Legacy.c_report row ++ " | "
  ++ Legacy.c_title row ++ " |" ++ PyStr.nl.

(** The text under the heading of the table: the two lines of the table
    head and one line for each row, or one sentence when there is no row. *)
Definition table_text (rows : list string) : string :=
  match rows with
  | [] => "No critical (high or medium severity) findings detected." ++ PyStr.nl
  | _ =>
      "| Severity | Report | Finding |" ++ PyStr.nl
      ++ "|----------|--------|--------|" ++ PyStr.nl
      ++ String.concat "" rows
  end.

Definition spec_table_text (contents : list string) : string :=
  table_text (map row_line (spec_table contents)).

(** The row the inner loop adds for the lines of one section, if any. *)
Definition row_of_lines (report_name title details : string) (lines : list string)
  : list Legacy.critical :=
  match find (PyStr.contains Legacy.severity_marker) lines with
  | Some line =>
      let severity := PyStr.strip (PyStr.replace Legacy.severity_marker "" line) in
      if Legacy.in_strings (PyStr.lower severity) ["high"; "medium"]
      then [{| Legacy.c_report := report_name; Legacy.c_title := title;
               Legacy.c_severity := severity; Legacy.c_details := details |}]
      else []
  | None => []
  end.

End TableSpec.

(** ** Python sources as lines, for the statements on extraction *)
Module PySource.

Definition is_blank (c : ascii) : bool := Ascii.eqb c " " || Ascii.eqb c Enhanced.tab.
Definition is_newline (c : ascii) : bool := Ascii.eqb c PyStr.newline.

(** [n] newline characters. *)
Fixpoint newlines (n : nat) : string :=
  match n with
  | O => ""
  | S n' => String PyStr.newline (newlines n')
  end.

(** A line that begins with a space or a tab, with its newline and the
    empty lines that follow it. *)
Record indented_line : Type := {
  lead : ascii;
  rest_of_line : string;
  empty_lines : nat
}.

Definition well_formed (l : indented_line) : Prop :=
  is_blank (lead l) = true
  /\ PyStr.all (fun c => negb (is_newline c)) (rest_of_line l) = true.

Definition render (l : indented_line) : string :=
  String (lead l) (rest_of_line l) ++ newlines (S (empty_lines l)).

Definition render_all (body : list indented_line) : string :=
  String.concat "" (map render body).

(** A declaration as the pattern reads it: [def], white space, the name,
    white space if any, the text from the parenthesis up to the first
    colon, the rest of that line, its newline and the empty lines after it. *)
Definition declaration (gap function_name space signature tail : string) (empty : nat)
  : string :=
  "def" ++ gap ++ function_name ++ space ++ "(" ++ signature ++ ":" ++ tail
  ++ newlines (S empty).

(** What follows [a] in a text that begins with it. *)
Definition after (a s : string) : option string :=
  if prefix a s then Some (Enhanced.drop (String.length a) s) else None.




(** The last character of a text. *)
Fixpoint last_char (s : string) : option ascii :=
  match s with
  | EmptyString => None
  | String c EmptyString => Some c
  | String _ s' => last_char s'
  end.




End PySource.

(** ** What a run leaves behind, for the statements on whole runs *)
Module RunSpec.

Import Enhanced.

(** The run [m] from [st] returns, and [Q] holds of its value and of the
    state it leaves. *)
Definition post {A : Type} (m : M A) (st : state) (Q : A -> state -> Prop) : Prop :=
  match m st with
  | (Ok a, st') => Q a st'
  | (Raise _, _) => False
  end.

(** From [st] to [st']: the requests [sent] were added, in this order, and
    no printed line was lost. *)
Definition grows (sent : list (string * string)) (st st' : state) : Prop :=
  requests st' = (requests st ++ sent)%list
  /\ incl (stdout st) (stdout st').

Definition is_text (v : json) : Prop := exists text, v = JStr text.

(** Whenever a reply decodes and holds a content, the content is text. *)
Definition textual (w : world) : Prop :=
  forall n system user data response_data content,
    urlopen w n system user = Legacy.ResponseData data ->
    json_loads w data = Some response_data ->
    first_content response_data = Ok content ->
    is_text content.

(** The file can be read and is not empty. *)
Definition readable (w : world) (filepath : string) : Prop :=
  exists code, file w filepath = Text code /\ code <> "".

Definition text_of (w : world) (filepath : string) : string :=
  match file w filepath with
  | Text code => code
  | _ => ""
  end.

(** [read_code_file] gives a text that is not empty: the test [if code]
    of the project loop. *)
Definition has_code (w : world) (filepath : string) : bool :=
  match file w filepath with
  | Text code => negb (String.eqb code "")
  | _ => false
  end.

(** The request that dispatches the file [filepath] for analysis. *)
Definition request_for (w : world) (focus_areas : list string) (severity : option string)
  (filepath : string) : string * string :=
  (system_message focus_areas severity,
   user_message (text_of w filepath) (file_description filepath focus_areas)).

(** The files the loop of [analyze_project] goes over. *)
Definition capped (code_files : list string) : list string :=
  if (5 <? List.length code_files)%nat then firstn 5 code_files else code_files.

Definition texts (results : list (string * json)) : Prop :=
  Forall (fun r => is_text (snd r)) results.

End RunSpec.

(** ** Reports rendered from well-formed findings, for the statement on the
    consolidated table *)
Module ReportSpec.

(** A finding dict whose severity is absent or one of the four counters. *)
Definition known_severity (finding : json) : Prop :=
  exists entries,
    finding = JDict entries
    /\ match Py.assoc "severity" entries with
       | None => True
       | Some v => exists s, v = JStr s /\ Legacy.has_key s Legacy.severity_counts0 = true
       end.

(** A decimal digit or a minus sign. *)
Definition digit_or_minus (c : ascii) : bool :=
  let n := nat_of_ascii c in ((48 <=? n) && (n <=? 57) || (n =? 45))%nat.

Record issue : Type := {
  i_severity : string;
  i_category : string;
  i_title : string;
  i_description : string;
  i_lines : list Z;
  i_recommendation : string
}.

(** The finding dict of an issue, with the six keys of the source's
    templates. *)
Definition issue_json (x : issue) : json :=
  Legacy.finding (i_severity x) (i_category x) (i_title x) (i_description x)
    (i_lines x) (i_recommendation x).

Definition no_hash (c : ascii) : bool := negb (Ascii.eqb c "#").
Definition no_star (c : ascii) : bool := negb (Ascii.eqb c "*").
Definition no_newline (c : ascii) : bool := negb (Ascii.eqb c PyStr.newline).
Definition no_return (c : ascii) : bool := negb (Ascii.eqb c Legacy.carriage_return).

(** The severity is one of the four counters; no text holds a [#] or a
    carriage return; the title is one line without [*]. *)
Definition clean (x : issue) : Prop :=
  Legacy.has_key (i_severity x) Legacy.severity_counts0 = true
  /\ PyStr.all no_hash (i_title x) = true
  /\ PyStr.all no_star (i_title x) = true
  /\ PyStr.all no_newline (i_title x) = true
  /\ PyStr.all no_hash (i_category x) = true
  /\ PyStr.all no_hash (i_description x) = true
  /\ PyStr.all no_hash (i_recommendation x) = true
  /\ PyStr.all no_return (i_title x) = true
  /\ PyStr.all no_return (i_category x) = true
  /\ PyStr.all no_return (i_description x) = true
  /\ PyStr.all no_return (i_recommendation x) = true.

Record unit_report : Type := {
  r_name : string;
  r_generated : string;
  r_issues : list issue
}.

Definition clean_report (r : unit_report) : Prop :=
  PyStr.all no_hash (r_name r) = true
  /\ PyStr.all no_newline (r_name r) = true
  /\ PyStr.all no_hash (r_generated r) = true
  /\ Forall clean (r_issues r)
  /\ PyStr.all no_return (r_name r) = true
  /\ PyStr.all no_return (r_generated r) = true.

(** The text [save_report] writes for the report. *)
Definition rendered (repr : json -> string) (now : string) (r : unit_report)
  : outcome string :=
  Legacy.save_report repr (r_generated r)
    (Legacy.analysis_dict now (JList (map issue_json (r_issues r)))) (r_name r).

Definition critical_issue (x : issue) : bool :=
  Legacy.in_strings (i_severity x) ["high"; "medium"].

(** The heading of finding number [i]. *)
Definition title_line (i : nat) (x : issue) : string :=
  Py.str_of_nat i ++ ". " ++ i_title x.

(** The rows the findings of one report should give: severity as
    rendered, report name, numbered title. *)
Fixpoint expected_rows (name : string) (i : nat) (issues : list issue)
  : list (string * string * string) :=
  match issues with
  | [] => []
  | x :: rest =>
      ((if critical_issue x
        then [(PyStr.capitalize (i_severity x), name, title_line i x)]
        else [])
       ++ expected_rows name (S i) rest)%list
  end.

Definition row_cells (c : Legacy.critical) : string * string * string :=
  (Legacy.c_severity c, Legacy.c_report c, Legacy.c_title c).

(** The line of the table for the row with these cells. *)
Definition cells_line (cells : string * string * string) : string :=
  "| " ++ fst (fst cells) ++ " | " ++ snd (fst cells) ++ " | " ++ snd cells ++ " |"
  ++ PyStr.nl.

(** The table the findings of the reports should give. *)
Definition expected_table (reports : list unit_report) : string :=
  TableSpec.table_text
    (map cells_line
       (flat_map (fun r => expected_rows (r_name r) 1 (r_issues r)) reports)).

(** The pieces of the rendered text. *)
Definition severity_line (x : issue) : string :=
  "**Severity:** " ++ PyStr.capitalize (i_severity x) ++ "  ".

Definition line_part (lines : list Z) : string :=
  match lines with
  | [] => ""
  | _ => "**Line(s):** " ++ PyStr.join ", " (map Py.str_of_Z lines) ++ "  " ++ PyStr.nl
  end.

Definition after_severity (x : issue) : string :=
  "**Category:** " ++ PyStr.replace "_" " " (PyStr.capitalize (i_category x))
  ++ "  " ++ PyStr.nl
  ++ line_part (i_lines x)
  ++ PyStr.nl ++ i_description x ++ PyStr.nl ++ PyStr.nl
  ++ "**Recommendation:**  " ++ PyStr.nl ++ i_recommendation x
  ++ PyStr.nl ++ PyStr.nl
  ++ "---" ++ PyStr.nl ++ PyStr.nl.

(** What follows ["### "] for finding number [i]. *)
Definition body (i : nat) (x : issue) : string :=
  title_line i x ++ PyStr.nl ++ "" ++ PyStr.nl ++ severity_line x ++ PyStr.nl
  ++ after_severity x.

Fixpoint bodies (i : nat) (issues : list issue) : list string :=
  match issues with
  | [] => []
  | x :: rest => body i x :: bodies (S i) rest
  end.

Fixpoint sections_text (i : nat) (issues : list issue) : string :=
  match issues with
  | [] => ""
  | x :: rest => ("### " ++ body i x) ++ sections_text (S i) rest
  end.

Definition heading : string := "# O3 Analysis Report: ".

(** What precedes the first finding. *)
Definition preamble (generated name : string) (counts : list (string * nat)) : string :=
  (heading ++ name) ++ PyStr.nl ++ PyStr.nl
  ++ "*Generated on: " ++ generated ++ "*" ++ PyStr.nl ++ PyStr.nl
  ++ "## Summary" ++ PyStr.nl ++ PyStr.nl
  ++ "| Severity | Count |" ++ PyStr.nl
  ++ "|----------|-------|" ++ PyStr.nl
  ++ Legacy.summary_rows counts
  ++ PyStr.nl ++ "## Detailed Findings" ++ PyStr.nl ++ PyStr.nl.

End ReportSpec.

(** ** Concrete worlds for the closed examples *)
Module Fixture.

Definition dq : string := String "034"%char "".
Definition bs : string := String "092"%char "".

(** A decoder given by the documents it is asked about: each listed text
    decodes to the value [json.loads] gives for it; any other text counts
    as undecodable. *)
Fixpoint decode (table : list (string * json)) (text : string) : option json :=
  match table with
  | [] => None
  | (doc, v) :: table' => if String.eqb text doc then Some v else decode table' text
  end.

(** The reply [{"choices": [{"message": {"content": TEXT}}]}], with [TEXT]
    already written as a JSON string literal, and what it decodes to. *)
Definition body (literal : string) : string :=
  "{" ++ dq ++ "choices" ++ dq ++ ": [{" ++ dq ++ "message" ++ dq ++ ": {"
  ++ dq ++ "content" ++ dq ++ ": " ++ literal ++ "}}]}".

Definition body_value (content : json) : json :=
  JDict [("choices", JList [JDict [("message", JDict [("content", content)])]])].

(** The content [{"findings": null}] and its JSON string literal. *)
Definition null_findings : string := "{" ++ dq ++ "findings" ++ dq ++ ": null}".
Definition null_findings_literal : string :=
  dq ++ "{" ++ bs ++ dq ++ "findings" ++ bs ++ dq ++ ": null}" ++ dq.

(** The content [{"summary": "ok"}]: an object without findings. *)
Definition no_findings : string :=
  "{" ++ dq ++ "summary" ++ dq ++ ": " ++ dq ++ "ok" ++ dq ++ "}".
Definition no_findings_literal : string :=
  dq ++ "{" ++ bs ++ dq ++ "summary" ++ bs ++ dq ++ ": " ++ bs ++ dq ++ "ok"
  ++ bs ++ dq ++ "}" ++ dq.

(** The content [{"findings": [{"severity": "critical", "title": "Unchecked call"}]}]. *)
Definition critical_finding : string :=
  "{" ++ dq ++ "findings" ++ dq ++ ": [{" ++ dq ++ "severity" ++ dq ++ ": "
  ++ dq ++ "critical" ++ dq ++ ", " ++ dq ++ "title" ++ dq ++ ": " ++ dq
  ++ "Unchecked call" ++ dq ++ "}]}".
Definition critical_finding_literal : string :=
  dq ++ "{" ++ bs ++ dq ++ "findings" ++ bs ++ dq ++ ": [{" ++ bs ++ dq
  ++ "severity" ++ bs ++ dq ++ ": " ++ bs ++ dq ++ "critical" ++ bs ++ dq ++ ", "
  ++ bs ++ dq ++ "title" ++ bs ++ dq ++ ": " ++ bs ++ dq ++ "Unchecked call"
  ++ bs ++ dq ++ "}]}" ++ dq.

Definition critical_finding_value : json :=
  JDict [("findings",
          JList [JDict [("severity", JStr "critical"); ("title", JStr "Unchecked call")]])].

(** A report as the backend writes one, and its JSON string literal. *)
Definition report : string :=
  "## Summary" ++ PyStr.nl ++ PyStr.nl ++ "No issues." ++ PyStr.nl.
Definition report_literal : string :=
  dq ++ "## Summary" ++ bs ++ "n" ++ bs ++ "n" ++ "No issues." ++ bs ++ "n" ++ dq.

Definition loads : string -> option json :=
  decode
    [(body null_findings_literal, body_value (JStr null_findings));
     (null_findings, JDict [("findings", JNull)]);
     (body no_findings_literal, body_value (JStr no_findings));
     (no_findings, JDict [("summary", JStr "ok")]);
     (body critical_finding_literal, body_value (JStr critical_finding));
     (critical_finding, critical_finding_value);
     (body "null", body_value JNull);
     (body report_literal, body_value (JStr report))].

(** A clock that always reads the same second. *)
Definition frozen_clock (fmt : string) (n : nat) : string :=
  if String.eqb fmt Enhanced.file_stamp then "2025-01-01_00-00-00"
  else "2025-01-01 00:00:00".

(** A world given by its files and by the reply to each request. *)
Definition world_of (files : string -> Enhanced.file_state)
  (dirs : string -> option Enhanced.tree) (replies : nat -> Legacy.http_reply)
  : Enhanced.world :=
  {| Enhanced.json_loads := loads;
     Enhanced.exn_str := fun _ => "error";
     Enhanced.json_repr := fun _ => "...";
     Enhanced.strftime := frozen_clock;
     Enhanced.file := files;
     Enhanced.directory := dirs;
     Enhanced.urlopen := fun n _ _ => replies n;
     Enhanced.relpath := fun path _ => path;
     Enhanced.normpath := fun path => path |}.

Definition analyzer : Enhanced.analyzer :=
  {| Enhanced.api_key := "key"; Enhanced.output_dir := "analysis_reports";
     Enhanced.debug := false |}.

(** Files [a.py] and [b.py] hold code; [locked.py] exists and cannot be
    read. *)
Definition files (path : string) : Enhanced.file_state :=
  if String.eqb path "a.py" then Enhanced.Text "print(1)"
  else if String.eqb path "b.py" then Enhanced.Text "print(2)"
  else if String.eqb path "locked.py" then Enhanced.Unreadable (OSError "Permission denied")
  else Enhanced.Missing.

Definition no_dirs (path : string) : option Enhanced.tree := None.

(** Every request is answered with the report. *)
Definition answers_report (n : nat) : Legacy.http_reply :=
  Legacy.ResponseData (body report_literal).

(** The first request is answered with a null content, the others with
    the report. *)
Definition first_answer_null (n : nat) : Legacy.http_reply :=
  match n with
  | O => Legacy.ResponseData (body "null")
  | S _ => Legacy.ResponseData (body report_literal)
  end.

(** Twelve source files in the directory [proj], all of them readable. *)
Definition twelve : list string :=
  ["f01.py"; "f02.py"; "f03.py"; "f04.py"; "f05.py"; "f06.py";
   "f07.py"; "f08.py"; "f09.py"; "f10.py"; "f11.py"; "f12.py"].

Definition every_file (path : string) : Enhanced.file_state := Enhanced.Text "print(1)".

Definition project_dirs (path : string) : option Enhanced.tree :=
  if String.eqb path "proj" then Some (Enhanced.Node twelve []) else None.

(** The same twelve files, the first of them empty. *)
Definition first_empty (path : string) : Enhanced.file_state :=
  if String.eqb path "proj/f01.py" then Enhanced.Text "" else Enhanced.Text "print(1)".

End Fixture.

(** ** Lines and braces, for the statements on the legacy line scan *)

Module BraceSpec.

(** Opening minus closing braces of a line. *)
Definition braces (line : string) : Z :=
  (Z.of_nat (PyStr.count_char "{" line) - Z.of_nat (PyStr.count_char "}" line))%Z.

(** The counter after the lines [ls], from the value [d]. *)
Definition depth (d : Z) (ls : list string) : Z :=
  fold_left (fun d line => (d + braces line)%Z) ls d.

(** The test of the scan: the line holds the text [function NAME]. *)
Definition declares (function_name line : string) : bool :=
  PyStr.contains ("function " ++ function_name) line.

End BraceSpec.

(** ** Findings as [save_report] reads them *)

Module FindingSpec.

(** [finding.get(key, default)] on a dict. *)
Definition field (key : string) (default : json) (finding : json) : json :=
  match finding with
  | JDict entries =>
      match Py.assoc key entries with
      | Some v => v
      | None => default
      end
  | _ => default
  end.

(** The severity a finding is counted under. *)
Definition severity_of (finding : json) : string :=
  match field "severity" (JStr "info") finding with
  | JStr s => s
  | _ => ""
  end.

(** The number of findings counted under [k]. *)
Definition tally (k : string) (findings : list json) : nat :=
  List.length (filter (fun finding => String.eqb (severity_of finding) k) findings).

(** The value is a [str]. *)
Definition is_text (v : json) : bool :=
  match v with
  | JStr _ => true
  | _ => false
  end.

(** [map(str, v)] can run over the value: a list, a dict or a [str]. *)
Definition iterable (v : json) : bool :=
  match v with
  | JList _ | JDict _ | JStr _ => true
  | _ => false
  end.

(** What the first loop of [save_report] needs of a finding: a dict
    whose severity, [info] when absent, is one of the four counters. *)
Definition counted (finding : json) : bool :=
  match finding with
  | JDict _ =>
      match field "severity" (JStr "info") finding with
      | JStr s => Legacy.has_key s Legacy.severity_counts0
      | _ => false
      end
  | _ => false
  end.

(** What the second loop needs of it: a dict whose severity and category
    are text and whose line numbers are empty or can be iterated; each of
    them may be absent. *)
Definition formats (finding : json) : bool :=
  match finding with
  | JDict _ =>
      is_text (field "severity" (JStr "info") finding)
      && is_text (field "category" (JStr "unknown") finding)
      && (negb (Py.truthy (field "line_numbers" (JList []) finding))
          || iterable (field "line_numbers" (JList []) finding))
  | _ => false
  end.

(** What [save_report] needs of a finding. *)
Definition renders (finding : json) : bool := counted finding && formats finding.

End FindingSpec.

(** ** Replies the legacy dispatcher takes findings from *)

Module ReplySpec.

(** The reply decodes, its first choice holds a content that is text, and
    that text decodes to the object with the entries [entries]. *)
Definition carries (json_loads : string -> option json) (reply : Legacy.http_reply)
  (entries : list (string * json)) : Prop :=
  exists data result choice more message content,
    reply = Legacy.ResponseData data
    /\ json_loads data = Some result
    /\ Py.getitem result "choices" = Ok (JList (choice :: more))
    /\ Py.getitem choice "message" = Ok message
    /\ Py.getitem message "content" = Ok (JStr content)
    /\ json_loads content = Some (JDict entries).

(** The findings entry of the object, and an empty list when it has none. *)
Definition findings_of (entries : list (string * json)) : json :=
  match Py.assoc "findings" entries with
  | Some v => v
  | None => JList []
  end.

(** The focus list the dispatcher works with. *)
Definition focus_of (focus_areas : option (list string)) : list string :=
  match focus_areas with
  | Some (a :: l) => a :: l
  | _ => Legacy.default_focus_areas
  end.

End ReplySpec.

(** ** The outcome of a dispatch of the enhanced analyzer, by its reply *)

Module DispatchSpec.

Import Enhanced.

(** The text of an error report generated at [generated]. *)
Definition error_report (generated error_message : string) : string :=
  "# O3 Analysis Report Error" ++ PyStr.nl ++ PyStr.nl
  ++ "*Generated on: " ++ generated ++ "*" ++ PyStr.nl ++ PyStr.nl
  ++ "## Error" ++ PyStr.nl ++ error_message ++ PyStr.nl ++ PyStr.nl
  ++ "Please check your API key, network connection, and try again."
  ++ PyStr.nl.

(** The message each [except] clause puts in the error report. *)
Definition error_message (w : world) (e : exn) : string :=
  match e with
  | HTTPError code reason => "HTTP Error: " ++ Py.str_of_Z code ++ " - " ++ reason
  | JSONDecodeError => "Invalid JSON response"
  | _ => exn_str w e
  end.

(** What a reply amounts to: the content of its first choice, or the
    message of the error report that stands for it. *)
Definition reply_content (w : world) (reply : Legacy.http_reply) : json + string :=
  match reply with
  | Legacy.RequestRaises e => inr (error_message w e)
  | Legacy.ResponseData data =>
      match json_loads w data with
      | None => inr "Invalid JSON response"
      | Some response_data =>
          match has_choices response_data with
          | Raise e => inr (error_message w e)
          | Ok false => inr "API response error"
          | Ok true =>
              match first_content response_data with
              | Ok content => inl content
              | Raise e => inr (error_message w e)
              end
          end
      end
  end.

(** The value of a dispatch whose request got [reply], when the clock
    reads [generated] after the request. *)
Definition dispatch_value (w : world) (generated : string) (reply : Legacy.http_reply)
  : json :=
  match reply_content w reply with
  | inl content => content
  | inr message => JStr (error_report generated message)
  end.

(** Clock readings of a dispatch: one at its start, one more for an error
    report. *)
Definition dispatch_ticks (w : world) (reply : Legacy.http_reply) : nat :=
  match reply_content w reply with
  | inl _ => 1
  | inr _ => 2
  end.

(** The run added no request and wrote no file. *)
Definition silent (st st' : state) : Prop :=
  requests st' = requests st /\ written st' = written st.

(** The name of the report file of [filepath] written at [timestamp]. *)
Definition report_path (self : analyzer) (filepath timestamp : string) : string :=
  path_join (output_dir self)
    (PyStr.replace "." "_" (basename filepath) ++ "_" ++ timestamp ++ ".md").

(** The two writes a project run makes for one analysed file: the same
    text under the same base name, stamped with two readings of the clock
    that follow each other. *)
Definition written_twice (w : world) (self : analyzer) (filepath : string)
  (chunk : list (string * string)) : Prop :=
  exists reading text,
    chunk = [(report_path self filepath (strftime w file_stamp reading), text);
             (report_path self filepath (strftime w file_stamp (S reading)), text)].

(** Both writes go to one path: the second replaces the first. *)
Definition overwritten (chunk : list (string * string)) : Prop :=
  exists path text, chunk = [(path, text); (path, text)].

(** The paths a list of writes leaves files at, each once. *)
Definition paths_left (log : list (string * string)) : list string :=
  nodup string_dec (map fst log).

End DispatchSpec.

(** ** Source texts with braces one level deep, for the statements on
       extraction by pattern *)

Module BraceSource.

Definition is_brace (c : ascii) : bool := Ascii.eqb c "{" || Ascii.eqb c "}".
Definition is_opening (c : ascii) : bool := Ascii.eqb c "{".
Definition is_closing (c : ascii) : bool := Ascii.eqb c "}".

(** A piece of a function body: a character that is no brace, or a block
    in braces without braces inside. *)
Inductive piece : Type :=
| Plain (c : ascii)
| Block (inner : string).

(** The character of a plain piece is no brace; the inside of a block
    holds none. *)
Definition well_formed (p : piece) : Prop :=
  match p with
  | Plain c => is_brace c = false
  | Block inner => PyStr.all (fun c => negb (is_brace c)) inner = true
  end.

(** The text of a piece, and of a body. *)
Definition render (p : piece) : string :=
  match p with
  | Plain c => String c ""
  | Block inner => "{" ++ inner ++ "}"
  end.

Definition render_all (body : list piece) : string :=
  String.concat "" (map render body).

(** The pieces of a text without braces. *)
Definition plain (s : string) : list piece := map Plain (list_ascii_of_string s).

(** A function as the pattern reads it: [function], the name, the text
    from the parenthesis up to the first opening brace, the body, the
    closing brace. *)
Definition declaration (function_name parameters : string) (body : list piece) : string :=
  "function " ++ function_name ++ "(" ++ parameters ++ "{" ++ render_all body ++ "}".

(** A declaration whose body, after some pieces, opens a block that opens
    another block before it closes: the text from [function] on. *)
Definition nested (function_name parameters : string) (body : list piece)
  (inner rest : string) : string :=
  "function " ++ function_name ++ "(" ++ parameters ++ "{" ++ render_all body
  ++ "{" ++ inner ++ "{" ++ rest.

(** What one round of the star of [Enhanced.braces_body] matches. *)
Definition piece_pattern : Re.regex :=
  Re.Alt (Re.Chr (Re.NoneOf ["{"; "}"]%char))
         (Re.cat [Re.Chr (Re.Lit "{"); Re.Star (Re.Chr (Re.NoneOf ["{"; "}"]%char));
                  Re.Chr (Re.Lit "}")]).

End BraceSource.

(** ** [O3Analyzer.analyze_ui_component] of the enhanced analyzer *)

Module Ui.

Import Enhanced.

Definition default_ui_focus : list string :=
  ["accessibility"; "user experience"; "performance"; "best practices"].

Section Component.

Variable w : world.
Variable self : analyzer.

(** [list(set(l))]: the elements of [l], each once, in the order the set
    happens to have. *)
Variable list_of_set : list string -> list string.

(** [O3Analyzer.analyze_ui_component] *)
Definition analyze_ui_component (filepath : string) (focus_areas : list string)
  (severity : option string) : M json :=
  let combined_focus := list_of_set (focus_areas ++ default_ui_focus)%list in
  analyze_code_file w self filepath combined_focus severity.

End Component.

End Ui.

(** ** The files discovery keeps *)

Module DiscoverySpec.

Import Enhanced.

(** A file of the tree is kept: its name has an allowed ending, no pattern
    is found in its path and no pattern matches a directory on the way. *)
Definition eligible (exclude_patterns : list Re.regex) (e : entry) : bool :=
  endswith_any (e_file e) allowed_extensions
  && negb (path_excluded exclude_patterns (e_path e))
  && forallb (fun d => negb (dir_excluded exclude_patterns d)) (e_dirs e).

(** No name of the tree begins with a slash. *)
Fixpoint relative (t : tree) : bool :=
  match t with
  | Node files dirs =>
      forallb (fun file => negb (prefix "/" file)) files
      && forallb (fun d => negb (prefix "/" (fst d)) && relative (snd d)) dirs
  end.

End DiscoverySpec.

(** ** The text [O3Analyzer._create_consolidated_report] writes *)

Module Consolidated.

(** [os.path.basename(report_file).replace(".md", "")] *)
Definition report_name (report_file : string) : string :=
  PyStr.replace ".md" "" (Enhanced.basename report_file).

(** The anchor of an entry of the table of contents. *)
Definition anchor (report_name : string) : string :=
  PyStr.replace "_" "-" (PyStr.replace " " "-" (PyStr.lower report_name)).

(** The line of the table of contents written for one report file. *)
Definition contents_entry (report_file : string) : string :=
  "- [" ++ report_name report_file ++ "](#" ++ anchor (report_name report_file) ++ ")"
  ++ PyStr.nl.

(** ['\n'.join(lines[2:])]: the report without its first two lines. *)
Definition without_title (report_content : string) : string :=
  PyStr.join PyStr.nl (skipn 2 (PyStr.lines report_content)).

(** What the last loop writes for one report. *)
Definition full_report (report_file report_content : string) : string :=
  PyStr.nl ++ "## " ++ report_name report_file ++ PyStr.nl ++ PyStr.nl
  ++ without_title report_content ++ PyStr.nl ++ PyStr.nl.

(** What is written before the full reports: the title, the table of
    contents over the report files and the table of critical findings over
    the texts read from them; [generated] is the second clock reading. *)
Definition front_matter (generated : string) (reports : list (string * string))
  : string :=
  "# DOVE Token - Consolidated O3 Analysis Report" ++ PyStr.nl ++ PyStr.nl
  ++ "*Generated on: " ++ generated ++ "*" ++ PyStr.nl ++ PyStr.nl
  ++ "## Overview" ++ PyStr.nl ++ PyStr.nl
  ++ "This report combines multiple targeted analyses of the DOVE token implementation."
  ++ PyStr.nl ++ PyStr.nl
  ++ "## Table of Contents" ++ PyStr.nl ++ PyStr.nl
  ++ String.concat "" (map (fun r => contents_entry (fst r)) reports)
  ++ PyStr.nl ++ "## Critical Findings Summary" ++ PyStr.nl ++ PyStr.nl
  ++ Legacy.critical_table (Legacy.critical_findings (map snd reports)).

(** The text of the consolidated report, from the report files and the
    texts read from them. *)
Definition consolidated_report (generated : string) (reports : list (string * string))
  : string :=
  front_matter generated reports
  ++ String.concat "" (map (fun r => full_report (fst r) (snd r)) reports).

(** A character that is no upper-case ASCII letter, no space and no
    underscore. *)
Definition anchor_char (c : ascii) : bool :=
  negb (PyStr.is_upper c) && negb (Ascii.eqb c " ") && negb (Ascii.eqb c "_").

End Consolidated.

(** ** Options and the batch file as [main] of the enhanced analyzer reads
       them *)

Module Cli.

(** [[area.strip() for area in args.focus.split(',')]], and [None] when the
    option is absent or empty; the empty list stands for [None], as it does
    for the analyzer, which tests the list for truth only. *)
Definition parse_focus (focus : option string) : list string :=
  match focus with
  | Some text =>
      if String.eqb text "" then [] else map PyStr.strip (PyStr.split "," text)
  | None => []
  end.

(** [[line.strip() for line in f if line.strip()]] over [content], the
    text Python reads from the batch file.  Iterating over the file gives
    the pieces between line feeds, each with its line feed; [strip] removes
    the line feed, and the empty piece after a final line feed is dropped
    with the other blank lines. *)
Definition batch_list (content : string) : list string :=
  filter (fun line => negb (String.eqb line "")) (map PyStr.strip (PyStr.lines content)).

(** A piece of a list written with a separator: the entry itself, with the
    white space written before and after it. *)
Record padded : Type := {
  lead : string;
  entry : string;
  trail : string
}.

Definition as_written (p : padded) : string := lead p ++ entry p ++ trail p.

(** The text neither begins nor ends with white space. *)
Definition trimmed (s : string) : bool :=
  negb (PyStr.starts_with PyStr.is_space s)
  && match PySource.last_char s with
     | Some c => negb (PyStr.is_space c)
     | None => true
     end.

(** Only white space is written around the entry, and the separator is
    nowhere in the piece. *)
Definition well_padded (sep : ascii) (p : padded) : Prop :=
  PyStr.all PyStr.is_space (lead p) = true
  /\ PyStr.all PyStr.is_space (trail p) = true
  /\ trimmed (entry p) = true
  /\ PyStr.all (fun c => negb (Ascii.eqb c sep)) (as_written p) = true.

Definition written_list (sep : ascii) (pieces : list padded) : string :=
  PyStr.join (String sep "") (map as_written pieces).

End Cli.

(** ** What a batch run writes *)

Module BatchSpec.

Import Enhanced.

(** The entry is the report file of [filepath], with some timestamp. *)
Definition written_once (self : analyzer) (filepath : string) (entry : string * string)
  : Prop :=
  exists timestamp, fst entry = DispatchSpec.report_path self filepath timestamp.

(** The batch report up to its summaries. *)
Definition batch_head (generated : string) (files : list string) : string :=
  "# Batch Analysis Report" ++ PyStr.nl ++ PyStr.nl
  ++ "*Generated on: " ++ generated ++ "*" ++ PyStr.nl ++ PyStr.nl
  ++ "## Files Analyzed" ++ PyStr.nl ++ PyStr.nl
  ++ String.concat "" (map (fun filepath => "- " ++ filepath ++ PyStr.nl) files)
  ++ PyStr.nl ++ "## Summary of Findings" ++ PyStr.nl ++ PyStr.nl.

End BatchSpec.

(** * Verified properties *)

(** ** Texts *)

Section Texts.

Import PyStr.

Lemma length_append :
  forall s1 s2, String.length (s1 ++ s2) = String.length s1 + String.length s2.
Proof.
  induction s1 as [| c s1 IH]; intro s2; cbn; [reflexivity | now rewrite IH].
Qed.


Lemma all_append :
  forall p s1 s2, PyStr.all p (s1 ++ s2) = PyStr.all p s1 && PyStr.all p s2.
Proof.
  intros p s1 s2. induction s1 as [| c s1 IH]; cbn; [reflexivity |].
  now rewrite IH, andb_assoc.
Qed.

Lemma all_ext :
  forall (p q : ascii -> bool) s,
    (forall c, p c = q c) -> PyStr.all p s = PyStr.all q s.
Proof.
  intros p q s H. induction s as [| c s IH]; cbn; [reflexivity | now rewrite H, IH].
Qed.

Lemma append_assoc :
  forall s1 s2 s3 : string, (s1 ++ s2) ++ s3 = s1 ++ (s2 ++ s3).
Proof.
  induction s1 as [| c s1 IH]; intros s2 s3; cbn; [reflexivity | now rewrite IH].
Qed.

Lemma append_empty :
  forall s : string, s ++ "" = s.
Proof.
  induction s as [| c s IH]; cbn; [reflexivity | now rewrite IH].
Qed.

Lemma all_imp :
  forall (p q : ascii -> bool) s,
    (forall c, p c = true -> q c = true) -> all p s = true -> all q s = true.
Proof.
  intros p q s H. induction s as [| c s IH]; intro Hall; [reflexivity |].
  cbn [all] in *. apply andb_true_iff in Hall. destruct Hall as [Hc Hall].
  now rewrite (H c Hc), IH.
Qed.

End Texts.

(** ** The simulated fallback of the legacy dispatcher *)

Lemma simulate_findings_list :
  forall now description focus_areas code,
    exists findings,
      Legacy._simulate_analysis_response now description focus_areas code
      = Legacy.analysis_dict now (JList findings).
Proof.
  intros. unfold Legacy._simulate_analysis_response. eauto.
Qed.

(** C2: a description whose lower-cased text contains "tax" and none of
    "reflection", "transfer", "_update" gets exactly the two taxation
    findings, "Timestamp Dependence" (low) then "Tax Rate Boundary Condition"
    (info), whatever the clock, the focus areas and the code are: two runs
    on the same description agree on the findings. *)
Theorem simulate_tax_findings :
  forall (description : string),
    PyStr.contains "tax" (PyStr.lower description) = true ->
    PyStr.contains "reflection" (PyStr.lower description) = false ->
    PyStr.contains "transfer" (PyStr.lower description) = false ->
    PyStr.contains "_update" (PyStr.lower description) = false ->
    forall (now now' : string) (focus_areas focus_areas' : list string)
           (code code' : string),
      let run := Legacy._simulate_analysis_response now description focus_areas code in
      let run' := Legacy._simulate_analysis_response now' description focus_areas' code' in
      Py.getitem run "findings"
      = Ok (JList
              [Legacy.finding "low" "security" "Timestamp Dependence"
                 "The tax calculation relies on block.timestamp which can be manipulated slightly by miners."
                 [25%Z]
                 "For timing that requires precision under 15 seconds, consider additional validation.";
               Legacy.finding "info" "logic_errors" "Tax Rate Boundary Condition"
                 "The tax rate transitions may create edge cases exactly at day boundaries."
                 [30%Z; 32%Z; 34%Z]
                 "Consider using strictly greater than (>) instead of >= for clearer boundary definition."])
      /\ Py.getitem run' "findings" = Py.getitem run "findings".
Proof.
  intros description Htax Hrefl Htransfer Hupdate now now' focus_areas focus_areas' code code'.
  unfold Legacy._simulate_analysis_response.
  rewrite Htax, Hrefl, Htransfer, Hupdate.
  split; reflexivity.
Qed.

Lemma simulate_tax_findings_witness :
  let description := "Early sell TAX schedule of the token" in
  Py.getitem (Legacy._simulate_analysis_response "t1" description [] "code A") "findings"
  = Py.getitem (Legacy._simulate_analysis_response "t2" description ["security"] "code B")
      "findings".
Proof.
  intro description.
  symmetry.
  apply (simulate_tax_findings description); reflexivity.
Defined.

(** ** The legacy dispatcher *)

Lemma assoc_set_same :
  forall k x d, Py.assoc k (Py.assoc_set k x d) = Some x.
Proof.
  intros k x d. induction d as [| [k' v] d IH].
  - unfold Py.assoc_set, Py.assoc. now rewrite String.eqb_refl.
  - unfold Py.assoc_set; fold Py.assoc_set.
    destruct (String.eqb k k') eqn:Hk.
    + unfold Py.assoc. now rewrite Hk.
    + unfold Py.assoc; fold Py.assoc. now rewrite Hk.
Qed.

Section LegacyDispatch.

Variable json_loads : string -> option json.

Ltac break_outcome H :=
  repeat match type of H with
         | context [match ?x with _ => _ end] =>
             match type of x with
             | outcome _ => destruct x eqn:?
             | bool => destruct x eqn:?
             end; try discriminate
         end.

Lemma parse_content_shape :
  forall now content r,
    Legacy.parse_content json_loads now content = Ok r ->
    exists v, r = Legacy.analysis_dict now v.
Proof.
  intros now content r H.
  unfold Legacy.parse_content, bind in H.
  break_outcome H; inversion H; eauto.
Qed.

(** A result is one of the two dicts the function builds. *)
Lemma read_response_shape :
  forall now description focus_areas code data r,
    Legacy.read_response json_loads now description focus_areas code data = Ok r ->
    r = Legacy._simulate_analysis_response now description focus_areas code
    \/ exists v, r = Legacy.analysis_dict now v.
Proof.
  intros now description focus_areas code data r H.
  unfold Legacy.read_response, bind in H.
  break_outcome H.
  - unfold Legacy.try_except in H.
    match type of H with
    | context [Legacy.parse_content json_loads now ?content] =>
        destruct (Legacy.parse_content json_loads now content) eqn:Hparse
    end.
    + inversion H; subst. right. eapply parse_content_shape; eauto.
    + destruct (Legacy.is_JSONDecodeError e); [| discriminate].
      inversion H; subst. now left.
  - inversion H; subst. now left.
Qed.

Lemma analyze_code_snippet_shape :
  forall now reply code description focus_areas,
    exists v,
      Py.getitem
        (Legacy.analyze_code_snippet json_loads now reply code description focus_areas)
        "findings" = Ok v.
Proof.
  intros now reply code description focus_areas.
  unfold Legacy.analyze_code_snippet.
  set (focus := match focus_areas with Some (a :: l) => a :: l | _ => _ end).
  destruct (simulate_findings_list now description focus code) as [fs Hfs].
  destruct reply as [e | data].
  - rewrite Hfs. eexists. reflexivity.
  - destruct (Legacy.read_response json_loads now description focus code data) eqn:Hr.
    + apply read_response_shape in Hr. destruct Hr as [-> | [v ->]].
      * rewrite Hfs. eexists. reflexivity.
      * eexists. reflexivity.
    + rewrite Hfs. eexists. reflexivity.
Qed.

(** The request raised: the simulated result is returned. *)
Lemma fallback_on_exception :
  forall now e code description focus_areas,
    exists focus,
      Legacy.analyze_code_snippet json_loads now (Legacy.RequestRaises e) code description
        focus_areas
      = Legacy._simulate_analysis_response now description focus code.
Proof.
  intros. unfold Legacy.analyze_code_snippet. eexists. reflexivity.
Qed.

(** The reply decodes to an object without [choices]: simulated result. *)
Lemma fallback_without_choices :
  forall now data entries code description focus_areas,
    json_loads data = Some (JDict entries) ->
    Py.assoc "choices" entries = None ->
    exists focus,
      Legacy.analyze_code_snippet json_loads now (Legacy.ResponseData data) code description
        focus_areas
      = Legacy._simulate_analysis_response now description focus code.
Proof.
  intros now data entries code description focus_areas Hdata Hchoices.
  unfold Legacy.analyze_code_snippet, Legacy.read_response, Legacy.loads.
  rewrite Hdata. cbn [bind Py.contains]. rewrite Hchoices. cbn [bind].
  eexists. reflexivity.
Qed.

(** The content of the first choice is text that does not decode:
    simulated result. *)
Lemma fallback_on_undecodable_content :
  forall now data result choice more message content code description focus_areas,
    json_loads data = Some result ->
    Py.getitem result "choices" = Ok (JList (choice :: more)) ->
    Py.getitem choice "message" = Ok message ->
    Py.getitem message "content" = Ok (JStr content) ->
    json_loads content = None ->
    exists focus,
      Legacy.analyze_code_snippet json_loads now (Legacy.ResponseData data) code description
        focus_areas
      = Legacy._simulate_analysis_response now description focus code.
Proof.
  intros now data result choice more message content code description focus_areas
    Hdata Hchoices Hmessage Hcontent Hundecodable.
  assert (Hin : Py.contains "choices" result = Ok true).
  { destruct result; try discriminate. cbn in *.
    destruct (Py.assoc "choices" entries); [reflexivity | discriminate]. }
  unfold Legacy.analyze_code_snippet, Legacy.read_response.
  cbn [Legacy.loads]. rewrite Hdata. cbn [bind].
  rewrite Hin. cbn [bind]. rewrite Hchoices. cbn [bind Py.len Py.getitem0 List.length Nat.ltb Nat.leb].
  rewrite Hmessage. cbn [bind]. rewrite Hcontent. cbn [bind].
  unfold Legacy.parse_content. cbn [Legacy.loads]. rewrite Hundecodable. cbn.
  eexists. reflexivity.
Qed.

(** The content decodes to an object: its [findings] entry, when there is
    one, is returned as it is, and an empty list otherwise. *)
Lemma content_object_result :
  forall now data result choice more message content entries code description focus_areas,
    json_loads data = Some result ->
    Py.getitem result "choices" = Ok (JList (choice :: more)) ->
    Py.getitem choice "message" = Ok message ->
    Py.getitem message "content" = Ok (JStr content) ->
    json_loads content = Some (JDict entries) ->
    Legacy.analyze_code_snippet json_loads now (Legacy.ResponseData data) code description
      focus_areas
    = Legacy.analysis_dict now
        (match Py.assoc "findings" entries with
         | Some v => v
         | None => JList []
         end).
Proof.
  intros now data result choice more message content entries code description focus_areas
    Hdata Hchoices Hmessage Hcontent Hobject.
  assert (Hin : Py.contains "choices" result = Ok true).
  { destruct result; try discriminate. cbn in *.
    destruct (Py.assoc "choices" entries0); [reflexivity | discriminate]. }
  unfold Legacy.analyze_code_snippet, Legacy.read_response.
  cbn [Legacy.loads]. rewrite Hdata. cbn [bind].
  rewrite Hin. cbn [bind]. rewrite Hchoices.
  cbn [bind Py.len Py.getitem0 List.length Nat.ltb Nat.leb].
  rewrite Hmessage. cbn [bind]. rewrite Hcontent. cbn [bind].
  unfold Legacy.parse_content. cbn [Legacy.loads]. rewrite Hobject.
  cbn [bind Py.contains].
  destruct (Py.assoc "findings" entries) as [v |] eqn:Hfindings.
  - cbn [bind Py.get]. rewrite Hfindings. reflexivity.
  - cbn [bind Py.setitem Py.get].
    rewrite assoc_set_same. reflexivity.
Qed.

End LegacyDispatch.

(** C10: when the call succeeds and the content of the first choice decodes
    to an object without a 'findings' key, the result has status 'success'
    and an empty findings list, whatever the description says; it is not the
    simulated result whenever that one would carry findings. *)
Theorem content_without_findings_is_success :
  forall (json_loads : string -> option json) (now data : string)
         (result choice : json) (more : list json) (message : json) (content : string)
         (entries : list (string * json)) (code description : string)
         (focus_areas : option (list string)),
    json_loads data = Some result ->
    Py.getitem result "choices" = Ok (JList (choice :: more)) ->
    Py.getitem choice "message" = Ok message ->
    Py.getitem message "content" = Ok (JStr content) ->
    json_loads content = Some (JDict entries) ->
    Py.assoc "findings" entries = None ->
    let r := Legacy.analyze_code_snippet json_loads now (Legacy.ResponseData data) code
               description focus_areas in
    r = JDict [("status", JStr "success"); ("timestamp", JStr now); ("findings", JList [])]
    /\ forall focus finding findings,
         Legacy._simulate_analysis_response now description focus code
         = Legacy.analysis_dict now (JList (finding :: findings)) ->
         r <> Legacy._simulate_analysis_response now description focus code.
Proof.
  intros json_loads now data result choice more message content entries code description
    focus_areas Hdata Hchoices Hmessage Hcontent Hobject Hnone r.
  assert (Hr : r = Legacy.analysis_dict now (JList [])).
  { unfold r.
    rewrite (content_object_result json_loads now data result choice more message content
               entries code description focus_areas Hdata Hchoices Hmessage Hcontent Hobject).
    rewrite Hnone. reflexivity. }
  split.
  - exact Hr.
  - intros focus finding findings Hsim Heq.
    rewrite Hsim in Heq. rewrite Heq in Hr.
    unfold Legacy.analysis_dict in Hr. discriminate Hr.
Qed.

Lemma content_without_findings_is_success_witness :
  Legacy.analyze_code_snippet Fixture.loads "2025-01-01T00:00:00"
    (Legacy.ResponseData (Fixture.body Fixture.no_findings_literal))
    "function pay() {}" "Sell tax on transfer" None
  = JDict [("status", JStr "success"); ("timestamp", JStr "2025-01-01T00:00:00");
           ("findings", JList [])].
Proof.
  refine (proj1 (content_without_findings_is_success Fixture.loads "2025-01-01T00:00:00"
                   (Fixture.body Fixture.no_findings_literal)
                   (Fixture.body_value (JStr Fixture.no_findings))
                   (JDict [("message", JDict [("content", JStr Fixture.no_findings)])])
                   [] (JDict [("content", JStr Fixture.no_findings)])
                   Fixture.no_findings [("summary", JStr "ok")]
                   "function pay() {}" "Sell tax on transfer" None
                   _ _ _ _ _ _));
    reflexivity.
Defined.

(** C1 (the code departs from it): on the reply whose content is
    [{"findings": null}] the dispatcher returns a result whose 'findings'
    entry is None, not a list, and [save_report] then raises on it. *)
Theorem null_findings_reach_the_caller :
  forall (now code description : string) (focus_areas : option (list string))
         (repr : json -> string) (generated report_name : string),
    let r := Legacy.analyze_code_snippet Fixture.loads now
               (Legacy.ResponseData (Fixture.body Fixture.null_findings_literal))
               code description focus_areas in
    Py.getitem r "findings" = Ok JNull
    /\ (forall findings, Py.getitem r "findings" <> Ok (JList findings))
    /\ Legacy.save_report repr generated r report_name = Raise TypeError.
Proof.
  intros now code description focus_areas repr generated report_name r.
  assert (Hr : r = Legacy.analysis_dict now JNull).
  { unfold r.
    rewrite (content_object_result Fixture.loads now
               (Fixture.body Fixture.null_findings_literal)
               (Fixture.body_value (JStr Fixture.null_findings))
               (JDict [("message", JDict [("content", JStr Fixture.null_findings)])])
               [] (JDict [("content", JStr Fixture.null_findings)])
               Fixture.null_findings [("findings", JNull)]);
      reflexivity. }
  rewrite Hr. repeat split.
  intros findings H. discriminate H.
Qed.

(** ** Severities in [save_report] *)

Lemma simulated_severities_known :
  forall now description focus_areas code findings,
    Legacy._simulate_analysis_response now description focus_areas code
    = Legacy.analysis_dict now (JList findings) ->
    Forall ReportSpec.known_severity findings.
Proof.
  intros now description focus_areas code findings H.
  unfold Legacy._simulate_analysis_response, Legacy.analysis_dict in H.
  injection H as <-.
  assert (Hk : forall fs, In fs [Legacy.reflection_findings; Legacy.tax_findings;
                                 Legacy.transfer_findings] ->
                          Forall ReportSpec.known_severity fs).
  { intros fs Hin. cbn in Hin.
    destruct Hin as [<- | [<- | [<- | []]]];
      repeat constructor; eexists; (split; [reflexivity |]); cbn; eexists;
        (split; [reflexivity | reflexivity]). }
  repeat match goal with
         | |- context [if ?b then _ else _] => destruct b
         end;
    repeat (apply Forall_app; split); try apply Forall_nil; apply Hk; cbn; tauto.
Qed.

Lemma has_key_increment :
  forall k k' counts,
    Legacy.has_key k (Legacy.increment k' counts) = Legacy.has_key k counts.
Proof.
  intros k k' counts. induction counts as [| [k0 n] counts IH]; [reflexivity |].
  unfold Legacy.increment; fold Legacy.increment.
  destruct (String.eqb k' k0); unfold Legacy.has_key; fold Legacy.has_key;
    [reflexivity | now rewrite IH].
Qed.

(** With known severities the first loop of [save_report] never misses a
    counter. *)
Lemma histogram_defined :
  forall findings counts,
    (forall k, Legacy.has_key k counts = Legacy.has_key k Legacy.severity_counts0) ->
    Forall ReportSpec.known_severity findings ->
    exists counts', Legacy.histogram findings counts = Ok counts'.
Proof.
  induction findings as [| finding findings IH]; intros counts Hkeys Hall.
  - eexists. reflexivity.
  - inversion Hall as [| ? ? [entries [-> Hsev]] Hrest]; subst.
    unfold Legacy.histogram; fold Legacy.histogram.
    cbn [Py.get bind].
    destruct (Py.assoc "severity" entries) as [v |].
    + destruct Hsev as [s [-> Hs]].
      unfold Legacy.count_severity. rewrite Hkeys, Hs. cbn [bind].
      apply IH; [| assumption].
      intro k. rewrite has_key_increment. apply Hkeys.
    + unfold Legacy.count_severity. rewrite Hkeys. cbn [bind].
      apply IH; [| assumption].
      intro k. rewrite has_key_increment. apply Hkeys.
Qed.

(** C9 (the code departs from it): a finding whose severity is "critical"
    comes back from the dispatcher as the reply gave it, and [save_report]
    raises KeyError at the histogram update: the severity is none of the
    four counters. *)
Theorem unknown_severity_breaks_histogram :
  forall (now code description : string) (focus_areas : option (list string))
         (repr : json -> string) (generated report_name : string),
    let r := Legacy.analyze_code_snippet Fixture.loads now
               (Legacy.ResponseData (Fixture.body Fixture.critical_finding_literal))
               code description focus_areas in
    Py.getitem r "findings"
    = Ok (JList [JDict [("severity", JStr "critical"); ("title", JStr "Unchecked call")]])
    /\ Legacy.has_key "critical" Legacy.severity_counts0 = false
    /\ Legacy.save_report repr generated r report_name = Raise (KeyError (JStr "critical")).
Proof.
  intros now code description focus_areas repr generated report_name r.
  assert (Hr : r = Legacy.analysis_dict now
                     (JList [JDict [("severity", JStr "critical");
                                    ("title", JStr "Unchecked call")]])).
  { unfold r.
    rewrite (content_object_result Fixture.loads now
               (Fixture.body Fixture.critical_finding_literal)
               (Fixture.body_value (JStr Fixture.critical_finding))
               (JDict [("message", JDict [("content", JStr Fixture.critical_finding)])])
               [] (JDict [("content", JStr Fixture.critical_finding)])
               Fixture.critical_finding
               [("findings",
                 JList [JDict [("severity", JStr "critical");
                               ("title", JStr "Unchecked call")]])]);
      reflexivity. }
  rewrite Hr. repeat split.
Qed.

(** ** Function extraction on the specification's example *)

(** C3 (the code departs from it): for [function buy() { if (x) { y(); } }]
    and the name "buy", the Solidity branch of the enhanced analyzer returns
    the text with "function buy" put in front of it a second time; its
    JavaScript branch and the legacy line scan return exactly the text. *)
Theorem solidity_extraction_repeats_declaration :
  let source := "function buy() { if (x) { y(); } }" in
  Enhanced.extract_function "contracts/Token.sol" source "buy"
  = Enhanced.Unit ("function buy" ++ source)
  /\ Enhanced.extract_function "contracts/Token.sol" source "buy" <> Enhanced.Unit source
  /\ Enhanced.extract_function "src/token.js" source "buy" = Enhanced.Unit source
  /\ Legacy.extract_function source "buy" = Some source.
Proof.
  intro source.
  assert (Hsol : Enhanced.extract_function "contracts/Token.sol" source "buy"
                 = Enhanced.Unit ("function buy" ++ source)) by (vm_compute; reflexivity).
  split; [exact Hsol |].
  split; [rewrite Hsol; intro H; inversion H |].
  split; vm_compute; reflexivity.
Qed.

(** ** The cross-cut table of the consolidated report *)

Lemma flat_map_filter_map :
  forall (A B : Type) (p : A -> bool) (f : A -> B) (l : list A),
    flat_map (fun x => if p x then [f x] else []) l = map f (filter p l).
Proof.
  intros A B p f l. induction l as [| x l IH]; [reflexivity |].
  cbn [flat_map filter]. destruct (p x); cbn [map app]; now rewrite IH.
Qed.

Lemma scan_severity_appends :
  forall report_name title details lines found,
    Legacy.scan_severity report_name title details lines found
    = (found ++ TableSpec.row_of_lines report_name title details lines)%list.
Proof.
  intros report_name title details lines found.
  unfold TableSpec.row_of_lines.
  induction lines as [| line lines IH].
  - cbn. now rewrite app_nil_r.
  - cbn [Legacy.scan_severity find].
    destruct (PyStr.contains Legacy.severity_marker line).
    + destruct (Legacy.in_strings _ _); [reflexivity | now rewrite app_nil_r].
    + exact IH.
Qed.

Lemma row_of_lines_spec :
  forall content section,
    TableSpec.row_of_lines (TableSpec.spec_report_name content) (hd "" (PyStr.lines section))
      (PyStr.join PyStr.nl (PyStr.lines section)) (PyStr.lines section)
    = if TableSpec.spec_reads ["high"; "medium"] section
      then [TableSpec.spec_row content section] else [].
Proof.
  intros content section.
  unfold TableSpec.row_of_lines, TableSpec.spec_reads, TableSpec.spec_row,
    TableSpec.spec_rendered_severity, TableSpec.spec_severity_line.
  destruct (find (PyStr.contains Legacy.severity_marker) (PyStr.lines section));
    reflexivity.
Qed.

Lemma scan_sections_appends :
  forall content sections found,
    Legacy.scan_sections (TableSpec.spec_report_name content) sections found
    = (found
       ++ map (TableSpec.spec_row content)
            (filter (TableSpec.spec_reads ["high"; "medium"]) sections))%list.
Proof.
  intros content sections. induction sections as [| section sections IH]; intro found.
  - cbn. now rewrite app_nil_r.
  - cbn [Legacy.scan_sections]. rewrite IH, scan_severity_appends, row_of_lines_spec.
    cbn [filter].
    destruct (TableSpec.spec_reads ["high"; "medium"] section).
    + cbn [map]. now rewrite <- app_assoc.
    + now rewrite app_nil_r.
Qed.

Lemma collect_critical_appends :
  forall contents found,
    Legacy.collect_critical contents found
    = (found ++ TableSpec.spec_table contents)%list.
Proof.
  induction contents as [| content contents IH]; intro found.
  - cbn. now rewrite app_nil_r.
  - cbn [Legacy.collect_critical]. rewrite IH.
    fold (TableSpec.spec_report_name content).
    rewrite scan_sections_appends.
    unfold TableSpec.spec_table; cbn [flat_map].
    fold (TableSpec.spec_sections content).
    now rewrite <- app_assoc.
Qed.

Lemma spec_row_severity :
  forall content section levels,
    TableSpec.spec_reads levels section = true ->
    Legacy.in_strings (PyStr.lower (Legacy.c_severity (TableSpec.spec_row content section)))
      levels = true.
Proof.
  intros content section levels. unfold TableSpec.spec_reads, TableSpec.spec_row.
  cbn [Legacy.c_severity].
  destruct (TableSpec.spec_rendered_severity section); [trivial | discriminate].
Qed.

(** Over every list of report texts the collected rows are those of the
    declarative table, as many as there are sections that read high or
    medium, and each of them reads high or medium. *)
Lemma table_rows_of_texts :
  forall contents : list string,
    Legacy.critical_findings contents = TableSpec.spec_table contents
    /\ List.length (Legacy.critical_findings contents)
       = list_sum
           (map (fun content =>
                   List.length (filter (TableSpec.spec_reads ["high"; "medium"])
                                  (TableSpec.spec_sections content)))
              contents)
    /\ Forall
         (fun row =>
            (PyStr.lower (Legacy.c_severity row) = "high"
             \/ PyStr.lower (Legacy.c_severity row) = "medium")
            /\ PyStr.lower (Legacy.c_severity row) <> "low"
            /\ PyStr.lower (Legacy.c_severity row) <> "info")
         (Legacy.critical_findings contents).
Proof.
  intro contents.
  assert (Hrows : Legacy.critical_findings contents = TableSpec.spec_table contents).
  { unfold Legacy.critical_findings. now rewrite collect_critical_appends. }
  rewrite Hrows. split; [reflexivity | split].
  - clear Hrows. unfold TableSpec.spec_table.
    induction contents as [| content contents IH]; [reflexivity |].
    cbn [flat_map map]. rewrite length_app, length_map, IH. reflexivity.
  - unfold TableSpec.spec_table.
    apply Forall_forall. intros row Hin.
    apply in_flat_map in Hin. destruct Hin as [content [_ Hin]].
    apply in_map_iff in Hin. destruct Hin as [section [<- Hin]].
    apply filter_In in Hin. destruct Hin as [_ Hreads].
    apply (spec_row_severity content) in Hreads.
    unfold Legacy.in_strings in Hreads. cbn [existsb] in Hreads.
    rewrite orb_false_r in Hreads. apply orb_true_iff in Hreads.
    assert (Hcase : PyStr.lower (Legacy.c_severity (TableSpec.spec_row content section))
                    = "high"
                    \/ PyStr.lower (Legacy.c_severity (TableSpec.spec_row content section))
                       = "medium").
    { destruct Hreads as [H | H]; apply String.eqb_eq in H; auto. }
    split; [exact Hcase |].
    destruct Hcase as [-> | ->]; split; discriminate.
Qed.

(** ** Discovery *)

Section Discovery.

Variable exclude_patterns : list Re.regex.

Lemma keep_files_spec :
  forall root files filepath,
    In filepath (Enhanced.keep_files exclude_patterns root files)
    <-> exists file,
          In file files
          /\ filepath = Enhanced.path_join root file
          /\ Enhanced.path_excluded exclude_patterns filepath = false
          /\ Enhanced.endswith_any file Enhanced.allowed_extensions = true.
Proof.
  intros root files filepath. induction files as [| file files IH].
  - cbn. split; [tauto | intros [file [[] _]]].
  - cbn [Enhanced.keep_files].
    destruct (Enhanced.path_excluded exclude_patterns (Enhanced.path_join root file))
      eqn:Hexcluded.
    + rewrite IH. split.
      * intros [f [Hin H]]. exists f. split; [now right | exact H].
      * intros [f [[<- | Hin] [Hpath [Hfree Hext]]]].
        -- subst filepath. congruence.
        -- exists f. auto.
    + destruct (Enhanced.endswith_any file Enhanced.allowed_extensions) eqn:Hext.
      * cbn [In]. rewrite IH. split.
        -- intros [<- | [f [Hin H]]].
           ++ exists file. split; [now left | auto].
           ++ exists f. split; [now right | exact H].
        -- intros [f [[<- | Hin] [Hpath [Hfree Hext']]]].
           ++ left. now symmetry.
           ++ right. exists f. auto.
      * rewrite IH. split.
        -- intros [f [Hin H]]. exists f. split; [now right | exact H].
        -- intros [f [[<- | Hin] [Hpath [Hfree Hext']]]].
           ++ congruence.
           ++ exists f. auto.
Qed.

(** A path comes out of the walk exactly when it is the path of a file of
    the tree with an allowed ending, no pattern is found in the path, and no
    pattern matches the name of a directory entered on the way. *)
Lemma walk_spec :
  forall t root filepath,
    In filepath (Enhanced.walk exclude_patterns root t)
    <-> exists e,
          In e (Enhanced.tree_files root t)
          /\ Enhanced.e_path e = filepath
          /\ Enhanced.endswith_any (Enhanced.e_file e) Enhanced.allowed_extensions = true
          /\ Enhanced.path_excluded exclude_patterns filepath = false
          /\ forall d, In d (Enhanced.e_dirs e) ->
                       Enhanced.dir_excluded exclude_patterns d = false.
Proof.
  intro t. induction t as [files dirs IH] using Enhanced.tree_rect_dirs.
  intros root filepath.
  cbn [Enhanced.walk Enhanced.tree_files].
  rewrite in_app_iff, keep_files_spec, in_flat_map. split.
  - intros [[file [Hin [Hpath [Hfree Hext]]]] | [d [Hd Hin]]].
    + exists {| Enhanced.e_dirs := []; Enhanced.e_file := file;
                Enhanced.e_path := Enhanced.path_join root file |}.
      cbn. repeat split; auto.
      * apply in_or_app. left. apply in_map_iff. eauto.
      * intros d [].
    + destruct (Enhanced.dir_excluded exclude_patterns (fst d)) eqn:Hpruned; [destruct Hin |].
      apply (IH d Hd) in Hin. destruct Hin as [e [He [Hpath [Hext [Hfree Hdirs]]]]].
      exists (Enhanced.below (fst d) e). cbn. repeat split; auto.
      * apply in_or_app. right. apply in_flat_map. exists d. split; [exact Hd |].
        apply in_map_iff. eauto.
      * intros d' [<- | Hd']; auto.
  - intros [e [He [Hpath [Hext [Hfree Hdirs]]]]].
    apply in_app_or in He. destruct He as [He | He].
    + apply in_map_iff in He. destruct He as [file [<- Hin]]. cbn in *.
      left. exists file. auto.
    + apply in_flat_map in He. destruct He as [d [Hd He]].
      apply in_map_iff in He. destruct He as [e' [<- He']]. cbn in *.
      right. exists d. split; [exact Hd |].
      rewrite (Hdirs (fst d)) by now left.
      apply (IH d Hd). exists e'. repeat split; auto.
Qed.

End Discovery.

(** C5 as stated fails: with the pattern [dist$] the file [proj/dist/a.js]
    has an allowed ending and no pattern is found in its full path, yet it
    is not discovered, because the directory [dist] was pruned. *)
Lemma pruned_file_is_eligible :
  let t := Enhanced.Node [] [("dist", Enhanced.Node ["a.js"] [])] in
  let exclude_patterns := [Re.Seq (Re.Str "dist") Re.Eos] in
  In {| Enhanced.e_dirs := ["dist"]; Enhanced.e_file := "a.js";
        Enhanced.e_path := "proj/dist/a.js" |}
     (Enhanced.tree_files "proj" t)
  /\ Enhanced.endswith_any "a.js" Enhanced.allowed_extensions = true
  /\ Enhanced.path_excluded exclude_patterns "proj/dist/a.js" = false
  /\ ~ In "proj/dist/a.js" (Enhanced.discover "proj" exclude_patterns t).
Proof.
  cbv zeta. split; [| split; [| split]].
  - vm_compute. left. reflexivity.
  - vm_compute. reflexivity.
  - vm_compute. reflexivity.
  - vm_compute. intros [].
Qed.

(** C5, amended: discovery yields a path if and only if it is the path of a
    file of the tree whose name has an allowed ending, no exclusion pattern
    is found in the full path, and no exclusion pattern matches the name of
    a directory entered below the root on the way to the file; so no
    yielded file lies under a directory whose name a pattern matches. *)
Theorem discover_spec :
  forall (directory_path : string) (exclude_patterns : list Re.regex)
         (t : Enhanced.tree) (filepath : string),
    In filepath (Enhanced.discover directory_path exclude_patterns t)
    <-> exists e,
          In e (Enhanced.tree_files directory_path t)
          /\ Enhanced.e_path e = filepath
          /\ Enhanced.endswith_any (Enhanced.e_file e) Enhanced.allowed_extensions = true
          /\ Enhanced.path_excluded (Enhanced.effective_patterns exclude_patterns) filepath
             = false
          /\ forall d, In d (Enhanced.e_dirs e) ->
                       Enhanced.dir_excluded (Enhanced.effective_patterns exclude_patterns) d
                       = false.
Proof.
  intros directory_path exclude_patterns t filepath.
  unfold Enhanced.discover. apply walk_spec.
Qed.

(** ** Matching: how the patterns consume a text *)

Section Matching.

Import Re.

Lemma run_Str :
  forall a s k, run (Str a) (a ++ s) k = k s.
Proof.
  induction a as [| c a IH]; intros s k; [reflexivity |].
  cbn [Str run append accepts]. now rewrite Ascii.eqb_refl.
Qed.

Lemma run_Seq :
  forall r1 r2 s k, run (Seq r1 r2) s k = run r1 s (fun s' => run r2 s' k).
Proof. reflexivity. Qed.

Lemma run_Star :
  forall r s k, run (Star r) s k = star_loop (run r) k (String.length s) s.
Proof. reflexivity. Qed.

Lemma run_Chr_cons :
  forall cl c s k, run (Chr cl) (String c s) k = if accepts cl c then k s else None.
Proof. reflexivity. Qed.

Lemma star_loop_S :
  forall step k fuel s,
    star_loop step k (S fuel) s
    = match step s (fun s' =>
              if (String.length s' <? String.length s)%nat
              then star_loop step k fuel s' else None) with
      | Some rest => Some rest
      | None => k s
      end.
Proof. reflexivity. Qed.

(** A star over one class takes every character of [s1] when the text
    goes on with a character outside the class, and the rest of the pattern
    then succeeds. *)
Lemma star_class_greedy :
  forall cl k r s1 s2 fuel,
    String.length s1 <= fuel ->
    PyStr.all (accepts cl) s1 = true ->
    PyStr.starts_with (accepts cl) s2 = false ->
    k s2 = Some r ->
    star_loop (run (Chr cl)) k fuel (s1 ++ s2) = Some r.
Proof.
  intros cl k r s1. induction s1 as [| c s1 IH]; intros s2 fuel Hfuel Hall Hstop Hk.
  - cbn [append]. destruct fuel; [exact Hk |].
    rewrite star_loop_S. destruct s2 as [| c2 s2]; [exact Hk |].
    rewrite run_Chr_cons. cbn in Hstop. now rewrite Hstop.
  - cbn in Hall. apply andb_true_iff in Hall. destruct Hall as [Hc Hall].
    destruct fuel as [| fuel]; [cbn in Hfuel; lia |].
    cbn [append]. rewrite star_loop_S, run_Chr_cons, Hc.
    assert (Hlt : (String.length (s1 ++ s2) <? String.length (String c (s1 ++ s2)))%nat = true)
      by (apply Nat.ltb_lt; cbn; lia).
    rewrite Hlt.
    rewrite (IH s2 fuel); [reflexivity | cbn in Hfuel; lia | assumption ..].
Qed.

Lemma run_star_class :
  forall cl k r s1 s2,
    PyStr.all (accepts cl) s1 = true ->
    PyStr.starts_with (accepts cl) s2 = false ->
    k s2 = Some r ->
    run (Star (Chr cl)) (s1 ++ s2) k = Some r.
Proof.
  intros cl k r s1 s2 Hall Hstop Hk. cbn [run].
  apply star_class_greedy; try assumption.
  rewrite length_append. lia.
Qed.

Lemma run_plus_class :
  forall cl k r c s1 s2,
    accepts cl c = true ->
    PyStr.all (accepts cl) s1 = true ->
    PyStr.starts_with (accepts cl) s2 = false ->
    k s2 = Some r ->
    run (Plus (Chr cl)) (String c s1 ++ s2) k = Some r.
Proof.
  intros cl k r c s1 s2 Hc Hall Hstop Hk.
  unfold Plus. cbn [run append]. rewrite Hc.
  change (run (Star (Chr cl)) (s1 ++ s2) k = Some r).
  now apply run_star_class.
Qed.










Lemma take_append :
  forall s1 s2, take (String.length (s1 ++ s2) - String.length s2) (s1 ++ s2) = s1.
Proof.
  intros s1 s2. rewrite length_append.
  replace (String.length s1 + String.length s2 - String.length s2) with (String.length s1)
    by lia.
  unfold take. induction s1 as [| c s1 IH]; cbn.
  - destruct s2; reflexivity.
  - now rewrite IH.
Qed.

End Matching.

(** ** Extraction of a Python function *)

Lemma endswith_last_char :
  forall s suffix,
    PyStr.endswith s suffix = true -> suffix <> "" ->
    PySource.last_char s = PySource.last_char suffix.
Proof.
  induction s as [| c s IH]; intros suffix Hends Hsuffix.
  - cbn in Hends. destruct suffix; [congruence | discriminate].
  - unfold PyStr.endswith in Hends; fold PyStr.endswith in Hends.
    destruct (String.eqb (String c s) suffix) eqn:Heq.
    + apply String.eqb_eq in Heq. now subst.
    + rewrite <- (IH suffix Hends Hsuffix).
      destruct s as [| c' s]; [| reflexivity].
      cbn in Hends. destruct suffix; [congruence | discriminate].
Qed.


Lemma run_Str_prefix :
  forall a s k r, Re.run (Re.Str a) s k = Some r -> prefix a s = true.
Proof.
  induction a as [| c a IH]; intros s k r H; [now destruct s |].
  cbn [Re.Str] in H. rewrite run_Seq in H.
  destruct s as [| c' s]; [discriminate H |].
  rewrite run_Chr_cons in H. cbn [Re.accepts] in H.
  destruct (Ascii.eqb c' c) eqn:Hc; [| discriminate H].
  apply Ascii.eqb_eq in Hc. subst c'. cbn [prefix].
  destruct (ascii_dec c c) as [_ | Hne]; [| contradiction].
  eapply IH. exact H.
Qed.

Lemma contains_tail :
  forall needle c s,
    PyStr.contains needle (String c s) = false -> PyStr.contains needle s = false.
Proof.
  intros needle c s H. unfold PyStr.contains in H; fold PyStr.contains in H.
  destruct (prefix needle (String c s)); [discriminate H | exact H].
Qed.


(** ** Whole runs of the enhanced analyzer *)

Section Runs.

Import Enhanced RunSpec.

Variable w : world.
Variable self : analyzer.

Lemma post_ret :
  forall (A : Type) (a : A) st (Q : A -> state -> Prop), Q a st -> post (ret a) st Q.
Proof. intros. exact H. Qed.

Lemma post_bind :
  forall (A B : Type) (m : M A) (f : A -> M B) st (Q : B -> state -> Prop),
    post m st (fun a st' => post (f a) st' Q) -> post (bindM m f) st Q.
Proof.
  intros A B m f st Q H. unfold post, bindM in *.
  destruct (m st) as [[a | e] st']; [exact H | destruct H].
Qed.

Lemma post_weaken :
  forall (A : Type) (m : M A) st (Q Q' : A -> state -> Prop),
    post m st Q -> (forall a st', Q a st' -> Q' a st') -> post m st Q'.
Proof.
  intros A m st Q Q' H Himp. unfold post in *.
  destruct (m st) as [[a | e] st']; [now apply Himp | destruct H].
Qed.

Lemma grows_refl : forall st, grows [] st st.
Proof. intro st. split; [now rewrite app_nil_r | apply incl_refl]. Qed.

Lemma grows_trans :
  forall sent1 sent2 st1 st2 st3,
    grows sent1 st1 st2 -> grows sent2 st2 st3 -> grows (sent1 ++ sent2) st1 st3.
Proof.
  intros sent1 sent2 st1 st2 st3 [Hr1 Hs1] [Hr2 Hs2]. split.
  - now rewrite Hr2, Hr1, app_assoc.
  - eapply incl_tran; eassumption.
Qed.

Lemma grows_after :
  forall sent st1 st2 st3, grows [] st1 st2 -> grows sent st2 st3 -> grows sent st1 st3.
Proof. intros sent st1 st2 st3 H1 H2. exact (grows_trans [] sent _ _ _ H1 H2). Qed.

Lemma grows_before :
  forall sent st1 st2 st3, grows sent st1 st2 -> grows [] st2 st3 -> grows sent st1 st3.
Proof.
  intros sent st1 st2 st3 H1 H2. rewrite <- (app_nil_r sent).
  exact (grows_trans sent [] _ _ _ H1 H2).
Qed.

Lemma post_print :
  forall line st,
    post (print line) st (fun _ st' => grows [] st st' /\ In line (stdout st')).
Proof.
  intros line st. unfold post, print, grows. cbn. repeat split.
  - now rewrite app_nil_r.
  - apply incl_appl, incl_refl.
  - apply in_or_app. right. now left.
Qed.

Lemma post_now :
  forall fmt st, post (now w fmt) st (fun _ st' => grows [] st st').
Proof.
  intros fmt st. unfold post, now, grows. cbn. split; [now rewrite app_nil_r | apply incl_refl].
Qed.

Lemma post_write_text :
  forall path text st,
    post (write_file path (JStr text)) st (fun _ st' => grows [] st st').
Proof.
  intros path text st. unfold post, write_file, grows. cbn.
  split; [now rewrite app_nil_r | apply incl_refl].
Qed.

Lemma post_when_print :
  forall b line st, post (when b (print line)) st (fun _ st' => grows [] st st').
Proof.
  intros [|] line st; unfold when.
  - eapply post_weaken; [apply post_print | now intros ? ? [? _]].
  - apply post_ret, grows_refl.
Qed.

Lemma error_response_post :
  forall message st,
    post (_generate_error_response w message) st
      (fun v st' => is_text v /\ grows [] st st').
Proof.
  intros message st. unfold _generate_error_response.
  apply post_bind. eapply post_weaken; [apply post_now |].
  intros generated st' Hg. apply post_ret. split; [eexists; reflexivity | exact Hg].
Qed.

Ltac solve_grows :=
  unfold grows; cbn [requests stdout clock written];
  split; [rewrite ?app_nil_r, <- ?app_assoc; reflexivity
         | repeat apply incl_appl; apply incl_refl].

Lemma on_error_post :
  forall e st,
    post (on_error w e) st (fun v st' => is_text v /\ grows [] st st').
Proof.
  intros e st.
  assert (Hgeneric :
            forall line message st0,
              grows [] st st0 ->
              post (bindM (print line) (fun _ => _generate_error_response w message)) st0
                (fun v st' => is_text v /\ grows [] st st')).
  { intros line message st0 Hst0. apply post_bind.
    eapply post_weaken; [apply post_print |]. intros ? st1 [Hg1 _].
    eapply post_weaken; [apply error_response_post |]. intros v st2 [Hv Hg2].
    split; [exact Hv |].
    apply (grows_trans [] [] _ _ _ Hst0). apply (grows_trans [] [] _ _ _ Hg1 Hg2). }
  destruct e; try (apply Hgeneric; apply grows_refl).
  unfold on_error. apply post_bind.
  eapply post_weaken; [apply post_print |]. intros ? st1 [Hg1 _].
  apply post_bind.
  eapply post_weaken; [apply post_when_print |]. intros ? st2 Hg2.
  eapply post_weaken; [apply error_response_post |]. intros v st3 [Hv Hg3].
  split; [exact Hv |].
  apply (grows_trans [] [] _ _ _ Hg1). apply (grows_trans [] [] _ _ _ Hg2 Hg3).
Qed.

(** What the [with] block leaves: text, or an exception, and no request. *)
Lemma read_response_post :
  forall n system user data st,
    textual w ->
    urlopen w n system user = Legacy.ResponseData data ->
    match read_response w self data st with
    | (Ok v, st') => is_text v /\ grows [] st st'
    | (Raise _, st') => grows [] st st'
    end.
Proof.
  intros n system user data st Htext Hreply.
  unfold read_response, bindM, lift, Legacy.loads.
  destruct (json_loads w data) as [response_data |] eqn:Hdata; [| apply grows_refl].
  pose proof (post_when_print (debug self) "DEBUG: API Response received" st) as Hdebug.
  unfold post in Hdebug.
  destruct (when (debug self) (print "DEBUG: API Response received") st)
    as [[[] | e] st1]; [| destruct Hdebug].
  destruct (has_choices response_data) as [[|] | e]; [| | exact Hdebug].
  - destruct (first_content response_data) as [content | e] eqn:Hcontent; [| exact Hdebug].
    split; [| exact Hdebug].
    eapply Htext; eassumption.
  - pose proof (post_print "Error: Unexpected response format from API" st1) as Hp.
    unfold post in Hp.
    destruct (print "Error: Unexpected response format from API" st1)
      as [[[] | e] st2]; [| destruct Hp].
    destruct Hp as [Hg2 _].
    pose proof (post_when_print (debug self)
                  ("Response: " ++ Py.str (json_repr w) response_data) st2) as Hd2.
    unfold post in Hd2.
    destruct (when (debug self)
                (print ("Response: " ++ Py.str (json_repr w) response_data)) st2)
      as [[[] | e] st3]; [| destruct Hd2].
    pose proof (error_response_post "API response error" st3) as He.
    unfold post in He.
    destruct (_generate_error_response w "API response error" st3)
      as [[v | e] st4]; [| destruct He].
    destruct He as [Hv Hg4]. split; [exact Hv |].
    apply (grows_trans [] [] _ _ _ Hdebug). apply (grows_trans [] [] _ _ _ Hg2).
    apply (grows_trans [] [] _ _ _ Hd2 Hg4).
Qed.

(** A dispatch sends one request and returns text, whatever the reply. *)
Lemma snippet_post :
  forall code description focus_areas severity st,
    textual w ->
    post (analyze_code_snippet w self code description focus_areas severity) st
      (fun v st' =>
         is_text v
         /\ grows [(system_message focus_areas severity, user_message code description)]
              st st').
Proof.
  intros code description focus_areas severity st Htext.
  unfold analyze_code_snippet.
  apply post_bind. eapply post_weaken; [apply post_now |]. intros ? st1 Hg1.
  apply post_bind.
  assert (Hdebug : post (when (debug self)
                           (print "DEBUG: API Request" ;;;
                            print ("System message: " ++ system_message focus_areas severity) ;;;
                            print ("User message: "
                                   ++ Re.take 100 (user_message code description) ++ "...")))
                     st1 (fun _ st' => grows [] st1 st')).
  { destruct (debug self); unfold when; [| apply post_ret, grows_refl].
    apply post_bind. eapply post_weaken; [apply post_print |]. intros ? sa [Ha _].
    apply post_bind. eapply post_weaken; [apply post_print |]. intros ? sb [Hb _].
    eapply post_weaken; [apply post_print |]. intros ? sc [Hc _].
    apply (grows_trans [] [] _ _ _ Ha). apply (grows_trans [] [] _ _ _ Hb Hc). }
  eapply post_weaken; [exact Hdebug |]. intros ? st2 Hg2.
  assert (Hg12 : grows [] st st2) by apply (grows_trans [] [] _ _ _ Hg1 Hg2).
  unfold post, catch, bindM, send.
  set (system := system_message focus_areas severity).
  set (user := user_message code description).
  set (st3 := {| clock := clock st2;
                 requests := (requests st2 ++ [(system, user)])%list;
                 written := written st2; stdout := stdout st2 |}).
  assert (Hg3 : grows [(system, user)] st st3).
  { apply (grows_trans [] [(system, user)] _ _ _ Hg12). unfold st3. solve_grows. }
  destruct (urlopen w (List.length (requests st2)) system user) as [e | data] eqn:Hreply.
  - unfold raise.
    pose proof (on_error_post e st3) as He. unfold post in He.
    destruct (on_error w e st3) as [[v | e'] st4]; [| destruct He].
    destruct He as [Hv Hg4]. split; [exact Hv |].
    rewrite <- (app_nil_r [(system, user)]). eapply grows_trans; eassumption.
  - pose proof (read_response_post _ _ _ _ st3 Htext Hreply) as Hr.
    destruct (read_response w self data st3) as [[v | e] st4].
    + destruct Hr as [Hv Hg4]. split; [exact Hv |].
      rewrite <- (app_nil_r [(system, user)]). eapply grows_trans; eassumption.
    + pose proof (on_error_post e st4) as He. unfold post in He.
      destruct (on_error w e st4) as [[v | e'] st5]; [| destruct He].
      destruct He as [Hv Hg5]. split; [exact Hv |].
      rewrite <- (app_nil_r [(system, user)]).
      eapply grows_trans; [exact Hg3 |].
      apply (grows_trans [] [] _ _ _ Hr Hg5).
Qed.

Lemma readable_truthy :
  forall code, code <> "" -> Py.truthy (JStr code) = true.
Proof.
  intros code Hcode. cbn. destruct (String.eqb code "") eqn:Heq; [| reflexivity].
  apply String.eqb_eq in Heq. contradiction.
Qed.

(** The analysis of a readable file: one request, a text back. *)
Lemma code_file_post :
  forall filepath focus_areas severity st,
    textual w ->
    readable w filepath ->
    post (analyze_code_file w self filepath focus_areas severity) st
      (fun v st' => is_text v /\ grows [request_for w focus_areas severity filepath] st st').
Proof.
  intros filepath focus_areas severity st Htext [code [Hfile Hcode]].
  unfold request_for, text_of. rewrite Hfile.
  unfold analyze_code_file, read_code_file. rewrite Hfile.
  apply post_bind, post_ret. rewrite (readable_truthy code Hcode). cbn [negb].
  apply post_bind. eapply post_weaken; [apply post_print |]. intros ? st1 [Hg1 _].
  apply post_bind. eapply post_weaken; [apply (snippet_post _ _ _ _ _ Htext) |].
  intros v st2 [[text ->] Hg2].
  apply post_bind. eapply post_weaken; [apply post_now |]. intros timestamp st3 Hg3.
  apply post_bind. eapply post_weaken; [apply post_write_text |]. intros ? st4 Hg4.
  apply post_bind. eapply post_weaken; [apply post_print |]. intros ? st5 [Hg5 _].
  apply post_ret. split; [eexists; reflexivity |].
  cbn [Py.str] in Hg2.
  apply (grows_trans [] _ _ _ _ Hg1).
  rewrite <- (app_nil_r [_]). apply (grows_trans _ [] _ _ _ Hg2).
  apply (grows_trans [] [] _ _ _ Hg3). apply (grows_trans [] [] _ _ _ Hg4 Hg5).
Qed.

Lemma add_summaries_defined :
  forall name_of results report,
    texts results -> exists report', add_summaries name_of results report = Ok report'.
Proof.
  intros name_of results. induction results as [| [path result] results IH];
    intros report Hresults.
  - eexists. reflexivity.
  - inversion Hresults as [| ? ? [text Htext] Hrest]; subst. cbn in Htext. subst result.
    cbn [add_summaries]. destruct (summary_match text); now apply IH.
Qed.

(** The batch loop: every listed file that exists is analyzed, in order. *)
Lemma batch_loop_post :
  forall focus_areas severity file_list results st,
    textual w ->
    (forall filepath, In filepath file_list -> path_exists w filepath = true ->
                      readable w filepath) ->
    texts results ->
    post (batch_loop w self focus_areas severity file_list results) st
      (fun results' st' =>
         texts results'
         /\ map fst results'
            = (map fst results ++ filter (path_exists w) file_list)%list
         /\ grows (map (request_for w focus_areas severity)
                     (filter (path_exists w) file_list)) st st').
Proof.
  intros focus_areas severity file_list. induction file_list as [| filepath rest IH];
    intros results st Htext Hfiles Hresults.
  - apply post_ret. cbn. rewrite app_nil_r. split; [assumption | split; [reflexivity |]].
    apply grows_refl.
  - cbn [batch_loop filter].
    destruct (path_exists w filepath) eqn:Hexists; cbn [negb].
    + apply post_bind.
      eapply post_weaken;
        [apply (code_file_post _ _ _ _ Htext (Hfiles filepath (or_introl eq_refl) Hexists)) |].
      intros v st1 [Hv Hg1].
      apply post_bind, post_ret.
      eapply post_weaken; [apply IH |].
      * exact Htext.
      * intros p Hin. apply Hfiles. now right.
      * apply Forall_app. split; [exact Hresults | now constructor].
      * intros results' st2 [Hres [Hnames Hg2]]. split; [| split].
        -- exact Hres.
        -- rewrite Hnames, map_app. cbn. now rewrite <- app_assoc.
        -- cbn [map]. apply (grows_trans [_] _ _ _ _ Hg1 Hg2).
    + apply post_bind. eapply post_weaken; [apply post_print |]. intros ? st1 [Hg1 _].
      eapply post_weaken; [apply IH |].
      * exact Htext.
      * intros p Hin. apply Hfiles. now right.
      * exact Hresults.
      * intros results' st2 [Hres [Hnames Hg2]]. split; [| split]; try assumption.
        apply (grows_trans [] _ _ _ _ Hg1 Hg2).
Qed.

(** A batch run over files that can be read returns, and has dispatched
    every listed file that exists. *)
Lemma run_batch_post :
  forall file_list focus_areas severity st,
    textual w ->
    (forall filepath, In filepath file_list -> path_exists w filepath = true ->
                      readable w filepath) ->
    post (run_batch_analysis w self file_list focus_areas severity) st
      (fun _ st' =>
         grows (map (request_for w focus_areas severity)
                  (filter (path_exists w) file_list)) st st').
Proof.
  intros file_list focus_areas severity st Htext Hfiles.
  unfold run_batch_analysis.
  apply post_bind.
  eapply post_weaken; [apply (batch_loop_post _ _ _ [] _ Htext Hfiles); constructor |].
  intros results st1 [Hres [_ Hg1]].
  apply post_bind. eapply post_weaken; [apply post_now |]. intros timestamp st2 Hg2.
  apply post_bind. eapply post_weaken; [apply post_now |]. intros generated st3 Hg3.
  apply post_bind.
  match goal with
  | |- post (lift (add_summaries ?f ?rs ?rep)) _ _ =>
      destruct (add_summaries_defined f rs rep Hres) as [report' Hreport]
  end.
  unfold lift at 1. unfold post at 1. rewrite Hreport.
  apply post_bind. eapply post_weaken; [apply post_write_text |]. intros ? st4 Hg4.
  apply post_bind. eapply post_weaken; [apply post_print |]. intros ? st5 [Hg5 _].
  apply post_ret.
  rewrite <- (app_nil_r (map _ _)). apply (grows_trans _ [] _ _ _ Hg1).
  apply (grows_trans [] [] _ _ _ Hg2). apply (grows_trans [] [] _ _ _ Hg3).
  apply (grows_trans [] [] _ _ _ Hg4 Hg5).
Qed.

Lemma has_code_readable :
  forall filepath, has_code w filepath = true <-> readable w filepath.
Proof.
  intros filepath. unfold has_code, readable. split.
  - destruct (file w filepath) as [| e | code]; try discriminate.
    intros Hcode. exists code. split; [reflexivity |].
    intros ->. discriminate Hcode.
  - intros [code [-> Hcode]]. destruct (String.eqb_spec code ""); [contradiction | reflexivity].
Qed.

(** Reading a file sends nothing; what it gives is truthy exactly for a
    text that is not empty. *)
Lemma read_code_file_post :
  forall filepath st,
    post (read_code_file w filepath) st
      (fun code st' => Py.truthy code = has_code w filepath /\ grows [] st st').
Proof.
  intros filepath st. unfold read_code_file, has_code.
  destruct (file w filepath) as [| e | code].
  - apply post_bind. eapply post_weaken; [apply post_print |]. intros ? st1 [Hg1 _].
    apply post_ret. split; [reflexivity | exact Hg1].
  - apply post_bind. eapply post_weaken; [apply post_print |]. intros ? st1 [Hg1 _].
    apply post_ret. split; [reflexivity | exact Hg1].
  - apply post_ret. split; [reflexivity | apply grows_refl].
Qed.

(** The project loop dispatches the files that can be read and are not
    empty, in order, and passes over the others. *)
Lemma project_loop_post :
  forall directory_path focus_areas severity code_files report reports st,
    textual w ->
    texts reports ->
    post (project_loop w self directory_path focus_areas severity code_files report reports)
      st
      (fun looped st' =>
         texts (snd looped)
         /\ grows (map (request_for w focus_areas severity)
                     (filter (has_code w) code_files)) st st').
Proof.
  intros directory_path focus_areas severity code_files.
  induction code_files as [| filepath rest IH]; intros report reports st Htext Hreports.
  - apply post_ret. split; [exact Hreports | apply grows_refl].
  - cbn [project_loop filter].
    apply post_bind. eapply post_weaken; [apply read_code_file_post |].
    intros code st0 [Htruthy Hg0]. rewrite Htruthy.
    destruct (has_code w filepath) eqn:Hcode.
    + cbn [map].
      apply post_bind.
      eapply post_weaken;
        [apply (code_file_post _ _ _ _ Htext (proj1 (has_code_readable filepath) Hcode)) |].
      intros v st1 [[text ->] Hg1].
      apply post_bind. eapply post_weaken; [apply post_now |]. intros stamp st2 Hg2.
      apply post_bind. eapply post_weaken; [apply post_write_text |]. intros ? st3 Hg3.
      apply post_bind, post_ret.
      eapply post_weaken; [apply IH |].
      * exact Htext.
      * apply Forall_app. split; [exact Hreports |]. constructor; [| constructor].
        eexists. reflexivity.
      * intros looped st4 [Hres Hg4]. split; [exact Hres |].
        apply (grows_after _ _ _ _ Hg0).
        apply (grows_trans [_] _ _ _ _ Hg1).
        apply (grows_trans [] _ _ _ _ Hg2). apply (grows_trans [] _ _ _ _ Hg3 Hg4).
    + eapply post_weaken; [apply IH; assumption |].
      intros looped st4 [Hres Hg4]. split; [exact Hres |].
      apply (grows_after _ _ _ _ Hg0 Hg4).
Qed.

(** A project run returns the path of its report, whatever the files are:
    it has dispatched the files, of those the loop goes over, that can be
    read and are not empty. *)
Lemma analyze_project_post :
  forall directory_path exclude_patterns focus_areas severity t st,
    textual w ->
    directory w directory_path = Some t ->
    post (analyze_project w self directory_path exclude_patterns focus_areas severity) st
      (fun path st' =>
         path <> None
         /\ grows (map (request_for w focus_areas severity)
                     (filter (has_code w)
                        (capped (discover directory_path exclude_patterns t)))) st st'
         /\ (5 < List.length (discover directory_path exclude_patterns t) ->
             In cap_warning (stdout st'))).
Proof.
  intros directory_path exclude_patterns focus_areas severity t st Htext Hdir.
  unfold analyze_project. rewrite Hdir.
  set (code_files := discover directory_path exclude_patterns t) in *.
  apply post_bind. eapply post_weaken; [apply post_print |]. intros ? st1 [Hg1 _].
  apply post_bind. eapply post_weaken; [apply post_print |]. intros ? st2 [Hg2 _].
  apply post_bind. eapply post_weaken; [apply post_now |]. intros timestamp st3 Hg3.
  apply post_bind. eapply post_weaken; [apply post_now |]. intros generated st4 Hg4.
  assert (Hg04 : grows [] st st4).
  { apply (grows_trans [] [] _ _ _ Hg1). apply (grows_trans [] [] _ _ _ Hg2).
    apply (grows_trans [] [] _ _ _ Hg3 Hg4). }
  apply post_bind.
  assert (Hcap : post (if (5 <? List.length code_files)%nat
                       then print cap_warning ;;;
                            print "Consider analyzing specific directories or files instead." ;;;
                            ret (firstn 5 code_files)
                       else ret code_files) st4
                   (fun files st' =>
                      files = capped code_files
                      /\ grows [] st4 st'
                      /\ (5 < List.length code_files -> In cap_warning (stdout st')))).
  { unfold capped. destruct (5 <? List.length code_files)%nat eqn:Hmany.
    - apply post_bind. eapply post_weaken; [apply post_print |]. intros ? sa [Ha Hin].
      apply post_bind. eapply post_weaken; [apply post_print |]. intros ? sb [Hb _].
      apply post_ret. split; [reflexivity | split].
      + apply (grows_trans [] [] _ _ _ Ha Hb).
      + intros _. destruct Hb as [_ Hincl]. now apply Hincl.
    - apply post_ret. split; [reflexivity | split; [apply grows_refl |]].
      apply Nat.ltb_ge in Hmany. lia. }
  eapply post_weaken; [exact Hcap |]. intros files st5 [-> [Hg5 Hwarn]].
  apply post_bind.
  eapply post_weaken; [apply (project_loop_post _ _ _ _ _ [] _ Htext); constructor |].
  intros looped st6 [Hres Hg6].
  apply post_bind.
  match goal with
  | |- post (lift (add_summaries ?f ?rs ?rep)) _ _ =>
      destruct (add_summaries_defined f rs rep Hres) as [report' Hreport]
  end.
  unfold lift at 1. unfold post at 1. rewrite Hreport.
  apply post_bind. eapply post_weaken; [apply post_write_text |]. intros ? st7 Hg7.
  apply post_bind. eapply post_weaken; [apply post_print |]. intros ? st8 [Hg8 _].
  apply post_ret. split; [discriminate | split].
  - apply (grows_after _ _ _ _ Hg04). apply (grows_after _ _ _ _ Hg5).
    apply (grows_before _ _ _ _ Hg6). apply (grows_trans [] [] _ _ _ Hg7 Hg8).
  - intro Hmany. destruct Hg6 as [_ Hi6]. destruct Hg7 as [_ Hi7]. destruct Hg8 as [_ Hi8].
    apply Hi8, Hi7, Hi6. now apply Hwarn.
Qed.

End Runs.

(** ** The file cap *)

Lemma fixture_textual :
  forall files dirs, RunSpec.textual (Fixture.world_of files dirs Fixture.answers_report).
Proof.
  intros files dirs n system user data response_data content Hreply Hdata Hcontent.
  cbn in Hreply. unfold Fixture.answers_report in Hreply. injection Hreply as <-.
  cbn [Enhanced.json_loads Fixture.world_of] in Hdata.
  vm_compute in Hdata. injection Hdata as <-.
  vm_compute in Hcontent. injection Hcontent as <-.
  eexists. reflexivity.
Qed.

(** C4 as stated fails: of twelve discovered files whose first is empty,
    the project run dispatches four, not the first five; and a batch run
    over the twelve paths, all of which exist, dispatches eleven files and
    then raises, so that not every existing listed file is analyzed. *)
Lemma empty_file_is_not_dispatched :
  let w := Fixture.world_of Fixture.first_empty Fixture.project_dirs Fixture.answers_report in
  let file_list := map (fun name => "proj/" ++ name) Fixture.twelve in
  Enhanced.discover "proj" [] (Enhanced.Node Fixture.twelve []) = file_list
  /\ (exists path st,
         Enhanced.analyze_project w Fixture.analyzer "proj" [] [] None Enhanced.initial
         = (Ok (Some path), st)
         /\ List.length (Enhanced.requests st) = 4
         /\ In Enhanced.cap_warning (Enhanced.stdout st))
  /\ forallb (Enhanced.path_exists w) file_list = true
  /\ (exists st,
         Enhanced.run_batch_analysis w Fixture.analyzer file_list [] None Enhanced.initial
         = (Raise TypeError, st)
         /\ List.length (Enhanced.requests st) = 11).
Proof.
  cbv zeta. split; [| split; [| split]].
  - vm_compute. reflexivity.
  - eexists _, _. split; [vm_compute; reflexivity | split].
    + vm_compute. reflexivity.
    + vm_compute. tauto.
  - vm_compute. reflexivity.
  - eexists. split; vm_compute; reflexivity.
Qed.

(** C4, amended: when every content a reply holds is text, a project run
    that discovers more than 5 files goes over the first 5 only and prints
    the warning; of these 5 it dispatches, in order, exactly those that can
    be read and are not empty, so at most 5 requests are sent, and exactly 5
    when all of them can be read.  A batch run has no cap: when the listed
    files that exist can be read and are not empty, it sends one request
    for every one of them, in order, whatever their number. *)
Theorem cap_applies_to_project_mode_only :
  forall (w : Enhanced.world) (self : Enhanced.analyzer),
    RunSpec.textual w ->
    (forall directory_path exclude_patterns focus_areas severity t,
        Enhanced.directory w directory_path = Some t ->
        5 < List.length (Enhanced.discover directory_path exclude_patterns t) ->
        exists path st',
          Enhanced.analyze_project w self directory_path exclude_patterns focus_areas
            severity Enhanced.initial = (Ok (Some path), st')
          /\ Enhanced.requests st'
             = map (RunSpec.request_for w focus_areas severity)
                 (filter (RunSpec.has_code w)
                    (firstn 5 (Enhanced.discover directory_path exclude_patterns t)))
          /\ List.length (Enhanced.requests st') <= 5
          /\ ((forall filepath,
                  In filepath (firstn 5 (Enhanced.discover directory_path exclude_patterns t)) ->
                  RunSpec.readable w filepath) ->
              Enhanced.requests st'
              = map (RunSpec.request_for w focus_areas severity)
                  (firstn 5 (Enhanced.discover directory_path exclude_patterns t))
              /\ List.length (Enhanced.requests st') = 5)
          /\ In Enhanced.cap_warning (Enhanced.stdout st'))
    /\ (forall file_list focus_areas severity,
          (forall filepath, In filepath file_list ->
                            Enhanced.path_exists w filepath = true ->
                            RunSpec.readable w filepath) ->
          exists path st',
            Enhanced.run_batch_analysis w self file_list focus_areas severity
              Enhanced.initial = (Ok path, st')
            /\ Enhanced.requests st'
               = map (RunSpec.request_for w focus_areas severity)
                   (filter (Enhanced.path_exists w) file_list)
            /\ ((forall filepath, In filepath file_list ->
                                  Enhanced.path_exists w filepath = true) ->
                List.length (Enhanced.requests st') = List.length file_list)).
Proof.
  intros w self Htext. split.
  - intros directory_path exclude_patterns focus_areas severity t Hdir Hmany.
    assert (Hcap : RunSpec.capped (Enhanced.discover directory_path exclude_patterns t)
                   = firstn 5 (Enhanced.discover directory_path exclude_patterns t)).
    { unfold RunSpec.capped. apply Nat.ltb_lt in Hmany. now rewrite Hmany. }
    pose proof (analyze_project_post w self directory_path exclude_patterns focus_areas
                  severity t Enhanced.initial Htext Hdir) as Hpost.
    rewrite Hcap in Hpost.
    unfold RunSpec.post in Hpost.
    destruct (Enhanced.analyze_project w self directory_path exclude_patterns focus_areas
                severity Enhanced.initial) as [[[path |] | e] st'].
    + destruct Hpost as [_ [[Hsent _] Hwarn]]. exists path, st'.
      cbn [Enhanced.initial Enhanced.requests app] in Hsent.
      split; [reflexivity | split; [exact Hsent | split; [| split]]].
      * rewrite Hsent, length_map.
        etransitivity; [apply filter_length_le |]. rewrite length_firstn. lia.
      * intros Hfiles.
        assert (Hall : filter (RunSpec.has_code w)
                         (firstn 5 (Enhanced.discover directory_path exclude_patterns t))
                       = firstn 5 (Enhanced.discover directory_path exclude_patterns t)).
        { apply forallb_filter_id. apply forallb_forall. intros filepath Hin.
          apply has_code_readable. now apply Hfiles. }
        rewrite Hsent, Hall. split; [reflexivity |].
        rewrite length_map, length_firstn. lia.
      * now apply Hwarn.
    + destruct Hpost as [Hnone _]. now contradiction Hnone.
    + destruct Hpost.
  - intros file_list focus_areas severity Hfiles.
    pose proof (run_batch_post w self file_list focus_areas severity Enhanced.initial
                  Htext Hfiles) as Hpost.
    unfold RunSpec.post in Hpost.
    destruct (Enhanced.run_batch_analysis w self file_list focus_areas severity
                Enhanced.initial) as [[path | e] st']; [| destruct Hpost].
    destruct Hpost as [Hsent _]. cbn [Enhanced.initial Enhanced.requests app] in Hsent.
    exists path, st'. repeat split.
    + exact Hsent.
    + intro Hexist. rewrite Hsent, length_map. f_equal.
      clear - Hexist. induction file_list as [| p l IH]; [reflexivity |].
      cbn [filter]. rewrite (Hexist p (or_introl eq_refl)). f_equal.
      apply IH. intros q Hq. apply Hexist. now right.
Qed.

Lemma cap_applies_to_project_mode_only_witness :
  let w := Fixture.world_of Fixture.every_file Fixture.project_dirs Fixture.answers_report in
  (exists path st',
      Enhanced.analyze_project w Fixture.analyzer "proj" [] [] None Enhanced.initial
      = (Ok (Some path), st')
      /\ List.length (Enhanced.requests st') = 5
      /\ In Enhanced.cap_warning (Enhanced.stdout st'))
  /\ (exists path st',
         Enhanced.run_batch_analysis w Fixture.analyzer
           (map (fun name => "proj/" ++ name) Fixture.twelve) [] None Enhanced.initial
         = (Ok path, st')
         /\ List.length (Enhanced.requests st') = 12).
Proof.
  intro w.
  assert (Hread : forall filepath, RunSpec.readable w filepath).
  { intro filepath. exists "print(1)". split; [reflexivity | discriminate]. }
  destruct (cap_applies_to_project_mode_only w Fixture.analyzer
              (fixture_textual Fixture.every_file Fixture.project_dirs))
    as [Hproject Hbatch].
  split.
  - destruct (Hproject "proj" [] [] None (Enhanced.Node Fixture.twelve []) eq_refl)
      as [path [st' [Hrun [_ [_ [Hfive Hwarn]]]]]].
    + vm_compute. repeat constructor.
    + exists path, st'. split; [exact Hrun | split; [| exact Hwarn]].
      apply Hfive. intros filepath _. apply Hread.
  - destruct (Hbatch (map (fun name => "proj/" ++ name) Fixture.twelve) [] None)
      as [path [st' [Hrun [_ Hall]]]].
    + intros filepath _ _. apply Hread.
    + exists path, st'. split; [exact Hrun |].
      apply Hall. intros filepath _. reflexivity.
Defined.

(** ** Failures of a single unit *)

(** A dispatch never raises: every exception of the request and of the
    reading of the reply ends in an error report. *)
Lemma dispatch_returns :
  forall w self code description focus_areas severity st,
    exists v st',
      Enhanced.analyze_code_snippet w self code description focus_areas severity st
      = (Ok v, st').
Proof.
  intros w self code description focus_areas severity st.
  assert (Herror : forall e st0, exists v st', Enhanced.on_error w e st0 = (Ok v, st')).
  { intros e st0. pose proof (on_error_post w e st0) as He. unfold RunSpec.post in He.
    destruct (Enhanced.on_error w e st0) as [[v | e'] st']; [eauto | destruct He]. }
  unfold Enhanced.analyze_code_snippet, Enhanced.bindM, Enhanced.catch, Enhanced.now,
    Enhanced.send, Enhanced.raise.
  destruct (Enhanced.debug self);
    cbn [Enhanced.when Enhanced.print Enhanced.bindM Enhanced.ret];
    match goal with
    | |- context [Enhanced.urlopen w ?n ?s ?u] => destruct (Enhanced.urlopen w n s u)
    end;
    try apply Herror;
    match goal with
    | |- context [Enhanced.read_response w self ?data ?st0] =>
        destruct (Enhanced.read_response w self data st0) as [[v | e] st']
    end;
    eauto.
Qed.

(** C8 (the code departs from it): a listed file that exists and cannot be
    read makes the batch run raise TypeError once the loop is over, so the
    batch report is never written; a reply whose content is null makes the
    run raise TypeError inside the first unit, in batch mode and in project
    mode, and the units after it are never dispatched. *)
Theorem unit_failure_escapes_the_run :
  (exists st,
      Enhanced.run_batch_analysis
        (Fixture.world_of Fixture.files Fixture.no_dirs Fixture.answers_report)
        Fixture.analyzer ["locked.py"; "b.py"] [] None Enhanced.initial
      = (Raise TypeError, st)
      /\ map fst (Enhanced.written st) = ["analysis_reports/b_py_2025-01-01_00-00-00.md"])
  /\ (exists st,
         Enhanced.run_batch_analysis
           (Fixture.world_of Fixture.files Fixture.no_dirs Fixture.first_answer_null)
           Fixture.analyzer ["a.py"; "b.py"] [] None Enhanced.initial
         = (Raise TypeError, st)
         /\ List.length (Enhanced.requests st) = 1)
  /\ (exists st,
         Enhanced.analyze_project
           (Fixture.world_of Fixture.every_file Fixture.project_dirs
              Fixture.first_answer_null)
           Fixture.analyzer "proj" [] [] None Enhanced.initial
         = (Raise TypeError, st)
         /\ List.length (Enhanced.discover "proj" [] (Enhanced.Node Fixture.twelve [])) = 12
         /\ List.length (Enhanced.requests st) = 1).
Proof.
  split; [| split].
  - eexists. split; vm_compute; reflexivity.
  - eexists. split; vm_compute; reflexivity.
  - eexists. split; [| split]; vm_compute; reflexivity.
Qed.

(** ** Splitting texts *)

Section Splitting.

Import PyStr.

Lemma prefix_append :
  forall sep b, prefix sep (sep ++ b) = true.
Proof.
  induction sep as [| c sep IH]; intro b; cbn; [now destruct b |].
  destruct (ascii_dec c c); [apply IH | contradiction].
Qed.

Lemma differs_prefix :
  forall sep u b, differs sep u = true -> prefix sep (u ++ b) = false.
Proof.
  induction sep as [| a sep IH]; intros u b H; [discriminate H |].
  destruct u as [| c u]; [discriminate H |]. cbn in H |- *.
  destruct (ascii_dec a c) as [-> | Hne].
  - rewrite Ascii.eqb_refl in H. now apply IH.
  - reflexivity.
Qed.

Lemma split_from_not_nil :
  forall sep s skip, split_from sep skip s <> [].
Proof.
  intros sep s. induction s as [| c s IH]; intro skip; cbn [split_from]; [discriminate |].
  destruct skip; [| apply IH].
  destruct (prefix sep (String c s)); [discriminate |].
  specialize (IH 0). destruct (split_from sep 0 s); [contradiction | discriminate].
Qed.

Lemma split_skip :
  forall sep u b, split_from sep (String.length u) (u ++ b) = split_from sep 0 b.
Proof.
  intros sep u b. induction u as [| c u IH]; [reflexivity | exact IH].
Qed.

(** A text in which no separator starts goes to the first piece. *)
Lemma split_clear :
  forall sep a b,
    clear_of sep a = true ->
    split_from sep 0 (a ++ b) = prepend a (split_from sep 0 b).
Proof.
  intros sep a b. induction a as [| c a IH]; intro Hclear.
  - cbn [append]. pose proof (split_from_not_nil sep b 0).
    destruct (split_from sep 0 b); [contradiction | reflexivity].
  - cbn [clear_of] in Hclear. apply andb_true_iff in Hclear. destruct Hclear as [Hhere Hrest].
    cbn [append split_from].
    change (String c (a ++ b)) with (String c a ++ b).
    rewrite (differs_prefix _ _ b Hhere), (IH Hrest).
    destruct (split_from sep 0 b); reflexivity.
Qed.

(** At a separator a new piece starts. *)
Lemma split_sep :
  forall c sep b,
    split_from (String c sep) 0 (String c sep ++ b)
    = "" :: split_from (String c sep) 0 b.
Proof.
  intros c sep b.
  assert (Hprefix : prefix (String c sep) (String c sep ++ b) = true)
    by apply prefix_append.
  cbn [append] in *. cbn [split_from]. rewrite Hprefix.
  replace (String.length (String c sep) - 1) with (String.length sep)
    by (cbn [String.length]; lia).
  now rewrite split_skip.
Qed.

Lemma differs_append :
  forall sep u b, differs sep u = true -> differs sep (u ++ b) = true.
Proof.
  induction sep as [| a sep IH]; intros u b H; [discriminate H |].
  destruct u as [| c u]; [discriminate H |]. cbn in H |- *.
  destruct (Ascii.eqb a c); [now apply IH | reflexivity].
Qed.

Lemma clear_of_append :
  forall sep a b,
    clear_of sep a = true -> clear_of sep b = true -> clear_of sep (a ++ b) = true.
Proof.
  intros sep a b Ha Hb. induction a as [| c a IH]; [exact Hb |].
  cbn [clear_of] in Ha. apply andb_true_iff in Ha. destruct Ha as [Hhere Hrest].
  cbn [append clear_of]. change (String c (a ++ b)) with (String c a ++ b).
  rewrite (differs_append _ _ b Hhere). now apply IH.
Qed.

(** A text without the first character of the separator is clear of it. *)
Lemma clear_of_without :
  forall h sep a,
    all (fun c => negb (Ascii.eqb c h)) a = true -> clear_of (String h sep) a = true.
Proof.
  intros h sep a. induction a as [| c a IH]; intro Hall; [reflexivity |].
  cbn [all] in Hall. apply andb_true_iff in Hall. destruct Hall as [Hc Hall].
  cbn [clear_of differs]. rewrite Ascii.eqb_sym. apply negb_true_iff in Hc. rewrite Hc.
  now apply IH.
Qed.

Lemma contains_without :
  forall h needle s,
    all (fun c => negb (Ascii.eqb c h)) s = true -> contains (String h needle) s = false.
Proof.
  intros h needle s. induction s as [| c s IH]; intro Hall; [reflexivity |].
  cbn [all] in Hall. apply andb_true_iff in Hall. destruct Hall as [Hc Hall].
  unfold contains; fold contains. cbn [prefix].
  destruct (ascii_dec h c) as [-> | _].
  - rewrite Ascii.eqb_refl in Hc. discriminate Hc.
  - now apply IH.
Qed.

(** A first line without newline is the first element of the lines. *)
Lemma lines_cons :
  forall a b,
    all (fun c => negb (Ascii.eqb c newline)) a = true ->
    lines (a ++ nl ++ b) = a :: lines b.
Proof.
  intros a b Ha. unfold lines, split.
  rewrite (split_clear nl a _ (clear_of_without newline "" a Ha)).
  change (split_from nl 0 (nl ++ b))
    with (split_from (String newline "") 0 (String newline "" ++ b)).
  rewrite split_sep. cbn [prepend]. now rewrite append_empty.
Qed.

Lemma all_cons_head :
  forall p c l,
    p c = true -> Forall (fun piece => all p piece = true) l ->
    Forall (fun piece => all p piece = true) (cons_head c l).
Proof.
  intros p c l Hc Hl. destruct l as [| h t]; cbn.
  - constructor; [cbn; now rewrite Hc | constructor].
  - inversion Hl; subst. constructor; [cbn; now rewrite Hc | assumption].
Qed.

Lemma all_split :
  forall p sep s skip,
    all p s = true -> Forall (fun piece => all p piece = true) (split_from sep skip s).
Proof.
  intros p sep s. induction s as [| c s IH]; intros skip Hall.
  - repeat constructor.
  - cbn [all] in Hall. apply andb_true_iff in Hall. destruct Hall as [Hc Hall].
    cbn [split_from]. destruct skip; [| now apply IH].
    destruct (prefix sep (String c s)).
    + constructor; [reflexivity | now apply IH].
    + apply all_cons_head; [exact Hc | now apply IH].
Qed.

Lemma all_join :
  forall p sep l,
    all p sep = true -> Forall (fun piece => all p piece = true) l ->
    all p (join sep l) = true.
Proof.
  intros p sep l Hsep Hl. unfold join. induction Hl as [| h t Hh Ht IH]; [reflexivity |].
  cbn [String.concat]. destruct t as [| h' t]; [exact Hh |].
  rewrite !all_append, Hh, Hsep. exact IH.
Qed.

Lemma all_replace :
  forall p old new s,
    all p new = true -> all p s = true -> all p (replace old new s) = true.
Proof.
  intros p old new s Hnew Hs. unfold replace, split. apply all_join; [exact Hnew |].
  now apply all_split.
Qed.

End Splitting.

(** ** Reports rendered from well-formed findings *)

Section Rendering.

Import PyStr ReportSpec.

Variable repr : json -> string.

Lemma uint_digits :
  forall d, all digit_or_minus (NilEmpty.string_of_uint d) = true.
Proof.
  induction d; cbn [NilEmpty.string_of_uint all]; try rewrite IHd; reflexivity.
Qed.

Lemma str_of_nat_digits : forall n, all digit_or_minus (Py.str_of_nat n) = true.
Proof. intro n. apply uint_digits. Qed.

Lemma str_of_Z_digits : forall z, all digit_or_minus (Py.str_of_Z z) = true.
Proof.
  intro z. unfold Py.str_of_Z. destruct (Z.to_int z) as [d | d]; cbn.
  - apply uint_digits.
  - apply uint_digits.
Qed.

Lemma digit_is_plain :
  forall c, digit_or_minus c = true ->
            no_hash c = true /\ no_star c = true /\ no_newline c = true.
Proof.
  intros c. destruct c as [[] [] [] [] [] [] [] []]; vm_compute; intro H;
    first [discriminate H | repeat split].
Qed.

Lemma lower_char_hash : forall c, no_hash c = true -> no_hash (lower_char c) = true.
Proof.
  intro c. destruct c as [[] [] [] [] [] [] [] []]; vm_compute; trivial.
Qed.

Lemma upper_char_hash : forall c, no_hash c = true -> no_hash (upper_char c) = true.
Proof.
  intro c. destruct c as [[] [] [] [] [] [] [] []]; vm_compute; trivial.
Qed.

Lemma capitalize_hash :
  forall s, all no_hash s = true -> all no_hash (capitalize s) = true.
Proof.
  intros [| c s] H; [reflexivity |]. cbn [all capitalize] in *.
  apply andb_true_iff in H. destruct H as [Hc Hs].
  rewrite (upper_char_hash c Hc). cbn [andb].
  clear c Hc. induction s as [| c s IH]; [reflexivity |].
  cbn [all lower] in *. apply andb_true_iff in Hs. destruct Hs as [Hc Hs].
  now rewrite (lower_char_hash c Hc), IH.
Qed.

Lemma known_severity_cases :
  forall s,
    Legacy.has_key s Legacy.severity_counts0 = true ->
    s = "high" \/ s = "medium" \/ s = "low" \/ s = "info".
Proof.
  intros s H. unfold Legacy.severity_counts0 in H. cbn [Legacy.has_key] in H.
  repeat (apply orb_true_iff in H; destruct H as [H | H]);
    try discriminate H; apply String.eqb_eq in H; auto.
Qed.

(** One section of the report, as text. *)
Lemma finding_section_clean :
  forall i x,
    Legacy.finding_section repr i (issue_json x) = Ok ("### " ++ body i x).
Proof.
  intros i [severity category title description lines recommendation].
  unfold Legacy.finding_section, issue_json, Legacy.finding, body, title_line,
    severity_line, after_severity, line_part.
  cbn [i_severity i_category i_title i_description i_lines i_recommendation].
  cbn [Py.get Py.assoc String.eqb Ascii.eqb Bool.eqb bind Py.as_str Py.str].
  destruct lines as [| z lines].
  - cbn [map Py.truthy bind]. rewrite !append_assoc. reflexivity.
  - cbn [map Py.truthy Py.iter bind]. rewrite !append_assoc.
    rewrite map_map. reflexivity.
Qed.

Lemma finding_sections_clean :
  forall issues i,
    Legacy.finding_sections repr i (map issue_json issues) = Ok (sections_text i issues).
Proof.
  induction issues as [| x issues IH]; intro i; [reflexivity |].
  cbn [map Legacy.finding_sections sections_text].
  rewrite finding_section_clean. cbn [bind]. rewrite IH. reflexivity.
Qed.

Lemma increment_keys :
  forall k counts, map fst (Legacy.increment k counts) = map fst counts.
Proof.
  intros k counts. induction counts as [| [k' n] counts IH]; [reflexivity |].
  cbn [Legacy.increment]. destruct (String.eqb k k'); cbn [map fst]; [reflexivity |].
  now rewrite IH.
Qed.

Lemma histogram_keys :
  forall findings counts counts',
    Legacy.histogram findings counts = Ok counts' -> map fst counts' = map fst counts.
Proof.
  induction findings as [| finding findings IH]; intros counts counts' H.
  - injection H as <-. reflexivity.
  - cbn [Legacy.histogram] in H. unfold bind in H.
    destruct (Py.get finding "severity" (JStr "info")) as [severity | e]; [| discriminate H].
    destruct (Legacy.count_severity severity counts) as [counts1 | e] eqn:Hcount;
      [| discriminate H].
    rewrite (IH _ _ H).
    unfold Legacy.count_severity in Hcount.
    destruct severity; try discriminate Hcount.
    destruct (Legacy.has_key s counts); [| discriminate Hcount].
    injection Hcount as <-. apply increment_keys.
Qed.

Lemma clean_known :
  forall x, clean x -> ReportSpec.known_severity (issue_json x).
Proof.
  intros x [Hseverity _]. eexists. split; [reflexivity |].
  cbn. eexists. split; [reflexivity | exact Hseverity].
Qed.

(** The text of a report with well-formed findings. *)
Lemma rendered_clean :
  forall now r,
    clean_report r ->
    exists counts,
      map fst counts = ["high"; "medium"; "low"; "info"]
      /\ rendered repr now r
         = Ok (preamble (r_generated r) (r_name r) counts ++ sections_text 1 (r_issues r)).
Proof.
  intros now [name generated issues] [_ [_ [_ [Hissues _]]]].
  cbn [r_name r_generated r_issues] in *.
  assert (Hknown : Forall ReportSpec.known_severity (map issue_json issues)).
  { apply Forall_map. eapply Forall_impl; [| exact Hissues]. apply clean_known. }
  destruct (histogram_defined (map issue_json issues) Legacy.severity_counts0
              (fun k => eq_refl) Hknown) as [counts Hcounts].
  exists counts. split; [exact (histogram_keys _ _ _ Hcounts) |].
  unfold rendered, Legacy.save_report, Legacy.analysis_dict.
  cbn [r_name r_generated r_issues].
  cbn [Py.contains Py.assoc String.eqb Ascii.eqb Bool.eqb bind Py.get Py.iter].
  rewrite Hcounts. cbn [bind]. rewrite finding_sections_clean. cbn [bind].
  unfold preamble, Legacy.report_header, heading. rewrite !append_assoc. reflexivity.
Qed.

Ltac all_pieces :=
  repeat match goal with
         | |- all _ (append _ _) = true => rewrite all_append; apply andb_true_iff; split
         end.

Lemma str_of_nat_plain :
  forall n,
    all no_hash (Py.str_of_nat n) = true
    /\ all no_star (Py.str_of_nat n) = true
    /\ all no_newline (Py.str_of_nat n) = true.
Proof.
  intro n. pose proof (str_of_nat_digits n) as H.
  repeat split; (eapply all_imp; [| exact H]); intros c Hc;
    destruct (digit_is_plain c Hc) as [? [? ?]]; assumption.
Qed.

Lemma line_part_plain :
  forall lines, all no_hash (line_part lines) = true.
Proof.
  intros [| z lines]; [reflexivity |]. unfold line_part. all_pieces; try reflexivity.
  apply all_join; [reflexivity |]. apply Forall_map, Forall_forall. intros z' _.
  eapply all_imp; [| apply str_of_Z_digits]. intros c Hc.
  now destruct (digit_is_plain c Hc).
Qed.

Lemma severity_line_facts :
  forall x,
    Legacy.has_key (i_severity x) Legacy.severity_counts0 = true ->
    all no_hash (severity_line x) = true
    /\ all no_newline (severity_line x) = true
    /\ contains Legacy.severity_marker (severity_line x) = true
    /\ strip (replace Legacy.severity_marker "" (severity_line x))
       = capitalize (i_severity x)
    /\ Legacy.in_strings (lower (capitalize (i_severity x))) ["high"; "medium"]
       = critical_issue x.
Proof.
  intros x H. unfold severity_line, critical_issue.
  destruct (known_severity_cases _ H) as [-> | [-> | [-> | ->]]];
    repeat split; vm_compute; reflexivity.
Qed.

Lemma title_line_facts :
  forall i x,
    clean x ->
    all no_hash (title_line i x) = true
    /\ all no_star (title_line i x) = true
    /\ all no_newline (title_line i x) = true.
Proof.
  intros i x [_ [Hhash [Hstar [Hline _]]]].
  destruct (str_of_nat_plain i) as [Hn1 [Hn2 Hn3]].
  unfold title_line. repeat split; all_pieces; first [assumption | reflexivity].
Qed.

Lemma body_plain :
  forall i x, clean x -> all no_hash (body i x) = true.
Proof.
  intros i x Hclean.
  destruct (title_line_facts i x Hclean) as [Htitle _].
  destruct Hclean as [Hseverity [_ [_ [_ [Hcategory [Hdescription [Hrecommendation _]]]]]]].
  destruct (severity_line_facts x Hseverity) as [Hsev _].
  unfold body, after_severity. all_pieces;
    first [assumption | reflexivity | apply line_part_plain | idtac].
  apply all_replace; [reflexivity |]. now apply capitalize_hash.
Qed.

Lemma summary_rows_plain :
  forall counts,
    map fst counts = ["high"; "medium"; "low"; "info"] ->
    all no_hash (Legacy.summary_rows counts) = true.
Proof.
  intros counts Hkeys.
  destruct counts as [| [k1 n1] [| [k2 n2] [| [k3 n3] [| [k4 n4] [| ? ?]]]]];
    try discriminate Hkeys.
  cbn [map fst] in Hkeys. injection Hkeys as -> -> -> ->.
  unfold Legacy.summary_rows. cbn [map fst snd String.concat].
  all_pieces; first [reflexivity | apply (str_of_nat_plain _)].
Qed.

Ltac clear_pieces :=
  repeat match goal with
         | |- clear_of _ (append _ _) = true => apply clear_of_append
         end.

Lemma preamble_clear :
  forall generated name counts,
    all no_hash name = true ->
    all no_hash generated = true ->
    map fst counts = ["high"; "medium"; "low"; "info"] ->
    clear_of "### " (preamble generated name counts) = true.
Proof.
  intros generated name counts Hname Hgenerated Hkeys.
  unfold preamble, heading. clear_pieces;
    first [ reflexivity
          | apply (clear_of_without "#" "## "); first [assumption | reflexivity]
          | idtac ].
  apply (clear_of_without "#" "## "). now apply summary_rows_plain.
Qed.

(** The sections of a rendered report are the bodies of its findings. *)
Lemma split_sections :
  forall issues i,
    Forall clean issues ->
    split_from "### " 0 (sections_text i issues) = "" :: bodies i issues.
Proof.
  induction issues as [| x issues IH]; intros i Hclean; [reflexivity |].
  inversion Hclean as [| ? ? Hx Hrest]; subst.
  cbn [sections_text bodies]. rewrite append_assoc.
  change ("### " ++ body i x ++ sections_text (S i) issues)
    with (String "#" "## " ++ (body i x ++ sections_text (S i) issues)).
  rewrite split_sep.
  rewrite (split_clear _ _ _ (clear_of_without "#" "## " _ (body_plain i x Hx))).
  rewrite (IH (S i) Hrest). cbn [prepend]. now rewrite append_empty.
Qed.

Lemma split_report :
  forall generated name counts issues,
    all no_hash name = true ->
    all no_hash generated = true ->
    map fst counts = ["high"; "medium"; "low"; "info"] ->
    Forall clean issues ->
    TableSpec.spec_sections (preamble generated name counts ++ sections_text 1 issues)
    = bodies 1 issues.
Proof.
  intros generated name counts issues Hname Hgenerated Hkeys Hclean.
  unfold TableSpec.spec_sections, split.
  rewrite (split_clear _ _ _ (preamble_clear generated name counts Hname Hgenerated Hkeys)).
  rewrite (split_sections issues 1 Hclean). reflexivity.
Qed.

Lemma body_lines :
  forall i x,
    clean x ->
    lines (body i x)
    = title_line i x :: "" :: severity_line x :: lines (after_severity x).
Proof.
  intros i x Hclean.
  destruct (title_line_facts i x Hclean) as [_ [_ Htitle]].
  destruct Hclean as [Hseverity _].
  destruct (severity_line_facts x Hseverity) as [_ [Hsev _]].
  unfold body.
  rewrite (lines_cons (title_line i x) _ Htitle).
  rewrite (lines_cons "" _ eq_refl).
  rewrite (lines_cons (severity_line x) _ Hsev).
  reflexivity.
Qed.

(** What the severity line of a finding's section reads. *)
Lemma body_severity :
  forall i x,
    clean x ->
    TableSpec.spec_rendered_severity (body i x) = Some (capitalize (i_severity x)).
Proof.
  intros i x Hclean.
  unfold TableSpec.spec_rendered_severity, TableSpec.spec_severity_line.
  rewrite (body_lines i x Hclean).
  destruct (title_line_facts i x Hclean) as [_ [Hstar _]].
  destruct Hclean as [Hseverity _].
  destruct (severity_line_facts x Hseverity) as [_ [_ [Hmarker [Hstrip _]]]].
  cbn [find]. unfold Legacy.severity_marker in *.
  rewrite (contains_without "*" "*Severity:**" _ Hstar).
  change (contains "**Severity:**" "") with false. cbn iota.
  rewrite Hmarker. cbn [option_map]. now rewrite Hstrip.
Qed.

Lemma body_reads :
  forall i x,
    clean x -> TableSpec.spec_reads ["high"; "medium"] (body i x) = critical_issue x.
Proof.
  intros i x Hclean. unfold TableSpec.spec_reads. rewrite (body_severity i x Hclean).
  destruct Hclean as [Hseverity _].
  now destruct (severity_line_facts x Hseverity) as [_ [_ [_ [_ Hlevel]]]].
Qed.

Lemma body_row :
  forall content i x,
    clean x ->
    row_cells (TableSpec.spec_row content (body i x))
    = (capitalize (i_severity x), TableSpec.spec_report_name content, title_line i x).
Proof.
  intros content i x Hclean. unfold row_cells, TableSpec.spec_row.
  cbn [Legacy.c_severity Legacy.c_report Legacy.c_title].
  now rewrite (body_severity i x Hclean), (body_lines i x Hclean).
Qed.

(** The report name read back from the first line. *)
Lemma report_name_clean :
  forall generated name counts rest,
    all no_hash name = true ->
    all no_newline name = true ->
    TableSpec.spec_report_name (preamble generated name counts ++ rest) = name.
Proof.
  intros generated name counts rest Hhash Hline.
  unfold TableSpec.spec_report_name, preamble.
  rewrite (append_assoc (heading ++ name)), (append_assoc nl).
  rewrite lines_cons.
  - cbn [hd]. unfold replace, split, heading.
    change ("# O3 Analysis Report: " ++ name)
      with (String "#" " O3 Analysis Report: " ++ name).
    rewrite split_sep. rewrite <- (append_empty name) at 1.
    rewrite (split_clear _ name ""
               (clear_of_without "#" " O3 Analysis Report: " name Hhash)).
    cbn [split_from prepend join String.concat append]. now rewrite append_empty.
  - unfold heading. all_pieces; [reflexivity | exact Hline].
Qed.

Lemma rows_of_bodies :
  forall content issues i,
    Forall clean issues ->
    map row_cells
      (map (TableSpec.spec_row content)
         (filter (TableSpec.spec_reads ["high"; "medium"]) (bodies i issues)))
    = expected_rows (TableSpec.spec_report_name content) i issues.
Proof.
  intros content issues. induction issues as [| x issues IH]; intros i Hclean; [reflexivity |].
  inversion Hclean as [| ? ? Hx Hrest]; subst.
  cbn [bodies filter expected_rows]. rewrite (body_reads i x Hx).
  destruct (critical_issue x); cbn [map app].
  - now rewrite (body_row content i x Hx), (IH (S i) Hrest).
  - exact (IH (S i) Hrest).
Qed.

(** Reports with well-formed findings: they are written, and the table
    rows are those of the findings of severity high or medium. *)
Lemma clean_reports_table :
  forall now reports,
    Forall clean_report reports ->
    exists texts,
      Forall2 (fun r text => rendered repr now r = Ok text) reports texts
      /\ map row_cells (TableSpec.spec_table texts)
         = flat_map (fun r => expected_rows (r_name r) 1 (r_issues r)) reports.
Proof.
  intros now reports Hclean. induction Hclean as [| r reports Hr Hrest [texts [Htexts Hrows]]].
  - exists []. split; [constructor | reflexivity].
  - destruct (rendered_clean now r Hr) as [counts [Hkeys Htext]].
    destruct Hr as [Hname [Hline [Hgenerated [Hissues _]]]].
    eexists (_ :: texts). split; [constructor; [exact Htext | exact Htexts] |].
    unfold TableSpec.spec_table in *. cbn [flat_map].
    rewrite !map_app, Hrows. f_equal.
    rewrite (split_report _ _ _ _ Hname Hgenerated Hkeys Hissues).
    rewrite (rows_of_bodies _ _ 1 Hissues).
    now rewrite (report_name_clean _ _ _ _ Hname Hline).
Qed.

Lemma digit_no_return : forall c, digit_or_minus c = true -> no_return c = true.
Proof.
  intros c. destruct c as [[] [] [] [] [] [] [] []]; vm_compute; intro H;
    first [discriminate H | reflexivity].
Qed.

Lemma lower_char_return : forall c, no_return c = true -> no_return (lower_char c) = true.
Proof.
  intro c. destruct c as [[] [] [] [] [] [] [] []]; vm_compute; trivial.
Qed.

Lemma upper_char_return : forall c, no_return c = true -> no_return (upper_char c) = true.
Proof.
  intro c. destruct c as [[] [] [] [] [] [] [] []]; vm_compute; trivial.
Qed.

Lemma capitalize_return :
  forall s, all no_return s = true -> all no_return (capitalize s) = true.
Proof.
  intros [| c s] H; [reflexivity |]. cbn [all capitalize] in *.
  apply andb_true_iff in H. destruct H as [Hc Hs].
  rewrite (upper_char_return c Hc). cbn [andb].
  clear c Hc. induction s as [| c s IH]; [reflexivity |].
  cbn [all lower] in *. apply andb_true_iff in Hs. destruct Hs as [Hc Hs].
  now rewrite (lower_char_return c Hc), IH.
Qed.

Lemma str_of_nat_return : forall n, all no_return (Py.str_of_nat n) = true.
Proof.
  intro n. eapply all_imp; [| apply str_of_nat_digits]. apply digit_no_return.
Qed.

Lemma line_part_return : forall lines, all no_return (line_part lines) = true.
Proof.
  intros [| z lines]; [reflexivity |]. unfold line_part. all_pieces; try reflexivity.
  apply all_join; [reflexivity |]. apply Forall_map, Forall_forall. intros z' _.
  eapply all_imp; [| apply str_of_Z_digits]. apply digit_no_return.
Qed.

Lemma body_return :
  forall i x, clean x -> all no_return (body i x) = true.
Proof.
  intros i x [Hseverity [_ [_ [_ [_ [_ [_ [Htitle [Hcategory [Hdescription Hrecommendation]]]]]]]]]].
  unfold body, after_severity, title_line, severity_line. all_pieces;
    first [assumption | reflexivity | apply line_part_return | apply str_of_nat_return
          | idtac].
  - destruct (known_severity_cases _ Hseverity) as [-> | [-> | [-> | ->]]]; reflexivity.
  - apply all_replace; [reflexivity |]. now apply capitalize_return.
Qed.

Lemma sections_return :
  forall issues i, Forall clean issues -> all no_return (sections_text i issues) = true.
Proof.
  induction issues as [| x issues IH]; intros i Hclean; [reflexivity |].
  inversion Hclean as [| ? ? Hx Hrest]; subst.
  cbn [sections_text]. all_pieces; [reflexivity | now apply body_return | now apply IH].
Qed.

Lemma summary_rows_return :
  forall counts,
    map fst counts = ["high"; "medium"; "low"; "info"] ->
    all no_return (Legacy.summary_rows counts) = true.
Proof.
  intros counts Hkeys.
  destruct counts as [| [k1 n1] [| [k2 n2] [| [k3 n3] [| [k4 n4] [| ? ?]]]]];
    try discriminate Hkeys.
  cbn [map fst] in Hkeys. injection Hkeys as -> -> -> ->.
  unfold Legacy.summary_rows. cbn [map fst snd String.concat].
  all_pieces; first [reflexivity | apply str_of_nat_return].
Qed.

Lemma preamble_return :
  forall generated name counts,
    all no_return name = true ->
    all no_return generated = true ->
    map fst counts = ["high"; "medium"; "low"; "info"] ->
    all no_return (preamble generated name counts) = true.
Proof.
  intros generated name counts Hname Hgenerated Hkeys.
  unfold preamble, heading. all_pieces;
    first [assumption | reflexivity | now apply summary_rows_return].
Qed.

(** A text without carriage return is read as it was written. *)
Lemma read_text_plain :
  forall data, all no_return data = true -> Legacy.read_text data = data.
Proof.
  induction data as [| c data IH]; intro H; [reflexivity |].
  cbn [all] in H. apply andb_true_iff in H. destruct H as [Hc Hrest].
  cbn [Legacy.read_text]. unfold no_return in Hc. apply negb_true_iff in Hc.
  rewrite Hc. now rewrite IH.
Qed.

Lemma critical_table_text :
  forall rows,
    Legacy.critical_table rows = TableSpec.table_text (map TableSpec.row_line rows).
Proof. intros [| row rows]; reflexivity. Qed.

Lemma cells_of_rows :
  forall rows, map cells_line (map row_cells rows) = map TableSpec.row_line rows.
Proof. intros rows. rewrite map_map. reflexivity. Qed.

(** Reports with well-formed findings are read back as they were written,
    and the table written from them is the table of their findings of
    severity high or medium. *)
Lemma clean_reports_text :
  forall now reports,
    Forall clean_report reports ->
    exists texts,
      Forall2 (fun r text => rendered repr now r = Ok text) reports texts
      /\ map Legacy.read_text texts = texts
      /\ map row_cells (Legacy.critical_findings (map Legacy.read_text texts))
         = flat_map (fun r => expected_rows (r_name r) 1 (r_issues r)) reports.
Proof.
  intros now reports Hclean.
  assert (Hback : exists texts,
             Forall2 (fun r text => rendered repr now r = Ok text) reports texts
             /\ map Legacy.read_text texts = texts).
  { induction Hclean as [| r reports Hr Hrest [texts [Htexts Hsame]]].
    - exists []. split; [constructor | reflexivity].
    - destruct (rendered_clean now r Hr) as [counts [Hkeys Htext]].
      destruct Hr as [_ [_ [_ [Hissues [Hname Hgenerated]]]]].
      eexists (_ :: texts). split; [constructor; [exact Htext | exact Htexts] |].
      cbn [map]. rewrite Hsame. f_equal. apply read_text_plain.
      all_pieces; [now apply preamble_return | now apply sections_return]. }
  destruct Hback as [texts [Htexts Hsame]].
  destruct (clean_reports_table now reports Hclean) as [texts' [Htexts' Hrows]].
  assert (texts' = texts) as ->.
  { clear - Htexts Htexts'. revert texts' Htexts'.
    induction Htexts as [| r text reports texts Hr _ IH]; intros texts' H';
      inversion H' as [| ? text' ? rest' Hr' Hrest']; subst; [reflexivity |].
    rewrite Hr in Hr'. injection Hr' as <-. f_equal. now apply IH. }
  exists texts. split; [exact Htexts | split; [exact Hsame |]].
  rewrite Hsame. destruct (table_rows_of_texts texts) as [-> _]. exact Hrows.
Qed.

End Rendering.

(** C6 as stated fails: in a report that [save_report] writes from two
    findings, the finding of severity high, whose title holds the text
    [**Severity:**], gets no row, and the finding of severity low, whose
    title goes on with a line [**Severity:** High], gets one: the table
    lists the section whose severity line reads Low and leaves out the one
    whose severity line reads High. *)
Lemma marker_in_title_misleads_table :
  let reentrancy :=
    {| ReportSpec.i_severity := "high"; ReportSpec.i_category := "security";
       ReportSpec.i_title := "Reentrancy, see **Severity:** below";
       ReportSpec.i_description := "State changes must come first.";
       ReportSpec.i_lines := [110%Z];
       ReportSpec.i_recommendation := "Follow checks-effects-interactions." |} in
  let storage :=
    {| ReportSpec.i_severity := "low"; ReportSpec.i_category := "gas_optimization";
       ReportSpec.i_title := "Storage access" ++ PyStr.nl ++ "**Severity:** High";
       ReportSpec.i_description := "Multiple reads could be optimized.";
       ReportSpec.i_lines := [];
       ReportSpec.i_recommendation := "Cache storage variables." |} in
  let report :=
    {| ReportSpec.r_name := "transfer_function";
       ReportSpec.r_generated := "2025-01-01 00:00:00";
       ReportSpec.r_issues := [reentrancy; storage] |} in
  exists text,
    ReportSpec.rendered (fun _ => "") "t" report = Ok text
    /\ Legacy.read_text text = text
    /\ ReportSpec.expected_rows "transfer_function" 1 [reentrancy; storage]
       = [("High", "transfer_function", "1. Reentrancy, see **Severity:** below")]
    /\ map ReportSpec.row_cells (Legacy.critical_findings [Legacy.read_text text])
       = [("High", "transfer_function", "2. Storage access")]
    /\ Legacy.critical_table (Legacy.critical_findings [Legacy.read_text text])
       = "| Severity | Report | Finding |" ++ PyStr.nl
         ++ "|----------|--------|--------|" ++ PyStr.nl
         ++ "| High | transfer_function | 2. Storage access |" ++ PyStr.nl.
Proof.
  cbv zeta. eexists. split; [vm_compute; reflexivity |].
  repeat split; vm_compute; reflexivity.
Qed.

(** C6, amended: over every list of report texts as they are read, the
    critical-findings table has, in order, one line for each section (the
    text after a "### ") whose first line holding '**Severity:**' reads High
    or Medium once marker and white space are removed, letter case apart;
    it has no other line, so none reads low or info, and it is the sentence
    that no critical finding was detected when there is no such section.
    For reports that [save_report] renders from well-formed findings
    (severity one of the four counters, no text with a [#] or a carriage
    return, a one-line title without [*]), these lines are exactly the
    findings of severity high or medium, each with its rendered severity,
    its report name and its numbered title. *)
Theorem critical_table_rows :
  (forall contents : list string,
      Legacy.critical_table (Legacy.critical_findings contents)
      = TableSpec.spec_table_text contents
      /\ Legacy.critical_findings contents = TableSpec.spec_table contents
      /\ List.length (Legacy.critical_findings contents)
         = list_sum
             (map (fun content =>
                     List.length (filter (TableSpec.spec_reads ["high"; "medium"])
                                    (TableSpec.spec_sections content)))
                contents)
      /\ Forall
           (fun row =>
              (PyStr.lower (Legacy.c_severity row) = "high"
               \/ PyStr.lower (Legacy.c_severity row) = "medium")
              /\ PyStr.lower (Legacy.c_severity row) <> "low"
              /\ PyStr.lower (Legacy.c_severity row) <> "info")
           (Legacy.critical_findings contents))
  /\ (forall (repr : json -> string) (now : string) (reports : list ReportSpec.unit_report),
         Forall ReportSpec.clean_report reports ->
         exists texts,
           Forall2 (fun r text => ReportSpec.rendered repr now r = Ok text) reports texts
           /\ map ReportSpec.row_cells
                (Legacy.critical_findings (map Legacy.read_text texts))
              = flat_map
                  (fun r => ReportSpec.expected_rows (ReportSpec.r_name r) 1
                              (ReportSpec.r_issues r))
                  reports
           /\ Legacy.critical_table (Legacy.critical_findings (map Legacy.read_text texts))
              = ReportSpec.expected_table reports).
Proof.
  split.
  - intros contents. split; [| exact (table_rows_of_texts contents)].
    rewrite critical_table_text. unfold TableSpec.spec_table_text.
    now destruct (table_rows_of_texts contents) as [-> _].
  - intros repr now reports Hclean.
    destruct (clean_reports_text repr now reports Hclean) as [texts [Htexts [_ Hrows]]].
    exists texts. split; [exact Htexts | split; [exact Hrows |]].
    rewrite critical_table_text. unfold ReportSpec.expected_table.
    now rewrite <- Hrows, cells_of_rows.
Qed.

Lemma critical_table_rows_witness :
  let overflow :=
    {| ReportSpec.i_severity := "medium"; ReportSpec.i_category := "security";
       ReportSpec.i_title := "Potential Integer Overflow in Reflection Calculation";
       ReportSpec.i_description := "The reflection calculation could overflow.";
       ReportSpec.i_lines := [42%Z; 56%Z];
       ReportSpec.i_recommendation := "Use built-in overflow checks." |} in
  let storage :=
    {| ReportSpec.i_severity := "low"; ReportSpec.i_category := "gas_optimization";
       ReportSpec.i_title := "Inefficient Storage Access Pattern";
       ReportSpec.i_description := "Multiple reads could be optimized.";
       ReportSpec.i_lines := [];
       ReportSpec.i_recommendation := "Cache storage variables." |} in
  let reentrancy :=
    {| ReportSpec.i_severity := "high"; ReportSpec.i_category := "security";
       ReportSpec.i_title := "Potential Reentrancy Risk";
       ReportSpec.i_description := "State changes must come first.";
       ReportSpec.i_lines := [110%Z];
       ReportSpec.i_recommendation := "Follow checks-effects-interactions." |} in
  let reports :=
    [{| ReportSpec.r_name := "reflection_library";
        ReportSpec.r_generated := "2025-01-01 00:00:00";
        ReportSpec.r_issues := [overflow; storage] |};
     {| ReportSpec.r_name := "transfer_function";
        ReportSpec.r_generated := "2025-01-01 00:00:01";
        ReportSpec.r_issues := [storage; reentrancy] |}] in
  exists texts,
    Forall2 (fun r text => ReportSpec.rendered (fun _ => "") "t" r = Ok text) reports texts
    /\ map ReportSpec.row_cells (Legacy.critical_findings (map Legacy.read_text texts))
       = [("Medium", "reflection_library",
           "1. Potential Integer Overflow in Reflection Calculation");
          ("High", "transfer_function", "2. Potential Reentrancy Risk")]
    /\ Legacy.critical_table (Legacy.critical_findings (map Legacy.read_text texts))
       = "| Severity | Report | Finding |" ++ PyStr.nl
         ++ "|----------|--------|--------|" ++ PyStr.nl
         ++ "| Medium | reflection_library | "
         ++ "1. Potential Integer Overflow in Reflection Calculation |" ++ PyStr.nl
         ++ "| High | transfer_function | 2. Potential Reentrancy Risk |" ++ PyStr.nl.
Proof.
  intros overflow storage reentrancy reports.
  apply (proj2 critical_table_rows (fun _ => "") "t" reports).
  repeat constructor.
Defined.

(** * Further properties of the analyzers *)

(** ** The line scan of the legacy analyzer *)

Section LineScan.

Import BraceSpec.

Variable target : string.

Lemma scan_function_acc :
  forall lines in_function brace_count function_lines,
    Legacy.scan_function target lines in_function brace_count function_lines
    = (function_lines
       ++ Legacy.scan_function target lines in_function brace_count [])%list.
Proof.
  induction lines as [| line rest IH]; intros inf bc acc; cbn [Legacy.scan_function].
  - now rewrite app_nil_r.
  - destruct (PyStr.contains target line).
    + rewrite IH, (IH _ _ ([] ++ [line])%list). now rewrite app_assoc.
    + destruct inf.
      * cbn zeta. destruct (_ <=? 0)%Z; [reflexivity |].
        rewrite IH, (IH _ _ ([] ++ [line])%list). now rewrite app_assoc.
      * apply IH.
Qed.

Lemma scan_function_idle :
  forall before rest brace_count,
    Forall (fun line => PyStr.contains target line = false) before ->
    Legacy.scan_function target (before ++ rest) false brace_count []
    = Legacy.scan_function target rest false brace_count [].
Proof.
  induction before as [| line before IH]; intros rest bc Hno; [reflexivity |].
  inversion Hno as [| ? ? Hline Hrest]; subst.
  cbn [app Legacy.scan_function]. rewrite Hline. now apply IH.
Qed.

Lemma scan_function_prefix :
  forall lines brace_count,
    exists n,
      Legacy.scan_function target lines true brace_count [] = firstn n lines
      /\ (lines <> [] -> 0 < n).
Proof.
  induction lines as [| line rest IH]; intros bc.
  - exists 0. split; [reflexivity | congruence].
  - cbn [Legacy.scan_function].
    destruct (PyStr.contains target line).
    + destruct (IH (Z.of_nat (PyStr.count_char "{" line))) as [n [Hn _]].
      exists (S n). rewrite scan_function_acc, Hn. split; [reflexivity | lia].
    + cbn zeta. destruct (_ <=? 0)%Z.
      * exists 1. split; [reflexivity | lia].
      * match goal with
        | |- context [Legacy.scan_function target rest true ?d _] =>
            destruct (IH d) as [n [Hn _]]
        end.
        exists (S n). rewrite scan_function_acc, Hn. split; [reflexivity | lia].
Qed.

Lemma scan_function_none :
  forall lines brace_count,
    Legacy.scan_function target lines false brace_count [] = []
    <-> Forall (fun line => PyStr.contains target line = false) lines.
Proof.
  induction lines as [| line rest IH]; intros bc.
  - split; [constructor | reflexivity].
  - cbn [Legacy.scan_function]. destruct (PyStr.contains target line) eqn:Hline.
    + rewrite scan_function_acc. split; [discriminate |].
      intros H. inversion H; congruence.
    + rewrite IH. split.
      * intros H. now constructor.
      * intros H. now inversion H.
Qed.

(** Every list of lines splits at its first line that holds the target. *)
Lemma first_declaration :
  forall lines,
    Forall (fun line => PyStr.contains target line = false) lines
    \/ exists before decl rest,
         lines = (before ++ decl :: rest)%list
         /\ Forall (fun line => PyStr.contains target line = false) before
         /\ PyStr.contains target decl = true.
Proof.
  induction lines as [| line rest IH]; [left; constructor |].
  destruct (PyStr.contains target line) eqn:Hline.
  - right. exists [], line, rest. repeat split; [constructor | assumption].
  - destruct IH as [Hno | [before [decl [rest' [Heq [Hno Hdecl]]]]]].
    + left. now constructor.
    + right. exists (line :: before), decl, rest'. subst rest.
      repeat split; [now constructor | assumption].
Qed.

Lemma scan_function_at :
  forall before decl rest,
    Forall (fun line => PyStr.contains target line = false) before ->
    PyStr.contains target decl = true ->
    Legacy.scan_function target (before ++ decl :: rest) false 0%Z []
    = decl :: Legacy.scan_function target rest true
                (Z.of_nat (PyStr.count_char "{" decl)) [].
Proof.
  intros before decl rest Hno Hdecl.
  rewrite scan_function_idle by assumption.
  cbn [Legacy.scan_function]. rewrite Hdecl. now rewrite scan_function_acc.
Qed.

(** In the function, the lines are taken while the counter stays positive. *)
Lemma scan_function_body :
  forall body d last after,
    Forall (fun line => PyStr.contains target line = false) (body ++ [last]) ->
    (forall k, k < List.length body -> (0 < depth d (firstn (S k) body))%Z) ->
    (depth d (body ++ [last]) <= 0)%Z ->
    Legacy.scan_function target (body ++ last :: after) true d []
    = (body ++ [last])%list.
Proof.
  induction body as [| line body IH]; intros d last after Hno Hopen Hclose.
  - cbn [app Legacy.scan_function]. inversion Hno as [| ? ? Hlast _]; subst.
    rewrite Hlast. cbn zeta. cbn [depth fold_left app] in Hclose. unfold braces in Hclose.
    destruct (_ <=? 0)%Z eqn:Hle; [reflexivity | lia].
  - cbn [app Legacy.scan_function]. cbn [app] in Hno.
    inversion Hno as [| ? ? Hline Hrest]; subst. rewrite Hline. cbn zeta.
    assert (Hfirst : (0 < depth d (firstn 1 (line :: body)))%Z)
      by (apply Hopen; cbn; lia).
    cbn [firstn depth fold_left] in Hfirst. unfold braces in Hfirst.
    destruct (_ <=? 0)%Z eqn:Hle; [lia |].
    rewrite scan_function_acc. cbn [app]. f_equal.
    apply IH; [assumption | |].
    + intros k Hk. specialize (Hopen (S k)). cbn [List.length firstn depth fold_left] in Hopen.
      unfold braces in Hopen at 1. unfold depth. 
      replace (d + Z.of_nat (PyStr.count_char "{" line) - Z.of_nat (PyStr.count_char "}" line))%Z
        with (d + (Z.of_nat (PyStr.count_char "{" line) - Z.of_nat (PyStr.count_char "}" line)))%Z
        by lia.
      apply Hopen. lia.
    + cbn [app depth fold_left] in Hclose. unfold braces in Hclose at 1. unfold depth.
      replace (d + Z.of_nat (PyStr.count_char "{" line) - Z.of_nat (PyStr.count_char "}" line))%Z
        with (d + (Z.of_nat (PyStr.count_char "{" line) - Z.of_nat (PyStr.count_char "}" line)))%Z
        by lia.
      exact Hclose.
Qed.

End LineScan.

(** X1: the legacy line scan finds no function exactly when no line of the
    file holds the text [function NAME]; it then returns nothing to
    analyze. *)
Theorem legacy_function_not_found :
  forall (full_code function_name : string),
    Legacy.extract_function full_code function_name = None
    <-> Forall (fun line => BraceSpec.declares function_name line = false)
          (PyStr.lines full_code).
Proof.
  intros full_code function_name. unfold Legacy.extract_function, BraceSpec.declares.
  rewrite <- (scan_function_none _ _ 0%Z).
  destruct (Legacy.scan_function _ _ false 0%Z []); split; congruence.
Qed.

(** X2: what the legacy line scan extracts is a block of consecutive lines
    of the file, joined as they were: it starts at the first line that
    holds [function NAME], and no line is skipped or reordered. *)
Theorem legacy_unit_is_a_block_of_lines :
  forall (full_code function_name function_code : string),
    Legacy.extract_function full_code function_name = Some function_code ->
    exists before decl more after,
      PyStr.lines full_code = (before ++ (decl :: more) ++ after)%list
      /\ Forall (fun line => BraceSpec.declares function_name line = false) before
      /\ BraceSpec.declares function_name decl = true
      /\ function_code = PyStr.join PyStr.nl (decl :: more).
Proof.
  intros full_code function_name function_code Hrun.
  unfold Legacy.extract_function in Hrun. unfold BraceSpec.declares.
  destruct (first_declaration ("function " ++ function_name) (PyStr.lines full_code))
    as [Hno | [before [decl [rest [Hlines [Hno Hdecl]]]]]].
  - apply (scan_function_none _ _ 0%Z) in Hno. rewrite Hno in Hrun. discriminate Hrun.
  - rewrite Hlines, scan_function_at in Hrun by assumption.
    destruct (scan_function_prefix ("function " ++ function_name) rest
                (Z.of_nat (PyStr.count_char "{" decl))) as [n [Hn _]].
    rewrite Hn in Hrun. injection Hrun as <-.
    exists before, decl, (firstn n rest), (skipn n rest).
    repeat split; try assumption.
    rewrite Hlines. cbn [app]. now rewrite firstn_skipn.
Qed.

Lemma legacy_unit_is_a_block_of_lines_witness :
  exists before decl more after,
    PyStr.lines ("contract T {" ++ PyStr.nl ++ "  function buy() {" ++ PyStr.nl
                 ++ "    pay();" ++ PyStr.nl ++ "  }" ++ PyStr.nl ++ "}")
    = (before ++ (decl :: more) ++ after)%list
    /\ Forall (fun line => BraceSpec.declares "buy" line = false) before
    /\ BraceSpec.declares "buy" decl = true
    /\ "  function buy() {" ++ PyStr.nl ++ "    pay();" ++ PyStr.nl ++ "  }"
       = PyStr.join PyStr.nl (decl :: more).
Proof.
  apply (legacy_unit_is_a_block_of_lines
           ("contract T {" ++ PyStr.nl ++ "  function buy() {" ++ PyStr.nl
            ++ "    pay();" ++ PyStr.nl ++ "  }" ++ PyStr.nl ++ "}") "buy").
  vm_compute. reflexivity.
Defined.

(** X3: the unit always holds the line after the declaration line when
    there is one, whatever the braces are: closing braces on the declaration
    line are not counted, so a function written on one line is extracted
    together with the line that follows it. *)
Theorem legacy_unit_takes_the_next_line :
  forall (full_code function_name : string) (before : list string) (decl next : string)
         (after : list string),
    PyStr.lines full_code = (before ++ decl :: next :: after)%list ->
    Forall (fun line => BraceSpec.declares function_name line = false) before ->
    BraceSpec.declares function_name decl = true ->
    exists more rest,
      after = (more ++ rest)%list
      /\ Legacy.extract_function full_code function_name
         = Some (PyStr.join PyStr.nl (decl :: next :: more)).
Proof.
  intros full_code function_name before decl next after Hlines Hno Hdecl.
  unfold Legacy.extract_function. unfold BraceSpec.declares in *.
  rewrite Hlines, scan_function_at by assumption.
  destruct (scan_function_prefix ("function " ++ function_name) (next :: after)
              (Z.of_nat (PyStr.count_char "{" decl))) as [n [Hn Hpos]].
  rewrite Hn. destruct n as [| n]; [assert (0 < 0) by (apply Hpos; discriminate); lia |].
  cbn [firstn]. exists (firstn n after), (skipn n after).
  split; [now rewrite firstn_skipn | reflexivity].
Qed.

Lemma legacy_unit_takes_the_next_line_witness :
  exists more rest,
    ["uint total;"; "function sell() {"; "}"] = (more ++ rest)%list
    /\ Legacy.extract_function
         ("function buy() { pay(); }" ++ PyStr.nl ++ "uint rate;" ++ PyStr.nl
          ++ "uint total;" ++ PyStr.nl ++ "function sell() {" ++ PyStr.nl ++ "}") "buy"
       = Some (PyStr.join PyStr.nl ("function buy() { pay(); }" :: "uint rate;" :: more)).
Proof.
  apply (legacy_unit_takes_the_next_line _ "buy" []); [| constructor |];
    vm_compute; reflexivity.
Defined.

(** X4: when the declaration line is followed by lines that keep the brace
    counter positive and then by a line that brings it to zero or below,
    the unit is the declaration line and these lines, the closing one
    included; the counter starts at the number of opening braces of the
    declaration line and adds, line by line, opening minus closing
    braces. *)
Theorem legacy_unit_closes_when_counter_reaches_zero :
  forall (full_code function_name : string) (before : list string) (decl : string)
         (body : list string) (last : string) (after : list string),
    PyStr.lines full_code = (before ++ decl :: body ++ last :: after)%list ->
    Forall (fun line => BraceSpec.declares function_name line = false) before ->
    BraceSpec.declares function_name decl = true ->
    Forall (fun line => BraceSpec.declares function_name line = false) (body ++ [last]) ->
    (forall k, k < List.length body ->
               (0 < BraceSpec.depth (Z.of_nat (PyStr.count_char "{" decl))
                      (firstn (S k) body))%Z) ->
    (BraceSpec.depth (Z.of_nat (PyStr.count_char "{" decl)) (body ++ [last]) <= 0)%Z ->
    Legacy.extract_function full_code function_name
    = Some (PyStr.join PyStr.nl (decl :: body ++ [last])).
Proof.
  intros full_code function_name before decl body last after Hlines Hno Hdecl Hbody
         Hopen Hclose.
  unfold Legacy.extract_function. unfold BraceSpec.declares in *.
  rewrite Hlines, scan_function_at by assumption.
  now rewrite scan_function_body.
Qed.

Lemma legacy_unit_closes_when_counter_reaches_zero_witness :
  Legacy.extract_function
    ("contract T {" ++ PyStr.nl ++ "  function buy() {" ++ PyStr.nl
     ++ "    if (x) {" ++ PyStr.nl ++ "      pay();" ++ PyStr.nl ++ "    }" ++ PyStr.nl
     ++ "  }" ++ PyStr.nl ++ "  uint rate;" ++ PyStr.nl ++ "}") "buy"
  = Some (PyStr.join PyStr.nl
            ("  function buy() {" :: ["    if (x) {"; "      pay();"; "    }"] ++ ["  }"])).
Proof.
  apply (legacy_unit_closes_when_counter_reaches_zero _ "buy" ["contract T {"]
           "  function buy() {" ["    if (x) {"; "      pay();"; "    }"] "  }"
           ["  uint rate;"; "}"]).
  - vm_compute. reflexivity.
  - repeat constructor.
  - vm_compute. reflexivity.
  - repeat constructor.
  - intros k Hk. cbn [List.length] in Hk.
    destruct k as [| [| [| k]]]; [vm_compute; reflexivity .. | lia].
  - vm_compute. discriminate.
Defined.

(** ** Reports of findings *)

Section Histogram.

Import FindingSpec.

Variable repr : json -> string.

Lemma get_field :
  forall entries key default,
    Py.get (JDict entries) key default = Ok (field key default (JDict entries)).
Proof. reflexivity. Qed.

Lemma tally_cons :
  forall k finding findings,
    tally k (finding :: findings)
    = (if String.eqb (severity_of finding) k then 1 else 0) + tally k findings.
Proof.
  intros. unfold tally. cbn [filter]. now destruct (String.eqb _ _).
Qed.

(** The counters after the first loop, from any starting values. *)
Lemma histogram_tally :
  forall findings h m l i counts,
    Legacy.histogram findings [("high", h); ("medium", m); ("low", l); ("info", i)]
    = Ok counts ->
    counts = [("high", h + tally "high" findings); ("medium", m + tally "medium" findings);
              ("low", l + tally "low" findings); ("info", i + tally "info" findings)]
    /\ tally "high" findings + tally "medium" findings + tally "low" findings
       + tally "info" findings = List.length findings.
Proof.
  induction findings as [| finding findings IH]; intros h m l i counts Hrun.
  - cbn in Hrun. injection Hrun as <-. cbn. now rewrite !Nat.add_0_r.
  - cbn [Legacy.histogram] in Hrun.
    destruct finding as [| | | | | | entries]; try discriminate Hrun.
    rewrite get_field in Hrun. cbn [bind] in Hrun.
    rewrite !tally_cons. unfold severity_of.
    destruct (field "severity" (JStr "info") (JDict entries)) as [| | | | s | |];
      try discriminate Hrun.
    unfold Legacy.count_severity in Hrun.
    destruct (Legacy.has_key s _) eqn:Hkey; [| discriminate Hrun].
    assert (Hs : s = "high" \/ s = "medium" \/ s = "low" \/ s = "info").
    { apply known_severity_cases. exact Hkey. }
    cbn [bind] in Hrun.
    destruct Hs as [-> | [-> | [-> | ->]]]; cbn in Hrun;
      destruct (IH _ _ _ _ _ Hrun) as [-> Hsum]; cbn -[tally Nat.add];
      (split;
       [repeat match goal with
               | |- (_ :: _) = (_ :: _) => f_equal
               | |- (_, _) = (_, _) => f_equal
               end; lia
       | lia]).
Qed.

Lemma histogram_defined_iff :
  forall findings counts,
    (forall k, Legacy.has_key k counts = Legacy.has_key k Legacy.severity_counts0) ->
    (exists counts', Legacy.histogram findings counts = Ok counts')
    <-> forallb counted findings = true.
Proof.
  induction findings as [| finding findings IH]; intros counts Hkeys.
  - cbn. split; [reflexivity | intros _; now eexists].
  - cbn [Legacy.histogram forallb].
    destruct finding as [| | | | | | entries];
      try (cbn; split; [intros [? H]; discriminate H | discriminate]).
    rewrite get_field. cbn [bind]. unfold counted at 1.
    destruct (field "severity" (JStr "info") (JDict entries)) as [| | | | s | |];
      try (cbn; split; [intros [? H]; discriminate H | discriminate]).
    unfold Legacy.count_severity. rewrite Hkeys.
    destruct (Legacy.has_key s Legacy.severity_counts0) eqn:Hs.
    + cbn [bind andb]. apply IH. intros k. rewrite has_key_increment. apply Hkeys.
    + cbn. split; [intros [? H]; discriminate H | discriminate].
Qed.


Lemma finding_section_defined :
  forall i finding,
    (exists text, Legacy.finding_section repr i finding = Ok text)
    <-> formats finding = true.
Proof.
  intros i [| | | | | | entries];
    try (cbn; split; [intros [? H]; discriminate H | discriminate]).
  unfold Legacy.finding_section, formats. rewrite !get_field. cbn [bind].
  destruct (field "severity" (JStr "info") (JDict entries)) as [| | | | s | |];
    try (cbn; split; [intros [? H]; discriminate H | discriminate]).
  cbn [Py.as_str bind is_text andb].
  destruct (field "category" (JStr "unknown") (JDict entries)) as [| | | | c | |];
    try (cbn; split; [intros [? H]; discriminate H | discriminate]).
  cbn [Py.as_str bind is_text andb].
  destruct (Py.truthy (field "line_numbers" (JList []) (JDict entries))) eqn:Htruthy.
  - cbn [negb orb].
    destruct (field "line_numbers" (JList []) (JDict entries)) as [| | | | t | l | d];
      cbn [Py.iter bind iterable];
      try (split; [intros [? H]; discriminate H | discriminate]);
      (split; [reflexivity | intros _; now eexists]).
  - cbn [negb orb bind]. split; [reflexivity | intros _; now eexists].
Qed.

Lemma finding_sections_defined :
  forall findings i,
    (exists text, Legacy.finding_sections repr i findings = Ok text)
    <-> forallb formats findings = true.
Proof.
  induction findings as [| finding findings IH]; intros i.
  - cbn. split; [reflexivity | intros _; now eexists].
  - cbn [Legacy.finding_sections forallb]. rewrite andb_true_iff, <- (IH (S i)), <- (finding_section_defined i finding).
    split.
    + intros [text H].
      destruct (Legacy.finding_section repr i finding) as [section |]; [| discriminate H].
      cbn [bind] in H.
      destruct (Legacy.finding_sections repr (S i) findings) as [more |]; [| discriminate H].
      split; now eexists.
    + intros [[section ->] [more ->]]. cbn [bind]. now eexists.
Qed.

Lemma counted_formats :
  forall findings,
    forallb renders findings = forallb counted findings && forallb formats findings.
Proof.
  induction findings as [| finding findings IH]; [reflexivity |].
  cbn [forallb]. rewrite IH. unfold renders.
  destruct (counted finding), (formats finding), (forallb counted findings); reflexivity.
Qed.

Lemma save_report_steps :
  forall generated now findings report_name,
    Legacy.save_report repr generated (Legacy.analysis_dict now (JList findings)) report_name
    = (severity_counts <- Legacy.histogram findings Legacy.severity_counts0 ;;
       sections <- Legacy.finding_sections repr 1 findings ;;
       Ok (Legacy.report_header generated report_name
           ++ "## Summary" ++ PyStr.nl ++ PyStr.nl
           ++ "| Severity | Count |" ++ PyStr.nl
           ++ "|----------|-------|" ++ PyStr.nl
           ++ Legacy.summary_rows severity_counts
           ++ PyStr.nl ++ "## Detailed Findings" ++ PyStr.nl ++ PyStr.nl
           ++ sections)).
Proof. reflexivity. Qed.

End Histogram.

(** X5: [save_report] writes the report of a result exactly when every
    finding is a dict whose severity is one of the four counters, whose
    category is text and whose line numbers are empty or iterable, absent
    entries taking their defaults; on any other finding it raises. *)
Theorem report_written_iff_findings_render :
  forall (repr : json -> string) (generated now : string) (findings : list json)
         (report_name : string),
    (exists text,
        Legacy.save_report repr generated (Legacy.analysis_dict now (JList findings))
          report_name = Ok text)
    <-> forallb FindingSpec.renders findings = true.
Proof.
  intros repr generated now findings report_name.
  rewrite save_report_steps, counted_formats, andb_true_iff.
  rewrite <- (finding_sections_defined repr findings 1).
  rewrite <- (histogram_defined_iff findings Legacy.severity_counts0) by reflexivity.
  split.
  - intros [text H].
    destruct (Legacy.histogram findings Legacy.severity_counts0) as [counts |];
      [| discriminate H].
    cbn [bind] in H.
    destruct (Legacy.finding_sections repr 1 findings) as [sections |]; [| discriminate H].
    split; now eexists.
  - intros [[counts ->] [sections ->]]. cbn [bind]. now eexists.
Qed.

(** X6: in a written report the summary table shows, for each of the four
    severities, the number of findings counted under it (a finding without
    severity counts as info), in the order high, medium, low, info, and the
    four counts add up to the number of findings. *)
Theorem summary_counts_the_findings :
  forall (repr : json -> string) (generated now : string) (findings : list json)
         (report_name text : string),
    Legacy.save_report repr generated (Legacy.analysis_dict now (JList findings)) report_name
    = Ok text ->
    (exists sections,
        text = Legacy.report_header generated report_name
               ++ "## Summary" ++ PyStr.nl ++ PyStr.nl
               ++ "| Severity | Count |" ++ PyStr.nl
               ++ "|----------|-------|" ++ PyStr.nl
               ++ "| High | " ++ Py.str_of_nat (FindingSpec.tally "high" findings) ++ " |" ++ PyStr.nl
               ++ "| Medium | " ++ Py.str_of_nat (FindingSpec.tally "medium" findings) ++ " |" ++ PyStr.nl
               ++ "| Low | " ++ Py.str_of_nat (FindingSpec.tally "low" findings) ++ " |" ++ PyStr.nl
               ++ "| Info | " ++ Py.str_of_nat (FindingSpec.tally "info" findings) ++ " |" ++ PyStr.nl
               ++ PyStr.nl ++ "## Detailed Findings" ++ PyStr.nl ++ PyStr.nl
               ++ sections)
    /\ FindingSpec.tally "high" findings + FindingSpec.tally "medium" findings
       + FindingSpec.tally "low" findings + FindingSpec.tally "info" findings
       = List.length findings.
Proof.
  intros repr generated now findings report_name text Hrun.
  rewrite save_report_steps in Hrun.
  destruct (Legacy.histogram findings Legacy.severity_counts0) as [counts |] eqn:Hcounts;
    [| discriminate Hrun].
  cbn [bind] in Hrun.
  destruct (Legacy.finding_sections repr 1 findings) as [sections |]; [| discriminate Hrun].
  cbn [bind] in Hrun. injection Hrun as <-.
  destruct (histogram_tally findings 0 0 0 0 counts Hcounts) as [-> Hsum].
  split; [| exact Hsum].
  exists sections.
  unfold Legacy.summary_rows. cbn [map String.concat fst snd Nat.add].
  change (PyStr.capitalize "high") with "High".
  change (PyStr.capitalize "medium") with "Medium".
  change (PyStr.capitalize "low") with "Low".
  change (PyStr.capitalize "info") with "Info".
  unfold Legacy.report_header, PyStr.nl.
  repeat first [rewrite !append_assoc | progress cbn [append]].
  reflexivity.
Qed.

Lemma summary_counts_the_findings_witness :
  let findings :=
    [Legacy.finding "high" "security" "Reentrancy" "State after call." [110%Z] "Reorder.";
     JDict [("title", JStr "No severity given")];
     Legacy.finding "high" "security" "Unchecked call" "Result ignored." [] "Check it."] in
  FindingSpec.tally "high" findings = 2
  /\ FindingSpec.tally "info" findings = 1
  /\ FindingSpec.tally "high" findings + FindingSpec.tally "medium" findings
     + FindingSpec.tally "low" findings + FindingSpec.tally "info" findings = 3.
Proof.
  intros findings.
  split; [reflexivity | split; [reflexivity |]].
  refine (proj2 (summary_counts_the_findings (fun _ => "") "2025-01-01 00:00:00" "t" findings
                   "unit" _ _)).
  vm_compute. reflexivity.
Defined.

(** ** Outcomes of the legacy dispatcher *)

Section DispatchOutcomes.

Variable json_loads : string -> option json.

(** The inner [try] returns only for a content that is text and decodes to
    an object. *)
Lemma parse_content_cases :
  forall now content r,
    Legacy.parse_content json_loads now content = Ok r ->
    exists text entries,
      content = JStr text
      /\ json_loads text = Some (JDict entries)
      /\ r = Legacy.analysis_dict now
               (match Py.assoc "findings" entries with
                | Some v => v
                | None => JList []
                end).
Proof.
  intros now content r H. unfold Legacy.parse_content in H.
  destruct content as [| | | | text | |]; try discriminate H.
  cbn [Legacy.loads] in H.
  destruct (json_loads text) as [analysis |] eqn:Htext; [| discriminate H].
  cbn [bind] in H.
  destruct analysis as [| | | | s | l | entries]; try discriminate H.
  - cbn [Py.contains bind] in H. destruct (PyStr.contains "findings" s); discriminate H.
  - cbn [Py.contains bind] in H. destruct (existsb _ l); discriminate H.
  - exists text, entries. split; [reflexivity | split; [exact Htext |]].
    cbn [Py.contains bind] in H.
    destruct (Py.assoc "findings" entries) as [v |] eqn:Hfindings.
    + cbn [bind Py.get] in H. rewrite Hfindings in H. now injection H as <-.
    + cbn [bind Py.setitem Py.get] in H. rewrite assoc_set_same in H. now injection H as <-.
Qed.

Lemma read_response_cases :
  forall now description focus_areas code data r,
    Legacy.read_response json_loads now description focus_areas code data = Ok r ->
    r = Legacy._simulate_analysis_response now description focus_areas code
    \/ exists result choice more message content entries,
         json_loads data = Some result
         /\ Py.getitem result "choices" = Ok (JList (choice :: more))
         /\ Py.getitem choice "message" = Ok message
         /\ Py.getitem message "content" = Ok (JStr content)
         /\ json_loads content = Some (JDict entries)
         /\ r = Legacy.analysis_dict now
                  (match Py.assoc "findings" entries with
                   | Some v => v
                   | None => JList []
                   end).
Proof.
  intros now description focus_areas code data r H.
  unfold Legacy.read_response in H. cbn [Legacy.loads] in H.
  destruct (json_loads data) as [result |] eqn:Hdata; [| discriminate H].
  cbn [bind] in H.
  destruct (Py.contains "choices" result) as [has |] eqn:Hhas; [| discriminate H].
  cbn [bind] in H. destruct has.
  - destruct (Py.getitem result "choices") as [choices |] eqn:Hchoices; [| discriminate H].
    cbn [bind] in H.
    destruct (Py.len choices) as [n |] eqn:Hlen; [| discriminate H].
    cbn [bind] in H. destruct (0 <? n)%nat.
    + destruct (Py.getitem0 choices) as [choice |] eqn:Hchoice; [| discriminate H].
      cbn [bind] in H.
      destruct (Py.getitem choice "message") as [message |] eqn:Hmessage; [| discriminate H].
      cbn [bind] in H.
      destruct (Py.getitem message "content") as [content |] eqn:Hcontent; [| discriminate H].
      cbn [bind] in H. unfold Legacy.try_except in H.
      destruct (Legacy.parse_content json_loads now content) as [parsed | e] eqn:Hparse.
      * injection H as <-.
        apply parse_content_cases in Hparse.
        destruct Hparse as [text [entries [-> [Htext ->]]]].
        right.
        destruct choices as [| | | | s | items | d]; try discriminate Hchoice.
        -- destruct s; [discriminate Hchoice |]. injection Hchoice as <-.
           discriminate Hmessage.
        -- destruct items as [| first more]; [discriminate Hchoice |].
           injection Hchoice as ->.
           exists result, choice, more, message, text, entries. repeat split; assumption.
      * destruct (Legacy.is_JSONDecodeError e); [| discriminate H].
        injection H as <-. now left.
    + injection H as <-. now left.
  - injection H as <-. now left.
Qed.

End DispatchOutcomes.

(** X7: the legacy dispatcher has two outcomes, and the reply decides
    between them.  When the reply decodes, its first choice holds a content
    that is text, and that text decodes to an object, the result carries the
    object's findings entry as it is (an empty list when it has none).  In
    every other case (the request raised, the reply or the content does not
    decode, the choices are missing, empty or of another shape, the content
    decodes to anything but an object) the result is the simulated one, for
    the focus list given or the default one.  Either way the status reads
    success and there is no error entry. *)
Theorem legacy_dispatch_outcomes :
  forall (json_loads : string -> option json) (now : string) (reply : Legacy.http_reply)
         (code description : string) (focus_areas : option (list string)),
    let r := Legacy.analyze_code_snippet json_loads now reply code description focus_areas in
    (forall entries,
        ReplySpec.carries json_loads reply entries ->
        r = Legacy.analysis_dict now (ReplySpec.findings_of entries))
    /\ ((forall entries, ~ ReplySpec.carries json_loads reply entries) ->
        r = Legacy._simulate_analysis_response now description
              (ReplySpec.focus_of focus_areas) code)
    /\ ((exists entries, ReplySpec.carries json_loads reply entries)
        \/ r = Legacy._simulate_analysis_response now description
                 (ReplySpec.focus_of focus_areas) code)
    /\ Py.getitem r "status" = Ok (JStr "success")
    /\ Py.contains "error" r = Ok false.
Proof.
  intros json_loads now reply code description focus_areas r.
  assert (Hcarried : forall entries,
             ReplySpec.carries json_loads reply entries ->
             r = Legacy.analysis_dict now (ReplySpec.findings_of entries)).
  { intros entries [data [result [choice [more [message [content H]]]]]].
    destruct H as [-> [Hdata [Hchoices [Hmessage [Hcontent Hobject]]]]].
    subst r. unfold ReplySpec.findings_of.
    now apply (content_object_result json_loads now data result choice more message
                 content entries). }
  assert (Hcases :
            (exists entries, ReplySpec.carries json_loads reply entries)
            \/ r = Legacy._simulate_analysis_response now description
                     (ReplySpec.focus_of focus_areas) code).
  { subst r. unfold Legacy.analyze_code_snippet. fold (ReplySpec.focus_of focus_areas).
    destruct reply as [e | data]; [now right |].
    destruct (Legacy.read_response json_loads now description
                (ReplySpec.focus_of focus_areas) code data) as [v | e]
      eqn:Hread; [| now right].
    apply read_response_cases in Hread.
    destruct Hread as [-> | [result [choice [more [message [content [entries H]]]]]]].
    - now right.
    - left. exists entries, data, result, choice, more, message, content.
      split; [reflexivity |]. tauto. }
  split; [exact Hcarried | split; [| split; [exact Hcases |]]].
  - intros Hnone. destruct Hcases as [[entries Hcarries] | Hsim]; [| exact Hsim].
    now destruct (Hnone entries).
  - destruct Hcases as [[entries Hcarries] | Hsim].
    + rewrite (Hcarried entries Hcarries). split; reflexivity.
    + rewrite Hsim. split; reflexivity.
Qed.

(** ** The dispatcher of the enhanced analyzer *)

Section Dispatch.

Import Enhanced RunSpec DispatchSpec.

Variable w : world.
Variable self : analyzer.

Lemma on_error_run :
  forall e st,
    exists st',
      on_error w e st
      = (Ok (JStr (error_report (strftime w human_stamp (clock st)) (error_message w e))), st')
      /\ clock st' = S (clock st)
      /\ silent st st'.
Proof.
  intros e st.
  destruct e; try (eexists; split; [reflexivity | split; [reflexivity | split; reflexivity]]).
  unfold on_error, error_message, bindM. cbn [print].
  destruct (Z.eqb code 429); cbn [when print ret];
    eexists; (split; [reflexivity | split; [reflexivity | split; reflexivity]]).
Qed.

Lemma read_response_run :
  forall data st,
    exists st',
      match json_loads w data with
      | None =>
          read_response w self data st = (Raise JSONDecodeError, st')
          /\ clock st' = clock st
      | Some response_data =>
          match has_choices response_data with
          | Raise e =>
              read_response w self data st = (Raise e, st') /\ clock st' = clock st
          | Ok true =>
              read_response w self data st = (first_content response_data, st')
              /\ clock st' = clock st
          | Ok false =>
              read_response w self data st
              = (Ok (JStr (error_report (strftime w human_stamp (clock st))
                             "API response error")), st')
              /\ clock st' = S (clock st)
          end
      end
      /\ silent st st'.
Proof.
  intros data st. unfold read_response, bindM, lift, Legacy.loads.
  destruct (json_loads w data) as [response_data |].
  - destruct (debug self); cbn [when print ret];
      destruct (has_choices response_data) as [[|] | e]; cbn [when print ret];
      eexists; (split; [split; reflexivity | split; reflexivity]).
  - exists st. split; [split; reflexivity | split; reflexivity].
Qed.

(** The value and the effects of a dispatch. *)
Lemma snippet_run :
  forall code description focus_areas severity st,
    let system := system_message focus_areas severity in
    let user := user_message code description in
    let reply := urlopen w (List.length (requests st)) system user in
    exists st',
      analyze_code_snippet w self code description focus_areas severity st
      = (Ok (dispatch_value w (strftime w human_stamp (S (clock st))) reply), st')
      /\ requests st' = (requests st ++ [(system, user)])%list
      /\ written st' = written st
      /\ clock st' = clock st + dispatch_ticks w reply.
Proof.
  intros code description focus_areas severity st system user reply.
  unfold analyze_code_snippet, bindM at 1 2, now.
  fold system user.
  set (st1 := {| clock := S (clock st); requests := requests st;
                 written := written st; stdout := stdout st |}).
  assert (Hdebug :
            exists st2,
              when (debug self)
                (print "DEBUG: API Request" ;;;
                 print ("System message: " ++ system) ;;;
                 print ("User message: " ++ Re.take 100 user ++ "...")) st1
              = (Ok tt, st2)
              /\ clock st2 = S (clock st) /\ requests st2 = requests st
              /\ written st2 = written st).
  { destruct (debug self); cbn [when print bindM ret]; eexists;
      (split; [reflexivity | repeat split]). }
  destruct Hdebug as [st2 [-> [Hclock [Hrequests Hwritten]]]].
  unfold catch, bindM, send. rewrite Hrequests. fold reply.
  set (st3 := {| clock := clock st2; requests := (requests st ++ [(system, user)])%list;
                 written := written st2; stdout := stdout st2 |}).
  unfold dispatch_value, dispatch_ticks, reply_content.
  assert (Herror :
            forall e st0,
              clock st0 = S (clock st) ->
              requests st0 = (requests st ++ [(system, user)])%list ->
              written st0 = written st ->
              exists st',
                on_error w e st0
                = (Ok (JStr (error_report (strftime w human_stamp (S (clock st)))
                               (error_message w e))), st')
                /\ requests st' = (requests st ++ [(system, user)])%list
                /\ written st' = written st
                /\ clock st' = clock st + 2).
  { intros e st0 Hc Hr Hw.
    destruct (on_error_run e st0) as [st' [Hrun [Hclock' [Hr' Hw']]]].
    exists st'. rewrite Hrun, Hc. repeat split; [congruence | congruence | lia]. }
  destruct reply as [e | data].
  - unfold raise. apply Herror; [exact Hclock | reflexivity | exact Hwritten].
  - destruct (read_response_run data st3) as [st4 [Hrun [Hr4 Hw4]]].
    subst st3. cbn [requests written clock] in Hr4, Hw4, Hrun.
    destruct (json_loads w data) as [response_data |].
    + destruct (has_choices response_data) as [[|] | e]; destruct Hrun as [-> Hc4].
      * destruct (first_content response_data) as [content | e].
        -- exists st4. repeat split; [exact Hr4 | congruence | lia].
        -- apply Herror; congruence.
      * exists st4. rewrite Hclock. repeat split; [exact Hr4 | congruence | lia].
      * apply Herror; congruence.
    + destruct Hrun as [-> Hc4]. apply (Herror JSONDecodeError); congruence.
Qed.

Lemma read_readable :
  forall filepath code st,
    file w filepath = Text code ->
    read_code_file w filepath st = (Ok (JStr code), st).
Proof. intros filepath code st Hfile. unfold read_code_file. now rewrite Hfile. Qed.

(** Reading a file that is missing, unreadable or empty: a value that
    counts as false, no request and no file. *)
Lemma read_unreadable :
  forall filepath st,
    ~ readable w filepath ->
    exists code st',
      read_code_file w filepath st = (Ok code, st')
      /\ Py.truthy code = false
      /\ clock st' = clock st
      /\ silent st st'.
Proof.
  intros filepath st Hno. unfold read_code_file.
  destruct (file w filepath) as [| e | code] eqn:Hfile.
  - eexists; eexists. split; [reflexivity | repeat split].
  - eexists; eexists. split; [reflexivity | repeat split].
  - exists (JStr code), st. split; [reflexivity |].
    split; [| repeat split].
    cbn. destruct (String.eqb_spec code ""); [reflexivity |].
    exfalso. apply Hno. now exists code.
Qed.

(** The analysis of a readable file, step by step. *)
Lemma code_file_run :
  forall filepath code focus_areas severity st,
    file w filepath = Text code ->
    code <> "" ->
    let request := request_for w focus_areas severity filepath in
    let reply := urlopen w (List.length (requests st)) (fst request) (snd request) in
    let result := dispatch_value w (strftime w human_stamp (S (clock st))) reply in
    let timestamp := strftime w file_stamp (clock st + dispatch_ticks w reply) in
    exists st',
      analyze_code_file w self filepath focus_areas severity st
      = (match result with
         | JStr _ => Ok result
         | _ => Raise TypeError
         end, st')
      /\ requests st' = (requests st ++ [request])%list
      /\ written st'
         = (written st
            ++ [(report_path self filepath timestamp,
                 match result with JStr text => text | _ => "" end)])%list
      /\ clock st' = clock st + dispatch_ticks w reply + 1.
Proof.
  intros filepath code focus_areas severity st Hfile Hcode request reply result timestamp.
  unfold analyze_code_file. unfold bindM at 1. rewrite (read_readable _ _ _ Hfile).
  rewrite (readable_truthy code Hcode). cbn [negb].
  unfold bindM at 1. cbn [print].
  set (st1 := {| clock := clock st; requests := requests st; written := written st;
                 stdout := (stdout st ++ ["Analyzing: Code file..."])%list |}).
  unfold bindM at 1.
  destruct (snippet_run (Py.str (json_repr w) (JStr code))
              (file_description filepath focus_areas) focus_areas severity st1)
    as [st2 [Hrun [Hr2 [Hw2 Hc2]]]].
  cbn [Py.str] in Hrun, Hr2, Hc2.
  assert (Hrequest : request
                     = (system_message focus_areas severity,
                        user_message code (file_description filepath focus_areas))).
  { unfold request, request_for, text_of. now rewrite Hfile. }
  subst st1. cbn [requests written clock] in Hrun, Hr2, Hw2, Hc2.
  rewrite <- Hrequest in Hr2.
  replace (urlopen w (List.length (requests st)) (system_message focus_areas severity)
             (user_message code (file_description filepath focus_areas)))
    with reply in Hrun, Hc2 by (unfold reply; now rewrite Hrequest).
  cbn [Py.str]. rewrite Hrun. fold result.
  unfold bindM at 1, now. unfold bindM at 1.
  rewrite Hc2. fold timestamp. fold (report_path self filepath timestamp).
  destruct result; cbn [write_file bindM print ret];
    eexists; (split; [reflexivity | cbn [requests written clock]; repeat split;
                      [exact Hr2 | now rewrite Hw2 | lia]]).
Qed.

(** In a world whose contents are text every dispatch returns text. *)
Lemma textual_value :
  forall generated n system user,
    textual w ->
    exists text, dispatch_value w generated (urlopen w n system user) = JStr text.
Proof.
  intros generated n system user Htext. unfold dispatch_value, reply_content.
  destruct (urlopen w n system user) as [e | data] eqn:Hreply; [now eexists |].
  destruct (json_loads w data) as [response_data |] eqn:Hdata; [| now eexists].
  destruct (has_choices response_data) as [[|] | e]; try now eexists.
  destruct (first_content response_data) as [content | e] eqn:Hcontent; [| now eexists].
  exact (Htext _ _ _ _ _ _ Hreply Hdata Hcontent).
Qed.

Lemma project_loop_run :
  forall directory_path focus_areas severity code_files report reports st,
    textual w ->
    (forall filepath, In filepath code_files -> readable w filepath) ->
    texts reports ->
    exists looped st' chunks,
      project_loop w self directory_path focus_areas severity code_files report reports st
      = (Ok looped, st')
      /\ texts (snd looped)
      /\ Forall2 (written_twice w self) code_files chunks
      /\ written st' = (written st ++ concat chunks)%list.
Proof.
  intros directory_path focus_areas severity code_files.
  induction code_files as [| filepath rest IH]; intros report reports st Htext Hread Hreports.
  - exists (report, reports), st, []. cbn [project_loop ret concat].
    rewrite app_nil_r. repeat split; [exact Hreports | constructor].
  - destruct (Hread filepath (or_introl eq_refl)) as [code [Hfile Hcode]].
    cbn [project_loop]. unfold bindM at 1. rewrite (read_readable _ _ _ Hfile).
    rewrite (readable_truthy code Hcode).
    destruct (code_file_run filepath code focus_areas severity st Hfile Hcode)
      as [st1 [Hrun [_ [Hw1 Hc1]]]].
    match type of Hrun with
    | context [dispatch_value w ?g (urlopen w ?n ?s ?u)] =>
        destruct (textual_value g n s u Htext) as [text Hvalue]
    end.
    rewrite Hvalue in Hrun, Hw1.
    unfold bindM at 1. rewrite Hrun.
    unfold bindM at 1, now. unfold bindM at 1. cbn [write_file].
    unfold bindM at 1, sleep, ret at 1.
    match goal with
    | |- context [project_loop w self directory_path focus_areas severity rest ?r ?rs ?s] =>
        destruct (IH r rs s Htext) as [looped [st' [chunks [Hloop [Hlooped [Hchunks Hw']]]]]]
    end.
    + intros f Hf. apply Hread. now right.
    + apply Forall_app. split; [exact Hreports |].
      constructor; [now exists text | constructor].
    + exists looped, st'.
      eexists (_ :: chunks). split; [exact Hloop |]. split; [exact Hlooped |].
      split.
      * constructor; [| exact Hchunks]. eexists; exists text. reflexivity.
      * rewrite Hw'. cbn [written concat]. rewrite Hw1.
        fold (report_path self filepath (strftime w file_stamp (clock st1))).
        rewrite Hc1, Nat.add_1_r.
        rewrite <- !app_assoc. reflexivity.
Qed.

Lemma capped_files :
  forall code_files st,
    exists st',
      (if (5 <? List.length code_files)%nat
       then
         print cap_warning ;;;
         print "Consider analyzing specific directories or files instead." ;;;
         ret (firstn 5 code_files)
       else ret code_files) st
      = (Ok (capped code_files), st')
      /\ written st' = written st.
Proof.
  intros code_files st. unfold capped.
  destruct (5 <? List.length code_files)%nat; cbn [bindM print ret];
    eexists; (split; [reflexivity | reflexivity]).
Qed.

Lemma analyze_project_run :
  forall directory_path exclude_patterns focus_areas severity t st,
    textual w ->
    directory w directory_path = Some t ->
    (forall filepath,
        In filepath (capped (discover directory_path exclude_patterns t)) ->
        readable w filepath) ->
    exists path st' chunks consolidated,
      analyze_project w self directory_path exclude_patterns focus_areas severity st
      = (Ok (Some path), st')
      /\ Forall2 (written_twice w self)
           (capped (discover directory_path exclude_patterns t)) chunks
      /\ written st' = (written st ++ concat chunks ++ [(path, consolidated)])%list.
Proof.
  intros directory_path exclude_patterns focus_areas severity t st Htext Hdir Hread.
  unfold analyze_project. rewrite Hdir.
  unfold bindM at 1. cbn [print]. unfold bindM at 1. cbn [print].
  unfold bindM at 1, now at 1. unfold bindM at 1, now at 1.
  unfold bindM at 1.
  match goal with
  | |- context [(if (5 <? _)%nat then _ else _) ?s] =>
      destruct (capped_files (discover directory_path exclude_patterns t) s)
        as [st1 [Hcap Hw1]]
  end.
  rewrite Hcap. cbn [written] in Hw1.
  unfold bindM at 1.
  match goal with
  | |- context [project_loop w self directory_path focus_areas severity ?fs ?r ?rs ?s] =>
      destruct (project_loop_run directory_path focus_areas severity fs r rs s Htext Hread)
        as [looped [st2 [chunks [Hloop [Hlooped [Hchunks Hw2]]]]]]; [constructor |]
  end.
  rewrite Hloop. unfold bindM at 1, lift.
  match goal with
  | |- context [add_summaries ?f (snd looped) ?r] =>
      destruct (add_summaries_defined f (snd looped) r Hlooped) as [report' Hsum]
  end.
  rewrite Hsum. cbn [write_file bindM print ret].
  eexists; eexists; exists chunks; eexists.
  split; [reflexivity |]. split; [exact Hchunks |].
  cbn [written]. rewrite Hw2, Hw1. now rewrite <- app_assoc.
Qed.

End Dispatch.

(** X8: a dispatch of the enhanced analyzer never raises and never tries
    twice: whatever the reply is, it sends exactly one request and writes no
    file.  What it returns is the content of the reply's first choice or,
    after any failure (the request raised, the reply does not decode, it has
    no choices or no content), an error report with the failure's
    message. *)
Theorem dispatch_is_one_request :
  forall (w : Enhanced.world) (self : Enhanced.analyzer) (code description : string)
         (focus_areas : list string) (severity : option string) (st : Enhanced.state),
    let system := Enhanced.system_message focus_areas severity in
    let user := Enhanced.user_message code description in
    let reply := Enhanced.urlopen w (List.length (Enhanced.requests st)) system user in
    exists st',
      Enhanced.analyze_code_snippet w self code description focus_areas severity st
      = (Ok (DispatchSpec.dispatch_value w
               (Enhanced.strftime w Enhanced.human_stamp (S (Enhanced.clock st))) reply),
         st')
      /\ Enhanced.requests st' = (Enhanced.requests st ++ [(system, user)])%list
      /\ Enhanced.written st' = Enhanced.written st.
Proof.
  intros w self code description focus_areas severity st system user reply.
  destruct (snippet_run w self code description focus_areas severity st)
    as [st' [Hrun [Hrequests [Hwritten _]]]].
  exists st'. repeat split; assumption.
Qed.

(** X9: the analysis of a file that can be read and is not empty sends one
    request and opens one report file, named after the file's base name and
    the clock.  When the dispatch returns text, a backend answer or an error
    report alike, that text is written and returned; when it returns
    anything else (a null content, say) the report file is left empty and
    the call raises TypeError. *)
Theorem file_analysis_outcomes :
  forall (w : Enhanced.world) (self : Enhanced.analyzer) (filepath code : string)
         (focus_areas : list string) (severity : option string) (st : Enhanced.state),
    Enhanced.file w filepath = Enhanced.Text code ->
    code <> "" ->
    let request := RunSpec.request_for w focus_areas severity filepath in
    let reply :=
      Enhanced.urlopen w (List.length (Enhanced.requests st)) (fst request) (snd request) in
    let result :=
      DispatchSpec.dispatch_value w
        (Enhanced.strftime w Enhanced.human_stamp (S (Enhanced.clock st))) reply in
    let report_path :=
      DispatchSpec.report_path self filepath
        (Enhanced.strftime w Enhanced.file_stamp
           (Enhanced.clock st + DispatchSpec.dispatch_ticks w reply)) in
    exists st',
      Enhanced.requests st' = (Enhanced.requests st ++ [request])%list
      /\ match result with
         | JStr text =>
             Enhanced.analyze_code_file w self filepath focus_areas severity st
             = (Ok (JStr text), st')
             /\ Enhanced.written st' = (Enhanced.written st ++ [(report_path, text)])%list
         | _ =>
             Enhanced.analyze_code_file w self filepath focus_areas severity st
             = (Raise TypeError, st')
             /\ Enhanced.written st' = (Enhanced.written st ++ [(report_path, "")])%list
         end.
Proof.
  intros w self filepath code focus_areas severity st Hfile Hcode request reply result
         report_path.
  destruct (code_file_run w self filepath code focus_areas severity st Hfile Hcode)
    as [st' [Hrun [Hrequests [Hwritten _]]]].
  fold request reply result in Hrun, Hrequests, Hwritten.
  fold report_path in Hwritten.
  exists st'. split; [exact Hrequests |].
  destruct result; split; assumption.
Qed.

Lemma file_analysis_outcomes_witness :
  let w := Fixture.world_of Fixture.files Fixture.no_dirs Fixture.answers_report in
  exists st',
    Enhanced.requests st' = [RunSpec.request_for w [] None "a.py"]
    /\ Enhanced.analyze_code_file w Fixture.analyzer "a.py" [] None Enhanced.initial
       = (Ok (JStr Fixture.report), st')
    /\ Enhanced.written st'
       = [(DispatchSpec.report_path Fixture.analyzer "a.py" "2025-01-01_00-00-00",
           Fixture.report)].
Proof.
  intros w.
  destruct (file_analysis_outcomes w Fixture.analyzer "a.py" "print(1)" [] None
              Enhanced.initial eq_refl ltac:(discriminate))
    as [st' [Hrequests [Hrun Hwritten]]].
  exists st'. split; [exact Hrequests | split; [exact Hrun | exact Hwritten]].
Defined.

(** ** Extraction by pattern *)

Section Spans.

Import Re.

Lemma star_loop_suffix :
  forall step,
    (forall s k x, step s k = Some x -> exists m s', s = m ++ s' /\ k s' = Some x) ->
    forall fuel s k x,
      star_loop step k fuel s = Some x -> exists m s', s = m ++ s' /\ k s' = Some x.
Proof.
  intros step Hstep. induction fuel as [| fuel IH]; intros s k x H.
  - exists "", s. split; [reflexivity | exact H].
  - rewrite star_loop_S in H.
    destruct (step s _) as [rest |] eqn:Hround.
    + injection H as ->.
      apply Hstep in Hround. destruct Hround as [m [s' [-> Hk]]].
      destruct (_ <? _)%nat; [| discriminate Hk].
      apply IH in Hk. destruct Hk as [m' [s'' [-> Hk]]].
      exists (m ++ m'), s''. split; [now rewrite append_assoc | exact Hk].
    + exists "", s. split; [reflexivity | exact H].
Qed.

(** A match hands a rest of the text to what follows. *)
Lemma run_suffix :
  forall r s k x,
    run r s k = Some x -> exists m s', s = m ++ s' /\ k s' = Some x.
Proof.
  induction r as [| cl | r1 IH1 r2 IH2 | r1 IH1 r2 IH2 | r IH |]; intros s k x H.
  - exists "", s. split; [reflexivity | exact H].
  - destruct s as [| c s]; [discriminate H |].
    rewrite run_Chr_cons in H. destruct (accepts cl c); [| discriminate H].
    exists (String c ""), s. split; [reflexivity | exact H].
  - rewrite run_Seq in H. apply IH1 in H. destruct H as [m1 [s1 [-> H]]].
    apply IH2 in H. destruct H as [m2 [s2 [-> H]]].
    exists (m1 ++ m2), s2. split; [now rewrite append_assoc | exact H].
  - cbn [run] in H. destruct (run r1 s k) as [rest |] eqn:H1.
    + injection H as ->. now apply IH1.
    + now apply IH2.
  - rewrite run_Star in H. eapply star_loop_suffix; [| exact H]. exact IH.
  - cbn [run] in H. destruct (at_end s); [| discriminate H].
    exists "", s. split; [reflexivity | exact H].
Qed.

(** A literal is matched by the text itself. *)
Lemma run_Str_exact :
  forall a s k x,
    run (Str a) s k = Some x -> exists s', s = a ++ s' /\ k s' = Some x.
Proof.
  induction a as [| c a IH]; intros s k x H.
  - exists s. split; [reflexivity | exact H].
  - cbn [Str] in H. rewrite run_Seq in H.
    destruct s as [| c' s]; [discriminate H |].
    rewrite run_Chr_cons in H. cbn [accepts] in H.
    destruct (Ascii.eqb_spec c' c) as [-> |]; [| discriminate H].
    apply IH in H. destruct H as [s' [-> H]].
    exists s'. split; [reflexivity | exact H].
Qed.

Lemma search_from_cons :
  forall r before c s,
    search_from r before (String c s)
    = match match_ r (String c s) with
      | Some rest =>
          Some (before, take (String.length (String c s) - String.length rest) (String c s))
      | None => search_from r (before ++ String c "") s
      end.
Proof. reflexivity. Qed.

Lemma search_from_span :
  forall r s before found matched,
    search_from r before s = Some (found, matched) ->
    exists front rest,
      s = front ++ matched ++ rest
      /\ found = before ++ front
      /\ match_ r (matched ++ rest) = Some rest.
Proof.
  intros r. induction s as [| c s IH]; intros before found matched H.
  - cbn [search_from] in H. destruct (match_ r "") as [rest |] eqn:Hm; [| discriminate H].
    injection H as <- <-.
    pose proof Hm as Hs. apply run_suffix in Hs. destruct Hs as [m [s' [Heq Hsome]]].
    injection Hsome as ->.
    destruct m; [| discriminate Heq]. cbn [append] in Heq. subst rest.
    exists "", "". cbn. rewrite append_empty.
    split; [reflexivity | split; [reflexivity | exact Hm]].
  - rewrite search_from_cons in H. destruct (match_ r (String c s)) as [rest |] eqn:Hm.
    + pose proof Hm as Hs. apply run_suffix in Hs. destruct Hs as [m [s' [Heq Hsome]]].
      injection Hsome as ->.
      assert (Htake : take (String.length (String c s) - String.length rest) (String c s) = m)
        by (rewrite Heq; apply take_append).
      rewrite Htake in H. injection H as <- <-.
      exists "", rest. cbn [append]. rewrite append_empty.
      split; [exact Heq | split; [reflexivity |]].
      now rewrite <- Heq.
    + apply IH in H. destruct H as [front [rest [-> [-> Hmatch]]]].
      exists (String c front), rest.
      split; [reflexivity | split; [| exact Hmatch]].
      now rewrite append_assoc.
Qed.

(** What a search finds is a part of the text, matched where it lies. *)
Lemma search_span :
  forall r s found matched,
    search r s = Some (found, matched) ->
    exists rest, s = found ++ matched ++ rest /\ match_ r (matched ++ rest) = Some rest.
Proof.
  intros r s found matched H. unfold search in H.
  apply search_from_span in H. destruct H as [front [rest [-> [-> Hmatch]]]].
  exists rest. split; [reflexivity | exact Hmatch].
Qed.

End Spans.

Section Keywords.

Import Re PyStr.

Lemma prefix_within :
  forall kw f c t,
    all (fun a => negb (Ascii.eqb a c)) kw = true ->
    prefix kw (f ++ String c t) = true ->
    prefix kw f = true.
Proof.
  induction kw as [| a kw IH]; intros f c t Hkw H; [now destruct f |].
  cbn [all] in Hkw. apply andb_true_iff in Hkw. destruct Hkw as [Ha Hkw].
  destruct f as [| b f].
  - cbn [append prefix] in H. destruct (ascii_dec a c) as [-> |]; [| discriminate H].
    rewrite Ascii.eqb_refl in Ha. discriminate Ha.
  - cbn [append prefix] in H |- *.
    destruct (ascii_dec a b); [| discriminate H].
    now apply (IH f c t).
Qed.

(** A keyword whose first character occurs nowhere else in it cannot
    begin in a front that does not hold it and end in a text that begins
    with a character the rest of the keyword does not hold. *)
Lemma keyword_not_across :
  forall a kw f c t,
    all (fun b => negb (Ascii.eqb b c)) kw = true ->
    f <> "" ->
    contains (String a kw) f = false ->
    prefix (String a kw) (f ++ String c t) = false.
Proof.
  intros a kw f c t Hkw Hf Hno.
  destruct f as [| b f]; [contradiction |].
  destruct (prefix (String a kw) (String b f ++ String c t)) eqn:H; [| reflexivity].
  cbn [append prefix] in H.
  destruct (ascii_dec a b) as [-> |]; [| discriminate H].
  apply (prefix_within kw f c t Hkw) in H.
  cbn [contains] in Hno. cbn [prefix] in Hno.
  destruct (ascii_dec b b); [| contradiction].
  rewrite H in Hno. discriminate Hno.
Qed.

Lemma contains_suffix :
  forall needle p s, contains needle (p ++ s) = false -> contains needle s = false.
Proof.
  induction p as [| c p IH]; intros s H; [exact H |].
  cbn [append] in H. apply contains_tail in H. now apply IH.
Qed.

Lemma contains_not_prefix :
  forall needle s, contains needle s = false -> prefix needle s = false.
Proof.
  intros needle s H. destruct s; cbn [contains] in H;
    destruct (prefix needle _); [discriminate H | reflexivity | discriminate H | reflexivity].
Qed.

(** The search passes over a front in which the pattern matches nowhere. *)
Lemma search_from_skips :
  forall r front before text,
    (forall p u, front = p ++ u -> u <> "" -> match_ r (u ++ text) = None) ->
    search_from r before (front ++ text) = search_from r (before ++ front) text.
Proof.
  intros r. induction front as [| c front IH]; intros before text Hnone.
  - cbn [append]. now rewrite append_empty.
  - cbn [append]. rewrite search_from_cons.
    assert (H0 : match_ r (String c front ++ text) = None)
      by (apply (Hnone "" (String c front)); [reflexivity | discriminate]).
    cbn [append] in H0. rewrite H0.
    rewrite IH.
    + now rewrite append_assoc.
    + intros p u Heq Hu. apply (Hnone (String c p) u); [now rewrite Heq | exact Hu].
Qed.

(** No match where the pattern matches at no position. *)
Lemma search_from_none :
  forall r s before,
    (forall p u, s = p ++ u -> match_ r u = None) ->
    search_from r before s = None.
Proof.
  intros r. induction s as [| c s IH]; intros before Hnone.
  - cbn [search_from]. now rewrite (Hnone "" "").
  - rewrite search_from_cons. rewrite (Hnone "" (String c s)) by reflexivity.
    apply IH. intros p u Heq. apply (Hnone (String c p) u). now rewrite Heq.
Qed.

End Keywords.

(** ** The first declaration of a Python function *)

Section Declarations.

Import Re PyStr.




Lemma lstrip_spaces :
  forall ws s,
    all is_space ws = true -> starts_with is_space s = false -> lstrip (ws ++ s) = s.
Proof.
  induction ws as [| c ws IH]; intros s Hws Hs.
  - cbn [append]. destruct s as [| c s]; [reflexivity |]. cbn in Hs |- *. now rewrite Hs.
  - cbn [all] in Hws. apply andb_true_iff in Hws. destruct Hws as [Hc Hws].
    cbn [append lstrip]. rewrite Hc. now apply IH.
Qed.









End Declarations.



(** ** Functions in braces *)

Section Braces.

Import Re PyStr BraceSource.

Lemma accepts_no_brace :
  forall c, accepts (NoneOf ["{"; "}"]%char) c = negb (is_brace c).
Proof. intros c. unfold accepts, mem, is_brace. cbn. now rewrite orb_false_r. Qed.

Lemma accepts_no_opening :
  forall c, accepts (NoneOf ["{"]%char) c = negb (is_opening c).
Proof. intros c. unfold accepts, mem, is_opening. cbn. now rewrite orb_false_r. Qed.

(** One round of the body star takes one piece. *)
Lemma run_piece :
  forall p rest kk r,
    well_formed p ->
    kk rest = Some r ->
    run piece_pattern (render p ++ rest) kk = Some r.
Proof.
  intros [c | inner] rest kk r Hp Hkk; cbn in Hp; unfold piece_pattern; cbn [run].
  - cbn [render append]. rewrite accepts_no_brace, Hp. cbn [negb]. now rewrite Hkk.
  - cbn [render append cat]. rewrite accepts_no_brace. cbn [is_brace Ascii.eqb Bool.eqb orb negb].
    rewrite run_Seq, run_Chr_cons. cbn [accepts]. rewrite Ascii.eqb_refl.
    rewrite append_assoc, run_Seq.
    apply (run_star_class (NoneOf ["{"; "}"]%char)) with (s1 := inner).
    + rewrite (all_ext _ _ _ accepts_no_brace). exact Hp.
    + reflexivity.
    + cbn [append]. rewrite run_Chr_cons. cbn [accepts]. now rewrite Ascii.eqb_refl.
Qed.

Lemma brace_render_all_cons :
  forall p body, render_all (p :: body) = render p ++ render_all body.
Proof.
  intros p body. unfold render_all. cbn [map].
  destruct (map render body); cbn [String.concat append].
  - now rewrite append_empty.
  - reflexivity.
Qed.

Lemma brace_render_length :
  forall p, 1 <= String.length (render p).
Proof. intros [c | inner]; cbn; lia. Qed.

Lemma brace_render_all_length :
  forall body, List.length body <= String.length (render_all body).
Proof.
  induction body as [| p body IH]; [cbn; lia |].
  rewrite brace_render_all_cons, length_append. pose proof (brace_render_length p).
  cbn [List.length]. lia.
Qed.

(** The body star takes every piece and stops at the closing brace. *)
Lemma star_pieces :
  forall body rest k r fuel,
    List.length body <= fuel ->
    Forall well_formed body ->
    k (String "}" rest) = Some r ->
    star_loop (run piece_pattern) k fuel (render_all body ++ String "}" rest) = Some r.
Proof.
  induction body as [| p body IH]; intros rest k r fuel Hfuel Hbody Hk.
  - cbn [render_all map String.concat append].
    destruct fuel as [| fuel]; [exact Hk |].
    rewrite star_loop_S. unfold piece_pattern. cbn [run cat accepts mem existsb].
    cbn. exact Hk.
  - inversion Hbody as [| ? ? Hp Hrest]; subst.
    destruct fuel as [| fuel]; [cbn in Hfuel; lia |].
    rewrite brace_render_all_cons, append_assoc, star_loop_S.
    erewrite run_piece; [reflexivity | exact Hp |].
    assert (Hlt : (String.length (render_all body ++ String "}" rest)
                   <? String.length (render p ++ render_all body ++ String "}" rest))%nat
                  = true).
    { apply Nat.ltb_lt. rewrite (length_append (render p)).
      pose proof (brace_render_length p). lia. }
    rewrite Hlt. apply IH; [cbn in Hfuel; lia | assumption ..].
Qed.

(** At a declaration whose body nests braces one level at most, the
    pattern matches up to the closing brace of the function. *)
Lemma match_function_pattern :
  forall function_name parameters body rest,
    all (fun c => negb (is_space c)) function_name = true ->
    all (fun c => negb (is_opening c)) parameters = true ->
    Forall well_formed body ->
    match_ (Enhanced.function_pattern function_name)
      (declaration function_name parameters body ++ rest)
    = Some rest.
Proof.
  intros function_name parameters body rest Hname Hparameters Hbody.
  unfold match_, declaration, Enhanced.function_pattern. cbn [cat].
  rewrite !append_assoc.
  change ("function " ++ ?x) with ("function" ++ (" " ++ x)).
  rewrite run_Seq, run_Str. cbv beta.
  change (" " ++ ?x) with (String " " "" ++ x).
  rewrite run_Seq.
  apply (run_plus_class Space) with (s1 := ""); [reflexivity | reflexivity | |].
  { destruct function_name as [| c name]; [reflexivity |].
    cbn in Hname |- *. apply andb_true_iff in Hname. destruct Hname as [Hc _].
    now apply negb_true_iff in Hc. }
  rewrite run_Seq, run_Str. cbv beta.
  change ("(" ++ ?x) with ("" ++ String "(" x).
  rewrite run_Seq.
  apply (run_star_class Space) with (s1 := ""); [reflexivity | reflexivity |].
  rewrite run_Seq, run_Chr_cons. cbn [accepts]. rewrite Ascii.eqb_refl.
  rewrite run_Seq.
  apply (run_star_class (NoneOf ["{"%char])) with (s1 := parameters).
  { rewrite (all_ext _ _ _ accepts_no_opening). exact Hparameters. }
  { reflexivity. }
  change ("{" ++ ?x) with (String "{" x).
  rewrite run_Seq, run_Chr_cons. cbn [accepts]. rewrite Ascii.eqb_refl.
  rewrite run_Seq.
  change ("}" ++ rest) with (String "}" rest).
  unfold Enhanced.braces_body. fold piece_pattern. rewrite run_Star.
  apply star_pieces; try assumption.
  - rewrite length_append. pose proof (brace_render_all_length body). lia.
  - rewrite run_Chr_cons. cbn [accepts]. now rewrite Ascii.eqb_refl.
Qed.

End Braces.

Section Extraction.

Import Re PyStr BraceSource.

Lemma function_pattern_needs_keyword :
  forall function_name s,
    prefix "function" s = false ->
    match_ (Enhanced.function_pattern function_name) s = None.
Proof.
  intros function_name s Hs. unfold match_, Enhanced.function_pattern. cbn [cat].
  rewrite run_Seq.
  destruct (run (Str "function") s _) as [r |] eqn:Hrun; [| reflexivity].
  apply run_Str_prefix in Hrun. congruence.
Qed.

Lemma arrow_pattern_needs_keyword :
  forall function_name s,
    prefix "const" s = false ->
    match_ (Enhanced.arrow_pattern function_name) s = None.
Proof.
  intros function_name s Hs. unfold match_, Enhanced.arrow_pattern. cbn [cat].
  rewrite run_Seq.
  destruct (run (Str "const") s _) as [r |] eqn:Hrun; [| reflexivity].
  apply run_Str_prefix in Hrun. congruence.
Qed.

Lemma script_is_no_contract :
  forall filepath,
    Enhanced.endswith_any filepath [".js"; ".jsx"; ".ts"; ".tsx"] = true ->
    endswith filepath ".sol" = false.
Proof.
  intros filepath Hjs.
  destruct (endswith filepath ".sol") eqn:Hsol; [| reflexivity].
  apply endswith_last_char in Hsol; [| discriminate].
  unfold Enhanced.endswith_any in Hjs. cbn [existsb] in Hjs.
  repeat (apply orb_true_iff in Hjs; destruct Hjs as [Hjs | Hjs]);
    try discriminate Hjs;
    (apply endswith_last_char in Hjs; [| discriminate]);
    rewrite Hjs in Hsol; discriminate Hsol.
Qed.

(** The declaration begins with the keyword. *)
Lemma declaration_begins :
  forall function_name parameters body rest,
    exists t,
      declaration function_name parameters body ++ rest = "function" ++ String " " t.
Proof.
  intros. unfold declaration. rewrite !append_assoc. eexists. reflexivity.
Qed.

Lemma search_function_pattern :
  forall front function_name parameters body rest,
    contains "function" front = false ->
    all (fun c => negb (is_space c)) function_name = true ->
    all (fun c => negb (is_opening c)) parameters = true ->
    Forall well_formed body ->
    search (Enhanced.function_pattern function_name)
      (front ++ declaration function_name parameters body ++ rest)
    = Some (front, declaration function_name parameters body).
Proof.
  intros front function_name parameters body rest Hfront Hname Hparameters Hbody.
  unfold search. rewrite search_from_skips.
  - cbn [append].
    destruct (declaration_begins function_name parameters body rest) as [t Ht].
    rewrite Ht. cbn [append]. rewrite search_from_cons.
    change (String "f" (String "u" (String "n" (String "c" (String "t" (String "i"
              (String "o" (String "n" (String " " t)))))))))
      with ("function" ++ String " " t).
    rewrite <- Ht, match_function_pattern by assumption.
    now rewrite take_append.
  - intros p u Heq Hu.
    apply function_pattern_needs_keyword.
    destruct (declaration_begins function_name parameters body rest) as [t ->].
    apply (keyword_not_across "f" "unction" u "f" ("unction" ++ String " " t));
      [reflexivity | exact Hu |].
    rewrite Heq in Hfront. now apply contains_suffix in Hfront.
Qed.

End Extraction.

(** X10: in a Solidity file, for a function whose body nests braces one
    level at most and that is the first text [function] of the file, the
    unit handed to the backend is the text [function NAME] followed by the
    whole declaration from [function] to its closing brace: the header of
    the function comes twice. *)
Theorem solidity_unit_repeats_the_header :
  forall (filepath front function_name parameters : string)
         (body : list BraceSource.piece) (rest : string),
    PyStr.endswith filepath ".sol" = true ->
    PyStr.contains "function" front = false ->
    PyStr.all (fun c => negb (PyStr.is_space c)) function_name = true ->
    PyStr.all (fun c => negb (BraceSource.is_opening c)) parameters = true ->
    Forall BraceSource.well_formed body ->
    Enhanced.extract_function filepath
      (front ++ BraceSource.declaration function_name parameters body ++ rest)
      function_name
    = Enhanced.Unit ("function " ++ function_name
                     ++ BraceSource.declaration function_name parameters body).
Proof.
  intros filepath front function_name parameters body rest Hsol Hfront Hname Hparameters
         Hbody.
  unfold Enhanced.extract_function. rewrite Hsol.
  now rewrite search_function_pattern.
Qed.

Lemma solidity_unit_repeats_the_header_witness :
  Enhanced.extract_function "contracts/Token.sol"
    (("contract Token {" ++ PyStr.nl ++ "  ")
     ++ BraceSource.declaration "buy" ") external "
          (BraceSource.plain " " ++ [BraceSource.Block " pay(); "] ++ BraceSource.plain " ")%list
     ++ PyStr.nl ++ "}")
    "buy"
  = Enhanced.Unit ("function buy"
                   ++ BraceSource.declaration "buy" ") external "
                        (BraceSource.plain " " ++ [BraceSource.Block " pay(); "]
                         ++ BraceSource.plain " ")%list).
Proof.
  apply (solidity_unit_repeats_the_header "contracts/Token.sol"
           ("contract Token {" ++ PyStr.nl ++ "  ") "buy" ") external "
           (BraceSource.plain " " ++ [BraceSource.Block " pay(); "] ++ BraceSource.plain " ")%list
           (PyStr.nl ++ "}"));
    try reflexivity.
  repeat constructor.
Defined.

(** X11: in a JavaScript or TypeScript file, for a function declared with
    [function NAME(] whose body nests braces one level at most, when the
    file holds neither [function] nor [const] before it, the extracted unit
    is exactly the declaration, from [function] to the closing brace of the
    function, whatever follows it. *)
Theorem script_function_is_extracted_whole :
  forall (filepath front function_name parameters : string)
         (body : list BraceSource.piece) (rest : string),
    Enhanced.endswith_any filepath [".js"; ".jsx"; ".ts"; ".tsx"] = true ->
    PyStr.contains "function" front = false ->
    PyStr.contains "const" front = false ->
    PyStr.all (fun c => negb (PyStr.is_space c)) function_name = true ->
    PyStr.all (fun c => negb (BraceSource.is_opening c)) parameters = true ->
    Forall BraceSource.well_formed body ->
    Enhanced.extract_function filepath
      (front ++ BraceSource.declaration function_name parameters body ++ rest)
      function_name
    = Enhanced.Unit (BraceSource.declaration function_name parameters body).
Proof.
  intros filepath front function_name parameters body rest Hjs Hfront Hconst Hname
         Hparameters Hbody.
  unfold Enhanced.extract_function.
  rewrite (script_is_no_contract filepath Hjs), Hjs.
  unfold Re.search. rewrite search_from_skips.
  - cbn [append].
    destruct (declaration_begins function_name parameters body rest) as [t Ht].
    rewrite Ht. cbn [append]. rewrite search_from_cons.
    change (String "f" (String "u" (String "n" (String "c" (String "t" (String "i"
              (String "o" (String "n" (String " " t)))))))))
      with ("function" ++ String " " t).
    rewrite <- Ht. unfold Re.match_. cbn [Re.run].
    fold (Re.match_ (Enhanced.function_pattern function_name)
            (BraceSource.declaration function_name parameters body ++ rest)).
    rewrite match_function_pattern by assumption.
    now rewrite take_append.
  - intros p u Heq Hu.
    destruct (declaration_begins function_name parameters body rest) as [t ->].
    unfold Re.match_. cbn [Re.run].
    fold (Re.match_ (Enhanced.function_pattern function_name)
            (u ++ "function" ++ String " " t)).
    fold (Re.match_ (Enhanced.arrow_pattern function_name)
            (u ++ "function" ++ String " " t)).
    rewrite function_pattern_needs_keyword, arrow_pattern_needs_keyword; [reflexivity | |].
    + apply (keyword_not_across "c" "onst" u "f" ("unction" ++ String " " t));
        [reflexivity | exact Hu |].
      rewrite Heq in Hconst. now apply contains_suffix in Hconst.
    + apply (keyword_not_across "f" "unction" u "f" ("unction" ++ String " " t));
        [reflexivity | exact Hu |].
      rewrite Heq in Hfront. now apply contains_suffix in Hfront.
Qed.

Lemma script_function_is_extracted_whole_witness :
  Enhanced.extract_function "src/cart.ts"
    (("import { pay } from './pay';" ++ PyStr.nl ++ "export ")
     ++ BraceSource.declaration "buy" "item: Item): void "
          (BraceSource.plain " if (item) " ++ [BraceSource.Block " pay(item); "]
          ++ BraceSource.plain " ")%list
     ++ PyStr.nl ++ "export function sell() {}")
    "buy"
  = Enhanced.Unit
      (BraceSource.declaration "buy" "item: Item): void "
         (BraceSource.plain " if (item) " ++ [BraceSource.Block " pay(item); "]
          ++ BraceSource.plain " ")%list).
Proof.
  apply (script_function_is_extracted_whole "src/cart.ts"
           ("import { pay } from './pay';" ++ PyStr.nl ++ "export ") "buy"
           "item: Item): void "
           (BraceSource.plain " if (item) " ++ [BraceSource.Block " pay(item); "]
          ++ BraceSource.plain " ")%list
           (PyStr.nl ++ "export function sell() {}"));
    try reflexivity.
  repeat constructor.
Defined.

Section Names.

Import Re PyStr.

Lemma append_cancel_r :
  forall a b r : string, a ++ r = b ++ r -> a = b.
Proof.
  induction a as [| c a IH]; intros b r H.
  - destruct b as [| d b]; [reflexivity |].
    assert (Hlen : String.length r = String.length (String d b ++ r)) by (now rewrite <- H).
    rewrite length_append in Hlen. cbn in Hlen. lia.
  - destruct b as [| d b].
    + assert (Hlen : String.length (String c a ++ r) = String.length r) by (now rewrite H).
      rewrite length_append in Hlen. cbn in Hlen. lia.
    + cbn [append] in H. injection H as -> H. f_equal. now apply (IH b r).
Qed.

Lemma contains_intro :
  forall needle a b, contains needle (a ++ needle ++ b) = true.
Proof.
  intros needle. induction a as [| c a IH]; intros b.
  - cbn [append]. destruct (needle ++ b) eqn:Heq; cbn [contains];
      rewrite <- Heq, prefix_append; reflexivity.
  - cbn [append contains]. rewrite IH. now destruct (prefix needle _).
Qed.

(** A pattern that reads a keyword, white space and the name matches a
    text that holds them in this order. *)
Lemma keyword_name_match :
  forall kw name r s rest,
    match_ (Seq (Str kw) (Seq (Plus (Chr Space)) (Seq (Str name) r))) s = Some rest ->
    exists m1 m2, s = (kw ++ m1 ++ name ++ m2) ++ rest.
Proof.
  intros kw name r s rest H. unfold match_ in H.
  rewrite run_Seq in H. apply run_Str_exact in H. destruct H as [s1 [-> H]].
  rewrite run_Seq in H. apply run_suffix in H. destruct H as [m1 [s2 [-> H]]].
  rewrite run_Seq in H. apply run_Str_exact in H. destruct H as [s3 [-> H]].
  apply run_suffix in H. destruct H as [m2 [s4 [-> H]]].
  injection H as ->.
  exists m1, m2. now rewrite !append_assoc.
Qed.

(** What each of the three patterns matches: a text that begins with its
    keyword and holds the name. *)
Lemma pattern_match_shape :
  forall function_name s rest,
    match_ (Enhanced.function_pattern function_name) s = Some rest
    \/ match_ (Enhanced.arrow_pattern function_name) s = Some rest
    \/ match_ (Enhanced.def_pattern function_name) s = Some rest ->
    exists matched,
      s = matched ++ rest
      /\ (prefix "function" matched = true \/ prefix "const" matched = true
          \/ prefix "def" matched = true)
      /\ contains function_name matched = true.
Proof.
  intros function_name s rest [H | [H | H]];
    unfold Enhanced.function_pattern, Enhanced.arrow_pattern, Enhanced.def_pattern in H;
    cbn [cat] in H; apply keyword_name_match in H; destruct H as [m1 [m2 ->]];
    eexists; (split; [reflexivity |]); split.
  - left. apply prefix_append.
  - apply (contains_intro function_name ("function" ++ m1) m2).
  - right; left. apply prefix_append.
  - apply (contains_intro function_name ("const" ++ m1) m2).
  - right; right. apply prefix_append.
  - apply (contains_intro function_name ("def" ++ m1) m2).
Qed.

Lemma alt_match :
  forall r1 r2 s rest,
    match_ (Alt r1 r2) s = Some rest ->
    match_ r1 s = Some rest \/ match_ r2 s = Some rest.
Proof.
  intros r1 r2 s rest H. unfold match_ in *. cbn [run] in H.
  destruct (run r1 s Some); [left; exact H | right; exact H].
Qed.

(** What a search for one of the patterns finds. *)
Lemma pattern_search_shape :
  forall r function_name code found matched,
    r = Enhanced.function_pattern function_name
    \/ r = Alt (Enhanced.function_pattern function_name) (Enhanced.arrow_pattern function_name)
    \/ r = Enhanced.def_pattern function_name ->
    search r code = Some (found, matched) ->
    (exists rest, code = found ++ matched ++ rest)
    /\ (prefix "function" matched = true \/ prefix "const" matched = true
        \/ prefix "def" matched = true)
    /\ contains function_name matched = true.
Proof.
  intros r function_name code found matched Hr H.
  apply search_span in H. destruct H as [rest [-> Hmatch]].
  assert (Hshape :
            match_ (Enhanced.function_pattern function_name) (matched ++ rest) = Some rest
            \/ match_ (Enhanced.arrow_pattern function_name) (matched ++ rest) = Some rest
            \/ match_ (Enhanced.def_pattern function_name) (matched ++ rest) = Some rest).
  { destruct Hr as [-> | [-> | ->]].
    - now left.
    - apply alt_match in Hmatch. destruct Hmatch; [now left | now right; left].
    - now right; right. }
  apply pattern_match_shape in Hshape. destruct Hshape as [m [Heq [Hkw Hname]]].
  apply append_cancel_r in Heq. subst m.
  split; [now exists rest | split; assumption].
Qed.

End Names.

Lemma prefix_split :
  forall a s, prefix a s = true -> exists q, s = a ++ q.
Proof.
  induction a as [| c a IH]; intros s H; [now exists s |].
  destruct s as [| d s]; [discriminate H |].
  cbn [prefix] in H. destruct (ascii_dec c d) as [-> |]; [| discriminate H].
  destruct (IH s H) as [q ->]. now exists q.
Qed.

Lemma contains_split :
  forall needle s,
    PyStr.contains needle s = true -> exists p q, s = p ++ needle ++ q.
Proof.
  intros needle. induction s as [| c s IH]; intros H.
  - cbn [PyStr.contains] in H. destruct (prefix needle "") eqn:Hp; [| discriminate H].
    apply prefix_split in Hp. destruct Hp as [q Hq]. now exists "", q.
  - cbn [PyStr.contains] in H. destruct (prefix needle (String c s)) eqn:Hp.
    + apply prefix_split in Hp. destruct Hp as [q Hq]. now exists "", q.
    + destruct (IH H) as [p [q ->]]. now exists (String c p), q.
Qed.

Lemma contains_append :
  forall needle a s b,
    PyStr.contains needle s = true -> PyStr.contains needle (a ++ s ++ b) = true.
Proof.
  intros needle a s b H.
  destruct (contains_split needle s H) as [p [q ->]].
  replace (a ++ (p ++ needle ++ q) ++ b) with ((a ++ p) ++ needle ++ (q ++ b))
    by (now rewrite !append_assoc).
  apply contains_intro.
Qed.

(** A file whose text does not hold the name gives no unit. *)
Lemma absent_name_gives_no_unit :
  forall filepath code function_name function_code,
    PyStr.contains function_name code = false ->
    Enhanced.extract_function filepath code function_name <> Enhanced.Unit function_code.
Proof.
  intros filepath code function_name function_code Hname H.
  unfold Enhanced.extract_function in H.
  destruct (PyStr.endswith filepath ".sol");
    [| destruct (Enhanced.endswith_any filepath [".js"; ".jsx"; ".ts"; ".tsx"]);
       [| destruct (PyStr.endswith filepath ".py"); [| discriminate H]]];
    match type of H with
    | Enhanced.group0 (Re.search ?r code) _ = _ =>
        destruct (Re.search r code) as [[found matched] |] eqn:Hsearch; [| discriminate H];
        apply (pattern_search_shape r function_name) in Hsearch;
        [| tauto]
    end;
    destruct Hsearch as [[rest Hcode] [_ Hmatched]];
    rewrite Hcode, (contains_append _ found matched rest Hmatched) in Hname;
    discriminate Hname.
Qed.

(** X12: whatever the file holds, a unit that is extracted is a part of the
    file's text as it stands there: it begins with [function], [const] or
    [def] and holds the name that was asked for.  In a Solidity file the
    text [function NAME] is put in front of that part. *)
Theorem extracted_unit_is_a_span :
  forall (filepath code function_name function_code : string),
    Enhanced.extract_function filepath code function_name = Enhanced.Unit function_code ->
    exists before span after,
      code = before ++ span ++ after
      /\ function_code
         = (if PyStr.endswith filepath ".sol"
            then "function " ++ function_name ++ span
            else span)
      /\ (prefix "function" span = true \/ prefix "const" span = true
          \/ prefix "def" span = true)
      /\ PyStr.contains function_name span = true.
Proof.
  intros filepath code function_name function_code H.
  unfold Enhanced.extract_function in H.
  destruct (PyStr.endswith filepath ".sol");
    [| destruct (Enhanced.endswith_any filepath [".js"; ".jsx"; ".ts"; ".tsx"]);
       [| destruct (PyStr.endswith filepath ".py"); [| discriminate H]]];
    match type of H with
    | Enhanced.group0 (Re.search ?r code) _ = _ =>
        destruct (Re.search r code) as [[found matched] |] eqn:Hsearch; [| discriminate H];
        apply (pattern_search_shape r function_name) in Hsearch;
        [| tauto]
    end;
    destruct Hsearch as [[rest Hcode] [Hkw Hname]];
    cbn [Enhanced.group0] in H; injection H as <-;
    exists found, matched, rest; repeat split; assumption.
Qed.

Lemma extracted_unit_is_a_span_witness :
  exists before span after,
    "class A:" ++ PyStr.nl ++ "    def f(self):" ++ PyStr.nl ++ "        pass" ++ PyStr.nl
    = before ++ span ++ after
    /\ "def f(self):" ++ PyStr.nl ++ "        pass" ++ PyStr.nl = span
    /\ (prefix "function" span = true \/ prefix "const" span = true
        \/ prefix "def" span = true)
    /\ PyStr.contains "f" span = true.
Proof.
  apply (extracted_unit_is_a_span "a.py"
           ("class A:" ++ PyStr.nl ++ "    def f(self):" ++ PyStr.nl ++ "        pass"
            ++ PyStr.nl) "f").
  vm_compute. reflexivity.
Defined.

(** ** Skipped files and repeated reports *)

Section Skips.

Import Enhanced RunSpec DispatchSpec.

Variable w : world.
Variable self : analyzer.

Lemma code_file_skip :
  forall filepath focus_areas severity st,
    ~ readable w filepath ->
    exists st',
      analyze_code_file w self filepath focus_areas severity st = (Ok JNull, st')
      /\ silent st st'.
Proof.
  intros filepath focus_areas severity st Hno.
  destruct (read_unreadable w filepath st Hno) as [code [st' [Hread [Hfalse [_ Hsilent]]]]].
  unfold analyze_code_file, bindM. rewrite Hread, Hfalse. cbn [negb ret].
  exists st'. split; [reflexivity | exact Hsilent].
Qed.

Lemma function_skip :
  forall filepath function_name focus_areas severity st,
    ~ readable w filepath ->
    exists st',
      analyze_function w self filepath function_name focus_areas severity st = (Ok JNull, st')
      /\ silent st st'.
Proof.
  intros filepath function_name focus_areas severity st Hno.
  destruct (read_unreadable w filepath st Hno) as [code [st' [Hread [Hfalse [_ Hsilent]]]]].
  unfold analyze_function, bindM. rewrite Hread, Hfalse. cbn [negb ret].
  exists st'. split; [reflexivity | exact Hsilent].
Qed.

Lemma supported_extension :
  forall filepath code function_name,
    endswith_any filepath [".sol"; ".js"; ".jsx"; ".ts"; ".tsx"; ".py"] = true ->
    extract_function filepath code function_name <> WholeFile.
Proof.
  intros filepath code function_name Hext. unfold extract_function.
  destruct (PyStr.endswith filepath ".sol") eqn:Hsol.
  { destruct (Re.search _ code) as [[? ?] |]; discriminate. }
  destruct (endswith_any filepath [".js"; ".jsx"; ".ts"; ".tsx"]) eqn:Hjs.
  { destruct (Re.search _ code) as [[? ?] |]; discriminate. }
  destruct (PyStr.endswith filepath ".py") eqn:Hpy.
  { destruct (Re.search _ code) as [[? ?] |]; discriminate. }
  exfalso. unfold endswith_any in Hext, Hjs. cbn [existsb] in Hext, Hjs.
  rewrite Hsol, Hpy in Hext.
  destruct (PyStr.endswith filepath ".js"), (PyStr.endswith filepath ".jsx"),
    (PyStr.endswith filepath ".ts"), (PyStr.endswith filepath ".tsx");
    cbn in Hext, Hjs; congruence.
Qed.

End Skips.

(** X13: a file that is missing, cannot be read or is empty is skipped, by
    the analysis of a file and by the analysis of a function alike: the call
    returns None, no request is sent and no report file is written. *)
Theorem unreadable_file_is_skipped :
  forall (w : Enhanced.world) (self : Enhanced.analyzer) (filepath function_name : string)
         (focus_areas : list string) (severity : option string) (st : Enhanced.state),
    ~ RunSpec.readable w filepath ->
    (exists st',
        Enhanced.analyze_code_file w self filepath focus_areas severity st = (Ok JNull, st')
        /\ Enhanced.requests st' = Enhanced.requests st
        /\ Enhanced.written st' = Enhanced.written st)
    /\ (exists st',
           Enhanced.analyze_function w self filepath function_name focus_areas severity st
           = (Ok JNull, st')
           /\ Enhanced.requests st' = Enhanced.requests st
           /\ Enhanced.written st' = Enhanced.written st).
Proof.
  intros w self filepath function_name focus_areas severity st Hno. split.
  - destruct (code_file_skip w self filepath focus_areas severity st Hno)
      as [st' [Hrun [Hr Hw]]].
    now exists st'.
  - destruct (function_skip w self filepath function_name focus_areas severity st Hno)
      as [st' [Hrun [Hr Hw]]].
    now exists st'.
Qed.

Lemma unreadable_file_is_skipped_witness :
  let w := Fixture.world_of Fixture.files Fixture.no_dirs Fixture.answers_report in
  (exists st',
      Enhanced.analyze_code_file w Fixture.analyzer "locked.py" [] None Enhanced.initial
      = (Ok JNull, st')
      /\ Enhanced.requests st' = Enhanced.requests Enhanced.initial
      /\ Enhanced.written st' = Enhanced.written Enhanced.initial)
  /\ (exists st',
         Enhanced.analyze_function w Fixture.analyzer "locked.py" "main" [] None
           Enhanced.initial
         = (Ok JNull, st')
         /\ Enhanced.requests st' = Enhanced.requests Enhanced.initial
         /\ Enhanced.written st' = Enhanced.written Enhanced.initial).
Proof.
  intros w. apply unreadable_file_is_skipped.
  intros [code [Hfile _]]. vm_compute in Hfile. discriminate Hfile.
Defined.

(** X14: when the file can be read and has a supported ending (.sol, .js,
    .jsx, .ts, .tsx, .py) but its text does not hold the name asked for, the
    analysis of a function reports that the function was not found and
    returns None: no request is sent and no report file is written. *)
Theorem absent_function_costs_nothing :
  forall (w : Enhanced.world) (self : Enhanced.analyzer)
         (filepath code function_name : string) (focus_areas : list string)
         (severity : option string) (st : Enhanced.state),
    Enhanced.file w filepath = Enhanced.Text code ->
    code <> "" ->
    Enhanced.endswith_any filepath [".sol"; ".js"; ".jsx"; ".ts"; ".tsx"; ".py"] = true ->
    PyStr.contains function_name code = false ->
    Enhanced.extract_function filepath code function_name = Enhanced.NotFound
    /\ exists st',
         Enhanced.analyze_function w self filepath function_name focus_areas severity st
         = (Ok JNull, st')
         /\ Enhanced.requests st' = Enhanced.requests st
         /\ Enhanced.written st' = Enhanced.written st
         /\ In ("Function " ++ function_name ++ " not found in " ++ filepath)
              (Enhanced.stdout st').
Proof.
  intros w self filepath code function_name focus_areas severity st Hfile Hcode Hext Hname.
  assert (Hnone : Enhanced.extract_function filepath code function_name = Enhanced.NotFound).
  { destruct (Enhanced.extract_function filepath code function_name) as [| unit |] eqn:H.
    - reflexivity.
    - exfalso. exact (absent_name_gives_no_unit _ _ _ _ Hname H).
    - exfalso. exact (supported_extension filepath code function_name Hext H). }
  split; [exact Hnone |].
  unfold Enhanced.analyze_function, Enhanced.bindM at 1.
  rewrite (read_readable w filepath code st Hfile), (readable_truthy code Hcode).
  cbn [negb Py.str]. rewrite Hnone. cbn [Enhanced.bindM Enhanced.print Enhanced.ret].
  eexists. split; [reflexivity |]. cbn [Enhanced.requests Enhanced.written Enhanced.stdout].
  repeat split. apply in_or_app. right. now left.
Qed.

Lemma absent_function_costs_nothing_witness :
  let w := Fixture.world_of Fixture.files Fixture.no_dirs Fixture.answers_report in
  Enhanced.extract_function "a.py" "print(1)" "sell" = Enhanced.NotFound
  /\ exists st',
       Enhanced.analyze_function w Fixture.analyzer "a.py" "sell" [] None Enhanced.initial
       = (Ok JNull, st')
       /\ Enhanced.requests st' = Enhanced.requests Enhanced.initial
       /\ Enhanced.written st' = Enhanced.written Enhanced.initial
       /\ In ("Function " ++ "sell" ++ " not found in " ++ "a.py") (Enhanced.stdout st').
Proof.
  intros w. apply absent_function_costs_nothing; [reflexivity | discriminate | reflexivity ..].
Defined.

Lemma written_twice_length :
  forall w self code_files chunks,
    Forall2 (DispatchSpec.written_twice w self) code_files chunks ->
    List.length (concat chunks) = 2 * List.length code_files.
Proof.
  intros w self code_files chunks H. induction H as [| f chunk fs chunks Hchunk _ IH].
  - reflexivity.
  - destruct Hchunk as [reading [text ->]].
    cbn [concat List.length app]. rewrite IH. lia.
Qed.

(** X15: a project run over files that can be read and are not empty, in
    a world whose replies hold text, writes every report twice, once by the
    analysis of the file and once more by the project loop: the same text
    under the same base name, stamped with two readings of the clock that
    follow each other, the code doing nothing in between; the consolidated
    report comes last.  For n analysed files that is 2n + 1 writes.  When
    the clock gives the same second at both readings the two writes go to
    one path, and the second replaces the first. *)
Theorem project_writes_each_report_twice :
  forall (w : Enhanced.world) (self : Enhanced.analyzer) (directory_path : string)
         (exclude_patterns : list Re.regex) (focus_areas : list string)
         (severity : option string) (t : Enhanced.tree) (st : Enhanced.state),
    RunSpec.textual w ->
    Enhanced.directory w directory_path = Some t ->
    (forall filepath,
        In filepath (RunSpec.capped (Enhanced.discover directory_path exclude_patterns t)) ->
        RunSpec.readable w filepath) ->
    exists path st' chunks consolidated,
      Enhanced.analyze_project w self directory_path exclude_patterns focus_areas severity st
      = (Ok (Some path), st')
      /\ Forall2 (DispatchSpec.written_twice w self)
           (RunSpec.capped (Enhanced.discover directory_path exclude_patterns t)) chunks
      /\ Enhanced.written st'
         = (Enhanced.written st ++ concat chunks ++ [(path, consolidated)])%list
      /\ List.length (Enhanced.written st')
         = List.length (Enhanced.written st)
           + 2 * List.length
                   (RunSpec.capped (Enhanced.discover directory_path exclude_patterns t))
           + 1
      /\ ((forall reading,
              Enhanced.strftime w Enhanced.file_stamp (S reading)
              = Enhanced.strftime w Enhanced.file_stamp reading) ->
          Forall DispatchSpec.overwritten chunks).
Proof.
  intros w self directory_path exclude_patterns focus_areas severity t st Htext Hdir Hread.
  destruct (analyze_project_run w self directory_path exclude_patterns focus_areas severity
              t st Htext Hdir Hread)
    as [path [st' [chunks [consolidated [Hrun [Hchunks Hwritten]]]]]].
  exists path, st', chunks, consolidated.
  split; [exact Hrun | split; [exact Hchunks | split; [exact Hwritten | split]]].
  - rewrite Hwritten, !length_app, (written_twice_length w self _ _ Hchunks).
    cbn [List.length]. lia.
  - intros Hsame. clear - Hchunks Hsame.
    induction Hchunks as [| f chunk fs chunks [reading [text ->]] _ IH]; constructor.
    + rewrite Hsame. eexists; eexists; reflexivity.
    + exact IH.
Qed.

Lemma project_writes_each_report_twice_witness :
  let w := Fixture.world_of Fixture.every_file Fixture.project_dirs Fixture.answers_report in
  exists path st' chunks consolidated,
    Enhanced.analyze_project w Fixture.analyzer "proj" [] [] None Enhanced.initial
    = (Ok (Some path), st')
    /\ Forall2 (DispatchSpec.written_twice w Fixture.analyzer)
         (RunSpec.capped (Enhanced.discover "proj" [] (Enhanced.Node Fixture.twelve [])))
         chunks
    /\ Enhanced.written st'
       = (Enhanced.written Enhanced.initial ++ concat chunks ++ [(path, consolidated)])%list
    /\ List.length (Enhanced.written st') = 11
    /\ Forall DispatchSpec.overwritten chunks
    /\ List.length (DispatchSpec.paths_left (Enhanced.written st')) = 6.
Proof.
  intros w.
  destruct (project_writes_each_report_twice w Fixture.analyzer "proj" [] [] None
              (Enhanced.Node Fixture.twelve []) Enhanced.initial)
    as [path [st' [chunks [consolidated [Hrun [Hchunks [Hwritten [Hlength Hsame]]]]]]]].
  - apply fixture_textual.
  - reflexivity.
  - intros filepath _. exists "print(1)". split; [reflexivity | discriminate].
  - exists path, st', chunks, consolidated.
    split; [exact Hrun | split; [exact Hchunks | split; [exact Hwritten | split; [| split]]]].
    + exact Hlength.
    + apply Hsame. intros reading. reflexivity.
    + vm_compute in Hrun. injection Hrun as _ <-. vm_compute. reflexivity.
Defined.

Section UiComponent.

Import Enhanced RunSpec DispatchSpec.

Variable w : world.
Variable self : analyzer.
Variable list_of_set : list string -> list string.

Lemma ui_component_run :
  forall filepath code focus_areas severity st,
    file w filepath = Text code ->
    code <> "" ->
    exists outcome st',
      Ui.analyze_ui_component w self list_of_set filepath focus_areas severity st
      = (outcome, st')
      /\ requests st'
         = (requests st
            ++ [request_for w (list_of_set (focus_areas ++ Ui.default_ui_focus)%list)
                  severity filepath])%list.
Proof.
  intros filepath code focus_areas severity st Hfile Hcode.
  unfold Ui.analyze_ui_component.
  destruct (code_file_run w self filepath code
              (list_of_set (focus_areas ++ Ui.default_ui_focus)%list) severity st Hfile Hcode)
    as [st' [Hrun [Hrequests _]]].
  eexists; exists st'. split; [exact Hrun | exact Hrequests].
Qed.

End UiComponent.

(** X16: the analysis of a UI component is the analysis of the file with a
    focus list made of the areas given and of the four UI areas
    (accessibility, user experience, performance, best practices), each
    once: whatever order the set gives them, the one request that is sent
    names every one of these areas and no other, so the UI areas are asked
    for even when the caller names none. *)
Theorem ui_component_focus :
  forall (w : Enhanced.world) (self : Enhanced.analyzer)
         (list_of_set : list string -> list string)
         (filepath code : string) (focus_areas : list string) (severity : option string)
         (st : Enhanced.state),
    (forall l, NoDup (list_of_set l) /\ forall a, In a (list_of_set l) <-> In a l) ->
    Enhanced.file w filepath = Enhanced.Text code ->
    code <> "" ->
    exists combined_focus outcome st',
      Ui.analyze_ui_component w self list_of_set filepath focus_areas severity st
      = (outcome, st')
      /\ Enhanced.requests st'
         = (Enhanced.requests st
            ++ [RunSpec.request_for w combined_focus severity filepath])%list
      /\ NoDup combined_focus
      /\ (forall a, In a combined_focus <-> In a focus_areas \/ In a Ui.default_ui_focus)
      /\ 4 <= List.length combined_focus <= List.length focus_areas + 4.
Proof.
  intros w self list_of_set filepath code focus_areas severity st Hset Hfile Hcode.
  destruct (ui_component_run w self list_of_set filepath code focus_areas severity st
              Hfile Hcode) as [outcome [st' [Hrun Hrequests]]].
  destruct (Hset (focus_areas ++ Ui.default_ui_focus)%list) as [Hnodup Hin].
  exists (list_of_set (focus_areas ++ Ui.default_ui_focus)%list), outcome, st'.
  split; [exact Hrun | split; [exact Hrequests | split; [exact Hnodup | split]]].
  - intros a. rewrite Hin. apply in_app_iff.
  - split.
    + assert (Hsub : incl Ui.default_ui_focus
                       (list_of_set (focus_areas ++ Ui.default_ui_focus)%list)).
      { intros a Ha. apply Hin. apply in_or_app. now right. }
      apply (NoDup_incl_length (l := Ui.default_ui_focus)) in Hsub; [exact Hsub |].
      unfold Ui.default_ui_focus.
      repeat constructor; cbn; intuition discriminate.
    + assert (Hsub : incl (list_of_set (focus_areas ++ Ui.default_ui_focus)%list)
                       (focus_areas ++ Ui.default_ui_focus)%list).
      { intros a Ha. now apply Hin. }
      apply (NoDup_incl_length Hnodup) in Hsub. rewrite length_app in Hsub. exact Hsub.
Qed.

Lemma ui_component_focus_witness :
  let w := Fixture.world_of Fixture.files Fixture.no_dirs Fixture.answers_report in
  exists combined_focus outcome st',
    Ui.analyze_ui_component w Fixture.analyzer (nodup string_dec) "a.py"
      ["performance"; "contrast"] None Enhanced.initial
    = (outcome, st')
    /\ Enhanced.requests st'
       = (Enhanced.requests Enhanced.initial
          ++ [RunSpec.request_for w combined_focus None "a.py"])%list
    /\ NoDup combined_focus
    /\ (forall a, In a combined_focus
                  <-> In a ["performance"; "contrast"] \/ In a Ui.default_ui_focus)
    /\ 4 <= List.length combined_focus <= List.length ["performance"; "contrast"] + 4.
Proof.
  intros w.
  apply (ui_component_focus w Fixture.analyzer (nodup string_dec) "a.py" "print(1)").
  - intros l. split; [apply NoDup_nodup | intros a; apply nodup_In].
  - reflexivity.
  - discriminate.
Defined.

(** ** Nested blocks *)

Section Nesting.

Import Re PyStr BraceSource.

(** A star over one class gives back nothing the rest of the pattern could
    use when that rest fails inside the run of the class. *)
Lemma star_class_exact :
  forall cl k s1 s2 fuel,
    String.length s1 <= fuel ->
    all (accepts cl) s1 = true ->
    starts_with (accepts cl) s2 = false ->
    (forall p u, s1 = p ++ u -> u <> "" -> k (u ++ s2) = None) ->
    star_loop (run (Chr cl)) k fuel (s1 ++ s2) = k s2.
Proof.
  intros cl k s1. induction s1 as [| c s1 IH]; intros s2 fuel Hfuel Hall Hstop Hnone.
  - cbn [append]. destruct fuel; [reflexivity |].
    rewrite star_loop_S. destruct s2 as [| c2 s2]; [reflexivity |].
    rewrite run_Chr_cons. cbn in Hstop. now rewrite Hstop.
  - cbn in Hall. apply andb_true_iff in Hall. destruct Hall as [Hc Hall].
    destruct fuel as [| fuel]; [cbn in Hfuel; lia |].
    cbn [append]. rewrite star_loop_S, run_Chr_cons, Hc.
    assert (Hlt : (String.length (s1 ++ s2) <? String.length (String c (s1 ++ s2)))%nat = true)
      by (apply Nat.ltb_lt; cbn; lia).
    rewrite Hlt, IH; [| cbn in Hfuel; lia | assumption | assumption |].
    + destruct (k s2) eqn:Hk; [reflexivity |].
      apply (Hnone "" (String c s1)); [reflexivity | discriminate].
    + intros p u Heq Hu. apply (Hnone (String c p) u); [now rewrite Heq | exact Hu].
Qed.

Lemma run_star_exact :
  forall cl k s1 s2,
    all (accepts cl) s1 = true ->
    starts_with (accepts cl) s2 = false ->
    (forall p u, s1 = p ++ u -> u <> "" -> k (u ++ s2) = None) ->
    run (Star (Chr cl)) (s1 ++ s2) k = k s2.
Proof.
  intros cl k s1 s2 Hall Hstop Hnone. rewrite run_Star.
  apply star_class_exact; try assumption. rewrite length_append. lia.
Qed.

(** A text that begins inside a class cannot begin with a character
    outside it. *)
Lemma suffix_starts_inside :
  forall (p : ascii -> bool) s q u,
    all p s = true -> s = q ++ u -> u <> "" -> starts_with p u = true.
Proof.
  intros p s q. revert s. induction q as [| c q IH]; intros s u Hall Heq Hu.
  - cbn [append] in Heq. subst s. destruct u as [| c u]; [contradiction |].
    cbn in Hall |- *. now apply andb_true_iff in Hall.
  - destruct s as [| d s]; [discriminate Heq |].
    cbn [append] in Heq. injection Heq as -> Heq.
    cbn in Hall. apply andb_true_iff in Hall. now apply (IH s u).
Qed.

(** One round of the body star takes one piece and nothing else. *)
Lemma run_piece_exact :
  forall p rest cont,
    well_formed p ->
    run piece_pattern (render p ++ rest) cont = cont rest.
Proof.
  intros [c | inner] rest cont Hp; cbn in Hp; unfold piece_pattern; cbn [run].
  - cbn [render append]. rewrite accepts_no_brace, Hp. cbn [negb].
    destruct (cont rest); [reflexivity |].
    cbn [cat]. rewrite run_Seq, run_Chr_cons. cbn [accepts].
    unfold is_brace in Hp. apply orb_false_iff in Hp. destruct Hp as [Hopen _].
    now rewrite Hopen.
  - cbn [render append cat]. rewrite accepts_no_brace.
    cbn [is_brace Ascii.eqb Bool.eqb orb negb].
    rewrite run_Seq, run_Chr_cons. cbn [accepts]. rewrite Ascii.eqb_refl.
    rewrite append_assoc, run_Seq.
    rewrite (run_star_exact (NoneOf ["{"; "}"]%char)).
    + cbn [append]. rewrite run_Chr_cons. cbn [accepts]. now rewrite Ascii.eqb_refl.
    + rewrite (all_ext _ _ _ accepts_no_brace). exact Hp.
    + reflexivity.
    + intros q u Heq Hu.
      pose proof (suffix_starts_inside _ _ _ _ Hp Heq Hu) as Hstart.
      destruct u as [| c u]; [contradiction |]. cbn in Hstart.
      cbn [append]. rewrite run_Chr_cons. cbn [accepts].
      unfold is_brace in Hstart. apply negb_true_iff, orb_false_iff in Hstart.
      destruct Hstart as [_ Hclose]. now rewrite Hclose.
Qed.

Lemma render_starts_open :
  forall p rest, well_formed p -> starts_with is_closing (render p ++ rest) = false.
Proof.
  intros [c | inner] rest Hp; cbn in Hp |- *; [| reflexivity].
  unfold is_brace in Hp. apply orb_false_iff in Hp. destruct Hp as [_ Hclose].
  exact Hclose.
Qed.

(** The body star finds no way through a block that opens another block. *)
Lemma star_pieces_none :
  forall body inner rest k fuel,
    Forall well_formed body ->
    all (fun c => negb (is_brace c)) inner = true ->
    (forall s, starts_with is_closing s = false -> k s = None) ->
    star_loop (run piece_pattern) k fuel
      (render_all body ++ String "{" (inner ++ String "{" rest))
    = None.
Proof.
  induction body as [| p body IH]; intros inner rest k fuel Hbody Hinner Hk.
  - cbn [render_all map String.concat append].
    destruct fuel as [| fuel]; [now apply Hk |].
    rewrite star_loop_S.
    assert (Hstep : forall cont,
               run piece_pattern (String "{" (inner ++ String "{" rest)) cont = None).
    { intros cont. unfold piece_pattern. cbn [run]. rewrite accepts_no_brace.
      cbn [is_brace Ascii.eqb Bool.eqb orb negb cat].
      rewrite run_Seq, run_Chr_cons. cbn [accepts]. rewrite Ascii.eqb_refl.
      rewrite run_Seq, (run_star_exact (NoneOf ["{"; "}"]%char)).
      - rewrite run_Chr_cons. reflexivity.
      - rewrite (all_ext _ _ _ accepts_no_brace). exact Hinner.
      - reflexivity.
      - intros q u Heq Hu.
        pose proof (suffix_starts_inside _ _ _ _ Hinner Heq Hu) as Hstart.
        destruct u as [| c u]; [contradiction |]. cbn in Hstart.
        cbn [append]. rewrite run_Chr_cons. cbn [accepts].
        unfold is_brace in Hstart. apply negb_true_iff, orb_false_iff in Hstart.
        destruct Hstart as [_ Hclose]. now rewrite Hclose. }
    rewrite Hstep. now apply Hk.
  - inversion Hbody as [| ? ? Hp Hrest]; subst.
    rewrite brace_render_all_cons, append_assoc.
    destruct fuel as [| fuel]; [apply Hk; now apply render_starts_open |].
    rewrite star_loop_S, run_piece_exact by assumption.
    assert (Hlt : (String.length (render_all body ++ String "{" (inner ++ String "{" rest))
                   <? String.length (render p ++ render_all body
                                     ++ String "{" (inner ++ String "{" rest)))%nat
                  = true).
    { apply Nat.ltb_lt. rewrite (length_append (render p)).
      pose proof (brace_render_length p). lia. }
    rewrite Hlt, IH by assumption.
    apply Hk. now apply render_starts_open.
Qed.

(** At such a declaration the pattern does not match. *)
Lemma match_nested_none :
  forall function_name parameters body inner rest,
    all (fun c => negb (is_space c)) function_name = true ->
    all (fun c => negb (is_opening c)) parameters = true ->
    Forall well_formed body ->
    all (fun c => negb (is_brace c)) inner = true ->
    match_ (Enhanced.function_pattern function_name)
      (BraceSource.nested function_name parameters body inner rest)
    = None.
Proof.
  intros function_name parameters body inner rest Hname Hparameters Hbody Hinner.
  unfold match_, BraceSource.nested, Enhanced.function_pattern. cbn [cat].
  change ("function " ++ ?x) with ("function" ++ (" " ++ x)).
  rewrite run_Seq, run_Str. cbv beta.
  change (" " ++ ?x) with (String " " ("" ++ x)).
  rewrite run_Seq. unfold Plus. rewrite run_Seq, run_Chr_cons.
  change (accepts Space " ") with true. cbv iota.
  rewrite (run_star_exact Space); [| reflexivity | | intros p u Heq Hu; now destruct p, u].
  2:{ destruct function_name as [| c name]; [reflexivity |].
      cbn in Hname |- *. apply andb_true_iff in Hname. destruct Hname as [Hc _].
      now apply negb_true_iff in Hc. }
  rewrite run_Seq, run_Str. cbv beta.
  change ("(" ++ ?x) with ("" ++ String "(" x).
  rewrite run_Seq, (run_star_exact Space);
    [| reflexivity | reflexivity | intros p u Heq Hu; now destruct p, u].
  rewrite run_Seq, run_Chr_cons. cbn [accepts]. rewrite Ascii.eqb_refl.
  rewrite run_Seq, (run_star_exact (NoneOf ["{"%char])).
  - change ("{" ++ ?x) with (String "{" x).
    rewrite run_Seq, run_Chr_cons. cbn [accepts]. rewrite Ascii.eqb_refl.
    rewrite run_Seq. unfold Enhanced.braces_body. fold piece_pattern. rewrite run_Star.
    change ("{" ++ inner ++ String "{" rest) with (String "{" (inner ++ String "{" rest)).
    apply star_pieces_none; try assumption.
    intros s Hs. destruct s as [| c s]; [reflexivity |].
    rewrite run_Chr_cons. cbn [accepts]. cbn in Hs. unfold is_closing in Hs. now rewrite Hs.
  - rewrite (all_ext _ _ _ accepts_no_opening). exact Hparameters.
  - reflexivity.
  - intros q u Heq Hu.
    pose proof (suffix_starts_inside _ _ _ _ Hparameters Heq Hu) as Hstart.
    destruct u as [| c u]; [contradiction |]. cbn in Hstart.
    cbn [append]. rewrite run_Seq, run_Chr_cons. cbn [accepts].
    unfold is_opening in Hstart. apply negb_true_iff in Hstart. now rewrite Hstart.
Qed.

End Nesting.

Section NestedSearch.

Import Re PyStr BraceSource.

Lemma search_nowhere :
  forall r front c text,
    (forall p u, front = p ++ u -> u <> "" -> match_ r (u ++ String c text) = None) ->
    match_ r (String c text) = None ->
    (forall p u, text = p ++ u -> match_ r u = None) ->
    search r (front ++ String c text) = None.
Proof.
  intros r front c text Hfar Hat Hnear.
  unfold search. rewrite search_from_skips by exact Hfar.
  rewrite search_from_cons, Hat.
  now apply search_from_none.
Qed.

Lemma alt_none :
  forall r1 r2 s, match_ r1 s = None -> match_ r2 s = None -> match_ (Alt r1 r2) s = None.
Proof. intros r1 r2 s H1 H2. unfold match_ in *. cbn [run]. now rewrite H1, H2. Qed.

Lemma nested_begins :
  forall function_name parameters body inner rest,
    BraceSource.nested function_name parameters body inner rest
    = String "f" (Enhanced.drop 1
                    (BraceSource.nested function_name parameters body inner rest)).
Proof. reflexivity. Qed.

End NestedSearch.

(** X17: a function whose body holds a block within a block is not found,
    in a Solidity file as in a JavaScript or TypeScript file: the pattern
    follows braces one level deep only.  When the file holds the text
    [function] at this declaration and nowhere else (and, in a script file,
    no [const]), the extraction ends in [NotFound] although the function is
    there. *)
Theorem doubly_nested_function_is_not_found :
  forall (filepath front function_name parameters : string)
         (body : list BraceSource.piece) (inner rest : string),
    let text := BraceSource.nested function_name parameters body inner rest in
    PyStr.endswith filepath ".sol" = true
    \/ (Enhanced.endswith_any filepath [".js"; ".jsx"; ".ts"; ".tsx"] = true
        /\ PyStr.contains "const" (front ++ text) = false) ->
    PyStr.contains "function" front = false ->
    PyStr.contains "function" (Enhanced.drop 1 text) = false ->
    PyStr.all (fun c => negb (PyStr.is_space c)) function_name = true ->
    PyStr.all (fun c => negb (BraceSource.is_opening c)) parameters = true ->
    Forall BraceSource.well_formed body ->
    PyStr.all (fun c => negb (BraceSource.is_brace c)) inner = true ->
    Enhanced.extract_function filepath (front ++ text) function_name = Enhanced.NotFound.
Proof.
  intros filepath front function_name parameters body inner rest text Hkind Hfront Htail
         Hname Hparameters Hbody Hinner.
  pose proof (match_nested_none function_name parameters body inner rest Hname Hparameters
                Hbody Hinner) as Hat.
  fold text in Hat.
  assert (Hfar : forall p u, front = p ++ u -> u <> "" ->
                             prefix "function" (u ++ text) = false).
  { intros p u Heq Hu. unfold text. rewrite nested_begins.
    apply (keyword_not_across "f" "unction" u "f"); [reflexivity | exact Hu |].
    rewrite Heq in Hfront. now apply contains_suffix in Hfront. }
  assert (Hnear : forall p u, Enhanced.drop 1 text = p ++ u -> prefix "function" u = false).
  { intros p u Heq. apply contains_not_prefix.
    rewrite Heq in Htail. now apply contains_suffix in Htail. }
  unfold Enhanced.extract_function.
  destruct Hkind as [Hsol | [Hjs Hconst]].
  - rewrite Hsol. unfold text in *. rewrite nested_begins.
    rewrite search_nowhere; [reflexivity | | |].
    + intros p u Heq Hu. apply function_pattern_needs_keyword.
      rewrite <- nested_begins. now apply (Hfar p u).
    + rewrite <- nested_begins. exact Hat.
    + intros p u Heq. apply function_pattern_needs_keyword. now apply (Hnear p u).
  - rewrite (script_is_no_contract filepath Hjs), Hjs.
    assert (Hc : forall p u, front ++ text = p ++ u -> prefix "const" u = false).
    { intros p u Heq. apply contains_not_prefix.
      rewrite Heq in Hconst. now apply contains_suffix in Hconst. }
    unfold text in *. rewrite nested_begins.
    rewrite search_nowhere; [reflexivity | | |].
    + intros p u Heq Hu. rewrite <- nested_begins. apply alt_none.
      * apply function_pattern_needs_keyword. now apply (Hfar p u).
      * apply arrow_pattern_needs_keyword. apply (Hc p). rewrite Heq.
        now rewrite append_assoc.
    + rewrite <- nested_begins. apply alt_none; [exact Hat |].
      apply arrow_pattern_needs_keyword. now apply (Hc front).
    + intros p u Heq. apply alt_none.
      * apply function_pattern_needs_keyword. now apply (Hnear p u).
      * apply arrow_pattern_needs_keyword. apply (Hc (front ++ String "f" p)).
        rewrite nested_begins, Heq. rewrite append_assoc. reflexivity.
Qed.

Lemma doubly_nested_function_is_not_found_witness :
  Enhanced.extract_function "contracts/Token.sol"
    (("contract Token {" ++ PyStr.nl ++ "  ")
     ++ BraceSource.nested "buy" ") external " (BraceSource.plain " if (open) ")
          " if (paid) " (" ship(); } } }" ++ PyStr.nl ++ "}"))
    "buy"
  = Enhanced.NotFound.
Proof.
  apply (doubly_nested_function_is_not_found "contracts/Token.sol"
           ("contract Token {" ++ PyStr.nl ++ "  ") "buy" ") external "
           (BraceSource.plain " if (open) ") " if (paid) "
           (" ship(); } } }" ++ PyStr.nl ++ "}"));
    try reflexivity.
  - left. reflexivity.
  - repeat constructor.
Defined.

(** ** Discovery *)

Section Order.

Import Enhanced DiscoverySpec.

Variable exclude_patterns : list Re.regex.

Lemma keep_files_filter :
  forall root files,
    keep_files exclude_patterns root files
    = map e_path
        (filter (eligible exclude_patterns)
           (map (fun file => {| e_dirs := []; e_file := file;
                                e_path := path_join root file |}) files)).
Proof.
  intros root files. induction files as [| file files IH]; [reflexivity |].
  cbn [keep_files map filter]. unfold eligible at 1. cbn [e_file e_path e_dirs forallb].
  rewrite andb_true_r.
  destruct (path_excluded exclude_patterns (path_join root file)).
  - rewrite andb_false_r. exact IH.
  - rewrite andb_true_r. destruct (endswith_any file allowed_extensions).
    + cbn [map e_path]. now rewrite IH.
    + exact IH.
Qed.

Lemma eligible_below :
  forall d e,
    eligible exclude_patterns (below d e)
    = negb (dir_excluded exclude_patterns d) && eligible exclude_patterns e.
Proof.
  intros d e. unfold eligible, below. cbn [e_file e_path e_dirs forallb].
  destruct (endswith_any _ _), (path_excluded _ _), (dir_excluded _ _), (forallb _ _);
    reflexivity.
Qed.

Lemma filter_below :
  forall d entries,
    map e_path (filter (eligible exclude_patterns) (map (below d) entries))
    = if dir_excluded exclude_patterns d then []
      else map e_path (filter (eligible exclude_patterns) entries).
Proof.
  intros d entries. induction entries as [| e entries IH].
  - now destruct (dir_excluded exclude_patterns d).
  - cbn [map filter]. rewrite eligible_below.
    destruct (dir_excluded exclude_patterns d); cbn [negb andb]; [exact IH |].
    destruct (eligible exclude_patterns e); cbn [map]; now rewrite IH.
Qed.

Lemma filter_flat_map :
  forall (A B : Type) (p : B -> bool) (f : A -> list B) (l : list A),
    filter p (flat_map f l) = flat_map (fun x => filter p (f x)) l.
Proof.
  intros A B p f l. induction l as [| x l IH]; [reflexivity |].
  cbn [flat_map]. now rewrite filter_app, IH.
Qed.

Lemma map_flat_map :
  forall (A B C : Type) (g : B -> C) (f : A -> list B) (l : list A),
    map g (flat_map f l) = flat_map (fun x => map g (f x)) l.
Proof.
  intros A B C g f l. induction l as [| x l IH]; [reflexivity |].
  cbn [flat_map]. now rewrite map_app, IH.
Qed.

Lemma flat_map_ext_in :
  forall (A B : Type) (f g : A -> list B) (l : list A),
    (forall x, In x l -> f x = g x) -> flat_map f l = flat_map g l.
Proof.
  intros A B f g l H. induction l as [| x l IH]; [reflexivity |].
  cbn [flat_map]. rewrite (H x) by now left.
  rewrite IH; [reflexivity |]. intros y Hy. apply H. now right.
Qed.

(** The walk is the list of all files of the tree, filtered. *)
Lemma walk_filter :
  forall t root,
    walk exclude_patterns root t
    = map e_path (filter (eligible exclude_patterns) (tree_files root t)).
Proof.
  intro t. induction t as [files dirs IH] using tree_rect_dirs. intros root.
  cbn [walk tree_files]. rewrite filter_app, map_app, keep_files_filter. f_equal.
  rewrite filter_flat_map, map_flat_map.
  apply flat_map_ext_in. intros d Hd.
  rewrite filter_below.
  destruct (dir_excluded exclude_patterns (fst d)); [reflexivity |].
  now apply IH.
Qed.

End Order.

(** X18: discovery lists the files in the order of the walk: the result is
    the list of all files of the tree, a directory's own files before those
    of its sub-directories, from which the files that are not kept have been
    removed; nothing is reordered and nothing is added. *)
Theorem discovery_keeps_the_order_of_the_walk :
  forall (directory_path : string) (exclude_patterns : list Re.regex) (t : Enhanced.tree),
    Enhanced.discover directory_path exclude_patterns t
    = map Enhanced.e_path
        (filter (DiscoverySpec.eligible (Enhanced.effective_patterns exclude_patterns))
           (Enhanced.tree_files directory_path t))
    /\ List.length (Enhanced.discover directory_path exclude_patterns t)
       <= List.length (Enhanced.tree_files directory_path t).
Proof.
  intros directory_path exclude_patterns t. unfold Enhanced.discover.
  rewrite walk_filter. split; [reflexivity |].
  rewrite length_map. apply filter_length_le.
Qed.

Section Literals.

Import Re Enhanced DiscoverySpec.

Lemma matches_literal :
  forall literal s, matches (Str literal) s = prefix literal s.
Proof.
  intros literal s. unfold matches, match_.
  destruct (prefix literal s) eqn:Hp.
  - apply prefix_split in Hp. destruct Hp as [q ->]. now rewrite run_Str.
  - destruct (run (Str literal) s Some) eqn:Hrun; [| reflexivity].
    apply run_Str_prefix in Hrun. congruence.
Qed.

Lemma search_from_found :
  forall r s before before',
    match search_from r before s with Some _ => true | None => false end
    = match search_from r before' s with Some _ => true | None => false end.
Proof.
  intros r. induction s as [| c s IH]; intros before before'.
  - cbn [search_from]. now destruct (match_ r "").
  - rewrite !search_from_cons. destruct (match_ r (String c s)); [reflexivity |].
    apply IH.
Qed.

Lemma found_literal :
  forall literal s, found (Str literal) s = PyStr.contains literal s.
Proof.
  intros literal. unfold found, search. induction s as [| c s IH].
  - cbn [search_from PyStr.contains].
    pose proof (matches_literal literal "") as Hm. unfold matches in Hm.
    destruct (match_ (Str literal) ""); rewrite <- Hm; reflexivity.
  - rewrite search_from_cons. cbn [PyStr.contains].
    pose proof (matches_literal literal (String c s)) as Hm. unfold matches in Hm.
    destruct (match_ (Str literal) (String c s)); rewrite <- Hm; [reflexivity |].
    rewrite (search_from_found _ _ _ ""). exact IH.
Qed.

Lemma dir_excluded_literals :
  forall literals d,
    dir_excluded (map Str literals) d = existsb (fun literal => prefix literal d) literals.
Proof.
  intros literals d. unfold dir_excluded. induction literals as [| l literals IH];
    [reflexivity |].
  cbn [map existsb]. now rewrite matches_literal, IH.
Qed.

Lemma path_excluded_literals :
  forall literals filepath,
    path_excluded (map Str literals) filepath
    = existsb (fun literal => PyStr.contains literal filepath) literals.
Proof.
  intros literals filepath. unfold path_excluded.
  induction literals as [| l literals IH]; [reflexivity |].
  cbn [map existsb]. now rewrite found_literal, IH.
Qed.

Lemma path_excluded_in :
  forall exclude_patterns literal filepath,
    In (Str literal) exclude_patterns ->
    PyStr.contains literal filepath = true ->
    path_excluded exclude_patterns filepath = true.
Proof.
  intros exclude_patterns literal filepath Hin Hc. unfold path_excluded.
  apply existsb_exists. exists (Str literal). split; [exact Hin |].
  now rewrite found_literal.
Qed.

(** A path built below [root] holds what [root] holds. *)
Lemma contains_path_join :
  forall literal root name,
    prefix "/" name = false ->
    PyStr.contains literal root = true ->
    PyStr.contains literal (path_join root name) = true.
Proof.
  intros literal root name Hname Hroot. unfold path_join. rewrite Hname.
  destruct (String.eqb root "" || PyStr.endswith root "/").
  - apply (contains_append literal "" root name Hroot).
  - apply (contains_append literal "" root ("/" ++ name) Hroot).
Qed.

Lemma keep_files_excluded :
  forall exclude_patterns literal root files,
    In (Str literal) exclude_patterns ->
    PyStr.contains literal root = true ->
    forallb (fun file => negb (prefix "/" file)) files = true ->
    keep_files exclude_patterns root files = [].
Proof.
  intros exclude_patterns literal root files Hin Hroot.
  induction files as [| file files IH]; intros Hfiles; [reflexivity |].
  cbn [forallb] in Hfiles. apply andb_true_iff in Hfiles. destruct Hfiles as [Hfile Hfiles].
  apply negb_true_iff in Hfile.
  cbn [keep_files].
  rewrite (path_excluded_in exclude_patterns literal); [now apply IH | exact Hin |].
  now apply contains_path_join.
Qed.

Lemma flat_map_nil :
  forall (A B : Type) (f : A -> list B) (l : list A),
    (forall x, In x l -> f x = []) -> flat_map f l = [].
Proof.
  intros A B f l H. induction l as [| x l IH]; [reflexivity |].
  cbn [flat_map]. rewrite (H x) by now left.
  apply IH. intros y Hy. apply H. now right.
Qed.

Lemma walk_excluded :
  forall exclude_patterns literal t root,
    In (Str literal) exclude_patterns ->
    PyStr.contains literal root = true ->
    relative t = true ->
    walk exclude_patterns root t = [].
Proof.
  intros exclude_patterns literal t.
  induction t as [files dirs IH] using tree_rect_dirs.
  intros root Hin Hroot Hrel.
  cbn [relative] in Hrel. apply andb_true_iff in Hrel. destruct Hrel as [Hfiles Hdirs].
  cbn [walk]. rewrite (keep_files_excluded _ literal) by assumption. cbn [app].
  apply flat_map_nil. intros d Hd.
  destruct (dir_excluded exclude_patterns (fst d)); [reflexivity |].
  rewrite forallb_forall in Hdirs. specialize (Hdirs d Hd).
  apply andb_true_iff in Hdirs. destruct Hdirs as [Hname Hsub].
  apply negb_true_iff in Hname.
  apply (IH d Hd); [exact Hin | | exact Hsub].
  now apply contains_path_join.
Qed.

End Literals.

(** X19: an exclusion pattern that is a plain name is looked for in the
    whole path of a file, the root directory included: when the path of the
    project directory itself holds such a name (a project kept under a
    directory [dist], say, with the default patterns), no file at all is
    discovered. *)
Theorem excluded_root_discovers_nothing :
  forall (directory_path : string) (exclude_patterns : list Re.regex) (t : Enhanced.tree)
         (literal : string),
    In (Re.Str literal) (Enhanced.effective_patterns exclude_patterns) ->
    PyStr.contains literal directory_path = true ->
    DiscoverySpec.relative t = true ->
    Enhanced.discover directory_path exclude_patterns t = [].
Proof.
  intros directory_path exclude_patterns t literal Hin Hroot Hrel.
  unfold Enhanced.discover. now apply (walk_excluded _ literal).
Qed.

Lemma excluded_root_discovers_nothing_witness :
  Enhanced.discover "/home/dev/dist/shop" []
    (Enhanced.Node ["index.js"; "style.css"] [("src", Enhanced.Node ["cart.ts"] [])])
  = [].
Proof.
  apply (excluded_root_discovers_nothing _ _ _ "dist").
  - cbn. right. left. reflexivity.
  - reflexivity.
  - reflexivity.
Defined.

(** X20: exclusion patterns that are plain names work on texts, not on path
    components: a directory is pruned when its name begins with one of the
    names, and a file is dropped when its path holds one of them anywhere.
    With the name [dist] a directory [distribution] is pruned and a file
    [redistribute.js] is dropped. *)
Theorem plain_patterns_exclude_by_text :
  forall (literals : list string) (d filepath : string),
    Enhanced.dir_excluded (map Re.Str literals) d
    = existsb (fun literal => prefix literal d) literals
    /\ Enhanced.path_excluded (map Re.Str literals) filepath
       = existsb (fun literal => PyStr.contains literal filepath) literals.
Proof.
  intros literals d filepath. split.
  - apply dir_excluded_literals.
  - apply path_excluded_literals.
Qed.

Section DotGit.

Import Re Enhanced.

Lemma dot_git_found :
  forall a c b,
    c <> PyStr.newline ->
    found (Seq (Chr Dot) (Str "git")) (a ++ String c ("git" ++ b)) = true.
Proof.
  intros a c b Hc. unfold found, search.
  assert (Hm : forall before,
             match search_from (Seq (Chr Dot) (Str "git")) before (String c ("git" ++ b))
             with Some _ => true | None => false end = true).
  { intros before. rewrite search_from_cons. unfold match_.
    rewrite run_Seq, run_Chr_cons. cbn [accepts].
    destruct (Ascii.eqb_spec c PyStr.newline); [contradiction |]. cbn [negb].
    now rewrite run_Str. }
  assert (Hall : forall before,
             match search_from (Seq (Chr Dot) (Str "git")) before
                     (a ++ String c ("git" ++ b))
             with Some _ => true | None => false end = true).
  { induction a as [| x a IH]; intros before; [apply Hm |].
    cbn [append]. rewrite search_from_cons.
    destruct (match_ _ (String x _)); [reflexivity | apply IH]. }
  apply Hall.
Qed.

End DotGit.

(** X21: the default pattern [.git] is read as a pattern, its dot standing
    for any character but a newline: under the default patterns no file is
    discovered whose path holds [git] after some character, such as
    [src/digit.py] or [legit.js], although it lies in no [.git]
    directory. *)
Theorem default_patterns_drop_paths_holding_git :
  forall (directory_path : string) (t : Enhanced.tree) (a : string) (c : ascii) (b : string),
    c <> PyStr.newline ->
    Enhanced.path_excluded Enhanced.default_exclude_patterns (a ++ String c ("git" ++ b))
    = true
    /\ ~ In (a ++ String c ("git" ++ b)) (Enhanced.discover directory_path [] t).
Proof.
  intros directory_path t a c b Hc.
  assert (Hex : Enhanced.path_excluded Enhanced.default_exclude_patterns
                  (a ++ String c ("git" ++ b)) = true).
  { unfold Enhanced.path_excluded, Enhanced.default_exclude_patterns. cbn [existsb].
    rewrite (dot_git_found a c b Hc). now rewrite !orb_true_r. }
  split; [exact Hex |].
  intros Hin. unfold Enhanced.discover in Hin. apply walk_spec in Hin.
  destruct Hin as [e [_ [_ [_ [Hfree _]]]]].
  cbn [Enhanced.effective_patterns] in Hfree. congruence.
Qed.

Lemma default_patterns_drop_paths_holding_git_witness :
  Enhanced.path_excluded Enhanced.default_exclude_patterns
    ("proj/src/d" ++ String "i" ("git" ++ ".py")) = true
  /\ ~ In ("proj/src/d" ++ String "i" ("git" ++ ".py"))
          (Enhanced.discover "proj" []
             (Enhanced.Node [] [("src", Enhanced.Node ["digit.py"; "main.py"] [])])).
Proof.
  apply default_patterns_drop_paths_holding_git. discriminate.
Defined.

(** ** The consolidated report and the command line *)

Section Joining.

Import PyStr.

Lemma join_cons :
  forall sep a l, l <> [] -> join sep (a :: l) = a ++ sep ++ join sep l.
Proof. intros sep a [| b l] H; [contradiction | reflexivity]. Qed.

Lemma join_cons_head :
  forall sep c l, l <> [] -> join sep (cons_head c l) = String c (join sep l).
Proof.
  intros sep c [| h t] H; [contradiction |].
  cbn [cons_head]. unfold join. cbn [String.concat]. now destruct t.
Qed.

(** Joining the pieces of a split with the separator gives the text
    back. *)
Lemma join_split_from :
  forall sep n s,
    sep <> "" -> String.length s <= n -> join sep (split_from sep 0 s) = s.
Proof.
  intros sep n. induction n as [| n IH]; intros s Hsep Hlen.
  - destruct s; [reflexivity | cbn in Hlen; lia].
  - destruct s as [| a s]; [reflexivity |].
    destruct (prefix sep (String a s)) eqn:Hp.
    + apply prefix_split in Hp. destruct Hp as [q Hq].
      destruct sep as [| c sep]; [contradiction |].
      rewrite Hq, split_sep.
      rewrite join_cons by apply split_from_not_nil.
      cbn [append]. f_equal. f_equal. apply IH; [discriminate |].
      rewrite Hq in Hlen. cbn [append String.length] in Hlen.
      rewrite length_append in Hlen. lia.
    + cbn [split_from]. rewrite Hp.
      rewrite join_cons_head by apply split_from_not_nil.
      f_equal. apply IH; [exact Hsep | cbn in Hlen; lia].
Qed.

Lemma join_split :
  forall sep s, sep <> "" -> join sep (split sep s) = s.
Proof. intros sep s Hsep. now apply (join_split_from sep (String.length s)). Qed.

Lemma lines_single :
  forall a, all (fun c => negb (Ascii.eqb c newline)) a = true -> lines a = [a].
Proof.
  intros a Ha. unfold lines, split.
  rewrite <- (append_empty a) at 1.
  rewrite split_clear by (now apply clear_of_without).
  cbn. now rewrite append_empty.
Qed.

End Joining.

Section Concatenation.

Lemma concat_empty_cons :
  forall a l, String.concat "" (a :: l) = a ++ String.concat "" l.
Proof.
  intros a [| b l]; cbn [String.concat]; [now rewrite append_empty | reflexivity].
Qed.

Lemma concat_empty_app :
  forall l1 l2,
    String.concat "" (l1 ++ l2)%list = String.concat "" l1 ++ String.concat "" l2.
Proof.
  induction l1 as [| a l1 IH]; intros l2; [reflexivity |].
  rewrite <- app_comm_cons, !concat_empty_cons, IH. now rewrite append_assoc.
Qed.

Lemma without_title_rest :
  forall first second rest,
    PyStr.all (fun c => negb (Ascii.eqb c PyStr.newline)) first = true ->
    PyStr.all (fun c => negb (Ascii.eqb c PyStr.newline)) second = true ->
    Consolidated.without_title (first ++ PyStr.nl ++ second ++ PyStr.nl ++ rest) = rest.
Proof.
  intros first second rest Hfirst Hsecond. unfold Consolidated.without_title.
  rewrite !lines_cons by assumption. cbn [skipn].
  apply join_split. discriminate.
Qed.

End Concatenation.

(** X22: the consolidated report carries each report from its third line
    on, character for character, under a heading with the name of the
    report file: the first two lines (for a report written by [save_report],
    the title and the empty line after it) are dropped and nothing else is
    changed.  Of a report of one or two lines only the heading is left. *)
Theorem consolidated_report_drops_two_lines :
  forall (generated : string) (reports : list (string * string))
         (report_file first second rest : string),
    PyStr.all (fun c => negb (Ascii.eqb c PyStr.newline)) first = true ->
    PyStr.all (fun c => negb (Ascii.eqb c PyStr.newline)) second = true ->
    (In (report_file, first ++ PyStr.nl ++ second ++ PyStr.nl ++ rest) reports ->
     exists before after,
       Consolidated.consolidated_report generated reports
       = before ++ PyStr.nl ++ "## " ++ Consolidated.report_name report_file
         ++ PyStr.nl ++ PyStr.nl ++ rest ++ PyStr.nl ++ PyStr.nl ++ after)
    /\ Consolidated.without_title (first ++ PyStr.nl ++ second) = ""
    /\ Consolidated.without_title first = "".
Proof.
  intros generated reports report_file first second rest Hfirst Hsecond.
  split; [| split].
  - intros Hin. apply in_split in Hin. destruct Hin as [l1 [l2 ->]].
    unfold Consolidated.consolidated_report.
    rewrite (map_app (fun r => Consolidated.full_report (fst r) (snd r))).
    cbn [map fst snd]. rewrite concat_empty_app, concat_empty_cons.
    unfold Consolidated.full_report at 2.
    rewrite (without_title_rest first second rest Hfirst Hsecond).
    exists (Consolidated.front_matter generated
              (l1 ++ (report_file,
                      (first ++ PyStr.nl ++ second ++ PyStr.nl ++ rest)%string) :: l2)%list
            ++ String.concat "" (map (fun r => Consolidated.full_report (fst r) (snd r)) l1)),
           (String.concat "" (map (fun r => Consolidated.full_report (fst r) (snd r)) l2)).
    repeat rewrite append_assoc. reflexivity.
  - unfold Consolidated.without_title.
    rewrite lines_cons by assumption. rewrite (lines_single second Hsecond). reflexivity.
  - unfold Consolidated.without_title. rewrite (lines_single first Hfirst). reflexivity.
Qed.

Lemma consolidated_report_drops_two_lines_witness :
  let report :=
    "# O3 Analysis Report: dove_token" ++ PyStr.nl ++ "" ++ PyStr.nl
    ++ "*Generated on: 2025-01-01 00:00:00*" ++ PyStr.nl ++ PyStr.nl ++ "## Summary" in
  let reports := [("analysis_reports/dove_token.md", report)] in
  (In ("analysis_reports/dove_token.md", report) reports ->
   exists before after,
     Consolidated.consolidated_report "2025-01-01 00:00:01" reports
     = before ++ PyStr.nl ++ "## " ++ Consolidated.report_name "analysis_reports/dove_token.md"
       ++ PyStr.nl ++ PyStr.nl
       ++ ("*Generated on: 2025-01-01 00:00:00*" ++ PyStr.nl ++ PyStr.nl ++ "## Summary")
       ++ PyStr.nl ++ PyStr.nl ++ after)
  /\ Consolidated.without_title ("# O3 Analysis Report: dove_token" ++ PyStr.nl ++ "") = ""
  /\ Consolidated.without_title "# O3 Analysis Report: dove_token" = "".
Proof.
  intros report reports.
  apply (consolidated_report_drops_two_lines "2025-01-01 00:00:01" reports
           "analysis_reports/dove_token.md" "# O3 Analysis Report: dove_token" "");
    reflexivity.
Defined.

Section Anchors.

Import PyStr.

Lemma lower_char_not_upper : forall c, is_upper (lower_char c) = false.
Proof. intros c. destruct c as [[] [] [] [] [] [] [] []]; vm_compute; reflexivity. Qed.

Lemma lower_not_upper :
  forall s, all (fun c => negb (is_upper c)) (lower s) = true.
Proof.
  induction s as [| c s IH]; [reflexivity |].
  cbn [lower all]. now rewrite lower_char_not_upper, IH.
Qed.

(** The pieces of a split at a character do not hold the character. *)
Lemma split_char_pieces :
  forall c s,
    Forall (fun piece => all (fun a => negb (Ascii.eqb a c)) piece = true)
      (split (String c "") s).
Proof.
  intros c. unfold split. induction s as [| a s IH]; [repeat constructor |].
  cbn [split_from prefix].
  destruct (ascii_dec c a) as [<- | Hne].
  - destruct s; cbn [prefix]; cbn [String.length Nat.sub]; (constructor; [reflexivity | exact IH]).
  - apply all_cons_head; [| exact IH].
    apply negb_true_iff. apply Ascii.eqb_neq. congruence.
Qed.

Lemma replace_char_removes :
  forall c new s,
    all (fun a => negb (Ascii.eqb a c)) new = true ->
    all (fun a => negb (Ascii.eqb a c)) (replace (String c "") new s) = true.
Proof.
  intros c new s Hnew. unfold replace. apply all_join; [exact Hnew |].
  apply split_char_pieces.
Qed.

End Anchors.

(** X23: the anchor of an entry of the table of contents never holds an
    upper-case ASCII letter, a space or an underscore, whatever the name of
    the report file is. *)
Theorem contents_anchor_is_normalised :
  forall report_name : string,
    PyStr.all Consolidated.anchor_char (Consolidated.anchor report_name) = true.
Proof.
  intros report_name. unfold Consolidated.anchor.
  assert (Hupper : PyStr.all (fun c => negb (PyStr.is_upper c))
                     (PyStr.replace "_" "-"
                        (PyStr.replace " " "-" (PyStr.lower report_name))) = true).
  { apply all_replace; [reflexivity |]. apply all_replace; [reflexivity |].
    apply lower_not_upper. }
  assert (Hspace : PyStr.all (fun c => negb (Ascii.eqb c " "))
                     (PyStr.replace "_" "-"
                        (PyStr.replace " " "-" (PyStr.lower report_name))) = true).
  { apply all_replace; [reflexivity |]. now apply replace_char_removes. }
  assert (Hunder : PyStr.all (fun c => negb (Ascii.eqb c "_"))
                     (PyStr.replace "_" "-"
                        (PyStr.replace " " "-" (PyStr.lower report_name))) = true)
    by now apply replace_char_removes.
  revert Hupper Hspace Hunder.
  generalize (PyStr.replace "_" "-" (PyStr.replace " " "-" (PyStr.lower report_name))).
  induction s as [| c s IH]; [reflexivity |].
  cbn [PyStr.all]. intros Hu Hs Hn.
  apply andb_true_iff in Hu, Hs, Hn.
  destruct Hu as [Hu Hu'], Hs as [Hs Hs'], Hn as [Hn Hn'].
  unfold Consolidated.anchor_char at 1. now rewrite Hu, Hs, Hn, IH.
Qed.

Section Stripping.

Import PyStr.

Lemma rstrip_cons :
  forall c s,
    rstrip (String c s)
    = match rstrip s with
      | EmptyString => if is_space c then EmptyString else String c EmptyString
      | r => String c r
      end.
Proof. reflexivity. Qed.

Lemma rstrip_idempotent : forall s, rstrip (rstrip s) = rstrip s.
Proof.
  induction s as [| c s IH]; [reflexivity |].
  rewrite rstrip_cons. destruct (rstrip s) as [| d r] eqn:Hr.
  - destruct (is_space c) eqn:Hc; [reflexivity |].
    rewrite rstrip_cons. cbn [rstrip]. now rewrite Hc.
  - rewrite rstrip_cons, IH. reflexivity.
Qed.

Lemma lstrip_starts : forall s, starts_with is_space (lstrip s) = false.
Proof.
  induction s as [| c s IH]; [reflexivity |].
  cbn [lstrip]. destruct (is_space c) eqn:Hc; [exact IH | exact Hc].
Qed.

Lemma rstrip_starts :
  forall s, starts_with is_space s = false -> starts_with is_space (rstrip s) = false.
Proof.
  intros [| c s] H; [reflexivity |].
  cbn in H. rewrite rstrip_cons. destruct (rstrip s); [| exact H].
  now rewrite H.
Qed.

Lemma lstrip_fixed :
  forall s, starts_with is_space s = false -> lstrip s = s.
Proof. intros [| c s] H; [reflexivity |]. cbn in H |- *. now rewrite H. Qed.

Lemma strip_idempotent : forall s, strip (strip s) = strip s.
Proof.
  intros s. unfold strip.
  rewrite (lstrip_fixed (rstrip (lstrip s))) by apply rstrip_starts, lstrip_starts.
  apply rstrip_idempotent.
Qed.

Lemma all_lstrip :
  forall p s, all p s = true -> all p (lstrip s) = true.
Proof.
  intros p. induction s as [| c s IH]; intros H; [reflexivity |].
  cbn [lstrip]. destruct (is_space c); [| exact H].
  cbn in H. apply andb_true_iff in H. now apply IH.
Qed.

Lemma all_rstrip :
  forall p s, all p s = true -> all p (rstrip s) = true.
Proof.
  intros p. induction s as [| c s IH]; intros H; [reflexivity |].
  cbn in H. apply andb_true_iff in H. destruct H as [Hc Hs].
  rewrite rstrip_cons. specialize (IH Hs). destruct (rstrip s) as [| d r].
  - destruct (is_space c); [reflexivity |]. cbn. now rewrite Hc.
  - change (all p (String c (String d r))) with (p c && all p (String d r)).
    now rewrite Hc, IH.
Qed.

Lemma all_strip :
  forall p s, all p s = true -> all p (strip s) = true.
Proof. intros p s H. unfold strip. now apply all_rstrip, all_lstrip. Qed.

(** A split at one character has one piece more than the text has
    occurrences of the character. *)
Lemma split_char_length :
  forall c s,
    List.length (split (String c "") s) = S (count_char c s).
Proof.
  intros c. unfold split. induction s as [| a s IH]; [reflexivity |].
  cbn [split_from prefix count_char].
  destruct (ascii_dec c a) as [<- | Hne].
  - rewrite Ascii.eqb_refl.
    destruct s; cbn [prefix String.length Nat.sub List.length]; now rewrite IH.
  - assert (Ha : Ascii.eqb a c = false) by (apply Ascii.eqb_neq; congruence).
    rewrite Ha. cbn [Nat.add].
    pose proof (split_from_not_nil (String c "") s 0) as Hnil.
    destruct (split_from (String c "") 0 s); [contradiction |]. exact IH.
Qed.

End Stripping.

Section BatchFile.

Import PyStr.

Lemma batch_list_entries :
  forall content,
    Forall (fun path =>
              path <> ""
              /\ strip path = path
              /\ all (fun c => negb (Ascii.eqb c newline)) path = true)
      (Cli.batch_list content).
Proof.
  intros content. unfold Cli.batch_list. apply Forall_forall. intros path Hin.
  apply filter_In in Hin. destruct Hin as [Hin Hnonempty].
  apply in_map_iff in Hin. destruct Hin as [line [<- Hline]].
  split; [| split].
  - intros Heq. rewrite Heq in Hnonempty. discriminate Hnonempty.
  - apply strip_idempotent.
  - apply all_strip.
    pose proof (split_char_pieces newline content) as Hpieces.
    rewrite Forall_forall in Hpieces. now apply Hpieces.
Qed.

End BatchFile.

Section Pieces.

Import PyStr Cli.

Lemma split_char_single :
  forall c a,
    all (fun x => negb (Ascii.eqb x c)) a = true -> split (String c "") a = [a].
Proof.
  intros c a Ha. unfold split.
  rewrite <- (append_empty a) at 1.
  rewrite split_clear by (now apply clear_of_without).
  cbn. now rewrite append_empty.
Qed.

Lemma split_char_cons :
  forall c a b,
    all (fun x => negb (Ascii.eqb x c)) a = true ->
    split (String c "") (a ++ String c "" ++ b) = a :: split (String c "") b.
Proof.
  intros c a b Ha. unfold split.
  rewrite (split_clear (String c "") a _ (clear_of_without c "" a Ha)).
  rewrite split_sep. cbn [prepend]. now rewrite append_empty.
Qed.

(** Splitting at the separator the pieces that were joined with it gives
    the pieces back. *)
Lemma split_join_char :
  forall c l,
    l <> [] ->
    Forall (fun a => all (fun x => negb (Ascii.eqb x c)) a = true) l ->
    split (String c "") (join (String c "") l) = l.
Proof.
  intros c. induction l as [| a l IH]; intros Hl Hall; [contradiction |].
  inversion Hall as [| ? ? Ha Hrest]; subst.
  destruct l as [| b l].
  - cbn. now apply split_char_single.
  - rewrite join_cons by discriminate. rewrite split_char_cons by exact Ha.
    f_equal. apply IH; [discriminate | exact Hrest].
Qed.

Lemma lstrip_blank : forall s, all is_space s = true -> lstrip s = "".
Proof.
  induction s as [| c s IH]; intro H; [reflexivity |].
  cbn [all] in H. apply andb_true_iff in H. destruct H as [Hc Hs].
  cbn [lstrip]. rewrite Hc. now apply IH.
Qed.

Lemma rstrip_blank : forall s, all is_space s = true -> rstrip s = "".
Proof.
  induction s as [| c s IH]; intro H; [reflexivity |].
  cbn [all] in H. apply andb_true_iff in H. destruct H as [Hc Hs].
  rewrite rstrip_cons, (IH Hs), Hc. reflexivity.
Qed.

Lemma rstrip_trail :
  forall s ws,
    s <> "" ->
    match PySource.last_char s with
    | Some c => negb (is_space c)
    | None => true
    end = true ->
    all is_space ws = true ->
    rstrip (s ++ ws) = s.
Proof.
  induction s as [| a s IH]; intros ws Hs Hlast Hws; [contradiction |].
  destruct s as [| b s].
  - cbn [append]. rewrite rstrip_cons, (rstrip_blank ws Hws).
    cbn [PySource.last_char] in Hlast. apply negb_true_iff in Hlast. now rewrite Hlast.
  - change (String a (String b s) ++ ws) with (String a (String b s ++ ws)).
    rewrite rstrip_cons. rewrite (IH ws); [reflexivity | discriminate | exact Hlast | exact Hws].
Qed.

(** Stripping a piece leaves its entry. *)
Lemma strip_written :
  forall sep p, well_padded sep p -> strip (as_written p) = entry p.
Proof.
  intros sep [l e t] [Hl [Ht [He _]]]. cbn [lead trail entry] in *.
  unfold as_written, strip. cbn [lead trail entry].
  unfold trimmed in He. apply andb_true_iff in He. destruct He as [Hstart Hlast].
  destruct e as [| c e].
  - cbn [append]. rewrite lstrip_blank; [reflexivity |].
    rewrite all_append. now rewrite Hl, Ht.
  - rewrite lstrip_spaces; [| exact Hl | now apply negb_true_iff in Hstart].
    apply rstrip_trail; [discriminate | exact Hlast | exact Ht].
Qed.

Lemma written_pieces :
  forall sep pieces,
    Forall (well_padded sep) pieces ->
    Forall (fun a => all (fun x => negb (Ascii.eqb x sep)) a = true)
      (map as_written pieces)
    /\ map strip (map as_written pieces) = map entry pieces.
Proof.
  intros sep pieces H. induction H as [| p pieces Hp _ [IH1 IH2]].
  - split; [constructor | reflexivity].
  - cbn [map]. split.
    + constructor; [now destruct Hp as [_ [_ [_ Hp]]] | exact IH1].
    + now rewrite (strip_written sep p Hp), IH2.
Qed.

(** Reading a list written with the separator gives the entries. *)
Lemma read_written_list :
  forall sep pieces,
    pieces <> [] ->
    Forall (well_padded sep) pieces ->
    map strip (split (String sep "") (written_list sep pieces)) = map entry pieces.
Proof.
  intros sep pieces Hne Hpieces.
  destruct (written_pieces sep pieces Hpieces) as [Hclear Hstrip].
  unfold written_list. rewrite split_join_char; [exact Hstrip | | exact Hclear].
  destruct pieces; [contradiction | discriminate].
Qed.

Lemma join_snoc :
  forall sep l a, l <> [] -> join sep (l ++ [a]) = join sep l ++ sep ++ a.
Proof.
  intros sep. induction l as [| b l IH]; intros a Hl; [contradiction |].
  destruct l as [| c l].
  - reflexivity.
  - change ((b :: c :: l) ++ [a])%list with (b :: ((c :: l) ++ [a]))%list.
    rewrite join_cons by (destruct l; discriminate).
    rewrite IH by discriminate. rewrite (join_cons sep b (c :: l)) by discriminate.
    now rewrite !append_assoc.
Qed.

End Pieces.

(** X24: the focus option is cut at its commas and each area is stripped.
    For a text that is not empty there is one area more than there are
    commas.  When the option lists areas separated by commas, with any
    white space around each of them, the areas are exactly these, in order,
    without the white space; an area of blanks only is kept as an empty
    area.  An option that is absent or empty gives no list. *)
Theorem focus_option_areas :
  (forall text : string,
      text <> "" ->
      List.length (Cli.parse_focus (Some text)) = S (PyStr.count_char "," text))
  /\ (forall pieces : list Cli.padded,
         Forall (Cli.well_padded ",") pieces ->
         Cli.written_list "," pieces <> "" ->
         Cli.parse_focus (Some (Cli.written_list "," pieces))
         = map Cli.entry pieces)
  /\ Cli.parse_focus (Some "") = []
  /\ Cli.parse_focus None = [].
Proof.
  split; [| split; [| split; reflexivity]].
  - intros text Htext. unfold Cli.parse_focus.
    destruct (String.eqb_spec text ""); [contradiction |].
    rewrite length_map. apply split_char_length.
  - intros pieces Hpieces Htext. unfold Cli.parse_focus.
    destruct (String.eqb_spec (Cli.written_list "," pieces) ""); [contradiction |].
    apply read_written_list; [| exact Hpieces].
    intros ->. now apply Htext.
Qed.

Lemma focus_option_areas_witness :
  List.length (Cli.parse_focus (Some "security, gas ,,")) = 4
  /\ Cli.parse_focus (Some "security,  gas optimization ,   ,logic")
     = ["security"; "gas optimization"; ""; "logic"].
Proof.
  destruct focus_option_areas as [Hlength [Hareas _]]. split.
  - apply (Hlength "security, gas ,,"). discriminate.
  - apply (Hareas
             [{| Cli.lead := ""; Cli.entry := "security"; Cli.trail := "" |};
              {| Cli.lead := "  "; Cli.entry := "gas optimization";
                 Cli.trail := " " |};
              {| Cli.lead := "   "; Cli.entry := ""; Cli.trail := "" |};
              {| Cli.lead := ""; Cli.entry := "logic"; Cli.trail := "" |}]).
    + repeat constructor.
    + discriminate.
Defined.

(** X25: the paths read from a batch file are its lines, stripped, without
    the lines that are empty or blank.  When the file lists entries one per
    line, with any white space around each of them and with or without a
    newline after the last line, the paths are exactly the entries that are
    not empty, in order, without the white space.  No path is empty and
    none begins or ends with white space, whatever the file holds. *)
Theorem batch_file_paths :
  (forall pieces : list Cli.padded,
      Forall (Cli.well_padded PyStr.newline) pieces ->
      Cli.batch_list (Cli.written_list PyStr.newline pieces)
      = filter (fun path => negb (String.eqb path "")) (map Cli.entry pieces)
      /\ Cli.batch_list (Cli.written_list PyStr.newline pieces ++ PyStr.nl)
         = filter (fun path => negb (String.eqb path "")) (map Cli.entry pieces))
  /\ (forall content : string,
         Forall (fun path => path <> "" /\ PyStr.strip path = path)
           (Cli.batch_list content)).
Proof.
  assert (Hread : forall pieces,
             Forall (Cli.well_padded PyStr.newline) pieces ->
             Cli.batch_list (Cli.written_list PyStr.newline pieces)
             = filter (fun path => negb (String.eqb path "")) (map Cli.entry pieces)).
  { intros pieces Hpieces. destruct pieces as [| p pieces]; [reflexivity |].
    unfold Cli.batch_list, PyStr.lines, PyStr.nl.
    rewrite read_written_list; [reflexivity | discriminate | exact Hpieces]. }
  split.
  - intros pieces Hpieces. split; [now apply Hread |].
    destruct pieces as [| p pieces]; [reflexivity |].
    set (blank := {| Cli.lead := ""; Cli.entry := ""; Cli.trail := "" |}).
    assert (Hsnoc : Cli.written_list PyStr.newline (p :: pieces) ++ PyStr.nl
                    = Cli.written_list PyStr.newline ((p :: pieces) ++ [blank])).
    { unfold Cli.written_list. rewrite map_app. cbn [map].
      rewrite join_snoc by discriminate.
      reflexivity. }
    rewrite Hsnoc, Hread.
    + rewrite map_app, filter_app. cbn [map filter Cli.entry blank String.eqb negb].
      now rewrite app_nil_r.
    + apply Forall_app. split; [exact Hpieces |]. repeat constructor.
  - intros content. eapply Forall_impl; [| apply batch_list_entries]. cbv beta. tauto.
Qed.

Lemma batch_file_paths_witness :
  Cli.batch_list ("contracts/DOVE.sol" ++ PyStr.nl ++ PyStr.nl
                  ++ "  scripts/deploy.js " ++ PyStr.nl)
  = ["contracts/DOVE.sol"; "scripts/deploy.js"].
Proof.
  apply (proj2 (proj1 batch_file_paths
                  [{| Cli.lead := ""; Cli.entry := "contracts/DOVE.sol";
                      Cli.trail := "" |};
                   {| Cli.lead := ""; Cli.entry := ""; Cli.trail := "" |};
                   {| Cli.lead := "  "; Cli.entry := "scripts/deploy.js";
                      Cli.trail := " " |}]
                  ltac:(repeat constructor))).
Defined.

(** ** Summaries *)

Section Summaries.

Import PyStr Enhanced.

Lemma summary_match_cons :
  forall c report,
    summary_match (String c report)
    = if prefix summary_heading (String c report)
      then Some (until_heading (drop (String.length summary_heading) (String c report)))
      else summary_match report.
Proof. reflexivity. Qed.

Lemma until_heading_cons :
  forall c s,
    until_heading (String c s)
    = if prefix (nl ++ "##") (String c s) then "" else String c (until_heading s).
Proof. reflexivity. Qed.

Lemma drop_append :
  forall a b, drop (String.length a) (a ++ b) = b.
Proof. induction a as [| c a IH]; intros b; [now destruct b | exact (IH b)]. Qed.

(** The group goes up to the first heading that follows, or to the end. *)
Lemma until_heading_body :
  forall body after,
    contains (nl ++ "##") body = false ->
    after = "" \/ prefix (nl ++ "##") after = true ->
    until_heading (body ++ after) = body.
Proof.
  induction body as [| c body IH]; intros after Hbody Hafter.
  - cbn [append]. destruct Hafter as [-> | Hafter]; [reflexivity |].
    destruct after as [| a after]; [discriminate Hafter |].
    now rewrite until_heading_cons, Hafter.
  - cbn [append]. rewrite until_heading_cons.
    assert (Hp : prefix (nl ++ "##") (String c (body ++ after)) = false).
    { destruct Hafter as [-> | Hafter].
      - rewrite append_empty. now apply contains_not_prefix.
      - destruct after as [| a after]; [discriminate Hafter |].
        assert (Ha : a = newline).
        { unfold nl in Hafter. cbn [append prefix] in Hafter.
          destruct (ascii_dec newline a) as [<- |]; [reflexivity | discriminate Hafter]. }
        subst a.
        apply (keyword_not_across newline "##" (String c body) newline after);
          [reflexivity | discriminate | exact Hbody]. }
    rewrite Hp. f_equal. apply IH; [| exact Hafter].
    now apply contains_tail in Hbody.
Qed.

Lemma prefix_cut :
  forall h x y,
    String.length h <= String.length x -> prefix h (x ++ y) = prefix h x.
Proof.
  induction h as [| a h IH]; intros x y Hlen; [now destruct x, y |].
  destruct x as [| b x]; [cbn in Hlen; lia |].
  cbn [append prefix]. destruct (ascii_dec a b); [| reflexivity].
  apply IH. cbn in Hlen. lia.
Qed.

(** The heading does not begin in a front before its first occurrence. *)
Lemma heading_not_before :
  forall u rest,
    u <> "" ->
    contains summary_heading (u ++ "## Summary" ++ nl) = false ->
    prefix summary_heading (u ++ summary_heading ++ rest) = false.
Proof.
  intros u rest Hu Hno. apply contains_not_prefix in Hno.
  rewrite <- Hno.
  change (summary_heading ++ rest) with (("## Summary" ++ nl) ++ (nl ++ rest)).
  rewrite <- append_assoc. apply prefix_cut.
  rewrite length_append. destruct u; [contradiction |].
  unfold summary_heading, nl. cbn. lia.
Qed.

Lemma summary_match_found :
  forall before body after,
    contains summary_heading (before ++ "## Summary" ++ nl) = false ->
    contains (nl ++ "##") body = false ->
    after = "" \/ prefix (nl ++ "##") after = true ->
    summary_match (before ++ summary_heading ++ body ++ after) = Some body.
Proof.
  induction before as [| c before IH]; intros body after Hbefore Hbody Hafter.
  - cbn [append].
    change (summary_heading ++ body ++ after)
      with (String "#" (("# Summary" ++ nl ++ nl) ++ body ++ after)).
    rewrite summary_match_cons.
    change (String "#" (("# Summary" ++ nl ++ nl) ++ body ++ after))
      with (summary_heading ++ body ++ after).
    rewrite prefix_append, drop_append. now rewrite until_heading_body.
  - cbn [append]. rewrite summary_match_cons.
    pose proof (heading_not_before (String c before) (body ++ after)) as Hp.
    cbn [append] in Hp. rewrite Hp; [| discriminate | exact Hbefore].
    apply IH; [| assumption ..]. cbn [append] in Hbefore.
    now apply contains_tail in Hbefore.
Qed.

Lemma summary_match_none :
  forall report,
    summary_match report = None <-> contains summary_heading report = false.
Proof.
  induction report as [| c report IH].
  - cbn. tauto.
  - rewrite summary_match_cons. cbn [contains].
    destruct (prefix summary_heading (String c report)).
    + split; discriminate.
    + exact IH.
Qed.

End Summaries.

(** X26: what a batch or project report takes over from a report, before
    it is stripped, begins after the first [## Summary] that is followed by
    an empty line, whatever precedes it, and goes up to the first newline
    after that which is followed by [##], or to the end of the report.  A
    line with [##] that comes right after the empty line is therefore part
    of the summary.  A report that nowhere holds [## Summary] and an empty
    line gives no summary at all. *)
Theorem summary_section_is_extracted :
  (forall report : string,
      Enhanced.summary_match report = None
      <-> PyStr.contains Enhanced.summary_heading report = false)
  /\ (forall before body after : string,
         PyStr.contains Enhanced.summary_heading (before ++ "## Summary" ++ PyStr.nl)
         = false ->
         PyStr.contains (PyStr.nl ++ "##") body = false ->
         after = "" \/ prefix (PyStr.nl ++ "##") after = true ->
         Enhanced.summary_match (before ++ Enhanced.summary_heading ++ body ++ after)
         = Some body).
Proof.
  split.
  - exact summary_match_none.
  - exact summary_match_found.
Qed.

Lemma summary_section_is_extracted_witness :
  Enhanced.summary_match
    (("## Overview" ++ PyStr.nl ++ PyStr.nl ++ "One file." ++ PyStr.nl ++ PyStr.nl)
     ++ Enhanced.summary_heading
     ++ ("## Detailed Findings" ++ PyStr.nl ++ PyStr.nl ++ "High: 1" ++ PyStr.nl)
     ++ (PyStr.nl ++ "## Recommendations" ++ PyStr.nl))
  = Some ("## Detailed Findings" ++ PyStr.nl ++ PyStr.nl ++ "High: 1" ++ PyStr.nl).
Proof.
  apply (proj2 summary_section_is_extracted); [reflexivity | reflexivity |].
  right. reflexivity.
Defined.

(** X27: the simulated result always goes through [save_report]: whatever
    the description is, the report is written.  A description that holds
    none of the keywords (reflection, tax, transfer, _update) gets a result
    without any finding, and its report shows four counts of 0. *)
Theorem simulated_result_is_always_reported :
  forall (repr : json -> string) (generated now description : string)
         (focus_areas : list string) (code report_name : string),
    (exists text,
        Legacy.save_report repr generated
          (Legacy._simulate_analysis_response now description focus_areas code) report_name
        = Ok text)
    /\ (PyStr.contains "reflection" (PyStr.lower description) = false ->
        PyStr.contains "tax" (PyStr.lower description) = false ->
        PyStr.contains "transfer" (PyStr.lower description) = false ->
        PyStr.contains "_update" (PyStr.lower description) = false ->
        Legacy._simulate_analysis_response now description focus_areas code
        = Legacy.analysis_dict now (JList [])
        /\ Legacy.save_report repr generated
             (Legacy._simulate_analysis_response now description focus_areas code)
             report_name
           = Ok (Legacy.report_header generated report_name
                 ++ "## Summary" ++ PyStr.nl ++ PyStr.nl
                 ++ "| Severity | Count |" ++ PyStr.nl
                 ++ "|----------|-------|" ++ PyStr.nl
                 ++ "| High | 0 |" ++ PyStr.nl
                 ++ "| Medium | 0 |" ++ PyStr.nl
                 ++ "| Low | 0 |" ++ PyStr.nl
                 ++ "| Info | 0 |" ++ PyStr.nl
                 ++ PyStr.nl ++ "## Detailed Findings" ++ PyStr.nl ++ PyStr.nl)).
Proof.
  intros repr generated now description focus_areas code report_name.
  unfold Legacy._simulate_analysis_response.
  destruct (PyStr.contains "reflection" (PyStr.lower description));
    destruct (PyStr.contains "tax" (PyStr.lower description));
    destruct (PyStr.contains "transfer" (PyStr.lower description));
    destruct (PyStr.contains "_update" (PyStr.lower description));
    cbn [orb app]; (split; [eexists; vm_compute; reflexivity |]);
    intros; try discriminate.
  split; [reflexivity |].
  vm_compute. reflexivity.
Qed.

(** ** Batch runs *)

Section Batch.

Import Enhanced RunSpec DispatchSpec BatchSpec.

Variable w : world.
Variable self : analyzer.

Lemma batch_loop_run :
  forall focus_areas severity file_list results st,
    textual w ->
    (forall filepath, In filepath file_list -> path_exists w filepath = true ->
                      readable w filepath) ->
    texts results ->
    exists results' st' reports,
      batch_loop w self focus_areas severity file_list results st = (Ok results', st')
      /\ texts results'
      /\ map fst results' = (map fst results ++ filter (path_exists w) file_list)%list
      /\ Forall2 (written_once self) (filter (path_exists w) file_list) reports
      /\ written st' = (written st ++ reports)%list.
Proof.
  intros focus_areas severity file_list.
  induction file_list as [| filepath rest IH]; intros results st Htext Hread Hresults.
  - exists results, st, []. cbn [batch_loop ret filter]. rewrite !app_nil_r.
    repeat split; [exact Hresults | constructor].
  - cbn [batch_loop filter].
    destruct (path_exists w filepath) eqn:Hexists; cbn [negb].
    + destruct (Hread filepath (or_introl eq_refl) Hexists) as [code [Hfile Hcode]].
      destruct (code_file_run w self filepath code focus_areas severity st Hfile Hcode)
        as [st1 [Hrun [_ [Hw1 _]]]].
      match type of Hrun with
      | context [dispatch_value w ?g (urlopen w ?n ?s ?u)] =>
          destruct (textual_value w g n s u Htext) as [text Hvalue]
      end.
      rewrite Hvalue in Hrun, Hw1.
      unfold bindM at 1. rewrite Hrun. unfold bindM at 1, sleep, ret at 1.
      match goal with
      | |- context [batch_loop w self focus_areas severity rest ?rs ?s] =>
          destruct (IH rs s Htext) as [results' [st' [reports [Hloop [Ht [Hfst [Hrep Hw']]]]]]]
      end.
      * intros f Hf He. apply Hread; [now right | exact He].
      * apply Forall_app. split; [exact Hresults |].
        constructor; [now exists text | constructor].
      * exists results', st'.
        match type of Hw1 with
        | _ = (_ ++ [?entry])%list => exists (entry :: reports)
        end.
        split; [exact Hloop | split; [exact Ht | split; [| split]]].
        -- rewrite Hfst, map_app. cbn [map fst]. now rewrite <- app_assoc.
        -- constructor; [| exact Hrep]. eexists. reflexivity.
        -- rewrite Hw', Hw1, <- app_assoc. reflexivity.
    + unfold bindM at 1. cbn [print].
      match goal with
      | |- context [batch_loop w self focus_areas severity rest results ?s] =>
          destruct (IH results s Htext) as [results' [st' [reports H]]]
      end.
      * intros f Hf He. apply Hread; [now right | exact He].
      * exact Hresults.
      * exists results', st', reports. exact H.
Qed.

Lemma add_summaries_extends :
  forall name_of results report report',
    add_summaries name_of results report = Ok report' ->
    exists summaries, report' = report ++ summaries.
Proof.
  intros name_of results. induction results as [| [path result] results IH];
    intros report report' H.
  - cbn in H. injection H as <-. exists "". now rewrite append_empty.
  - cbn [add_summaries] in H. destruct result; try discriminate H.
    destruct (summary_match s).
    + apply IH in H. destruct H as [more ->]. eexists. now rewrite append_assoc.
    + now apply IH.
Qed.

Lemma run_batch_run :
  forall file_list focus_areas severity st,
    textual w ->
    (forall filepath, In filepath file_list -> path_exists w filepath = true ->
                      readable w filepath) ->
    exists path st' reports generated summaries,
      run_batch_analysis w self file_list focus_areas severity st = (Ok path, st')
      /\ Forall2 (written_once self) (filter (path_exists w) file_list) reports
      /\ written st'
         = (written st ++ reports
            ++ [(path, (batch_head generated (filter (path_exists w) file_list)
                        ++ summaries)%string)])%list.
Proof.
  intros file_list focus_areas severity st Htext Hread.
  unfold run_batch_analysis. unfold bindM at 1.
  destruct (batch_loop_run focus_areas severity file_list [] st Htext Hread)
    as [results [st1 [reports [Hloop [Hresults [Hfst [Hreports Hw1]]]]]]]; [constructor |].
  rewrite Hloop. unfold bindM at 1, now at 1. unfold bindM at 1, now at 1.
  unfold bindM at 1, lift.
  match goal with
  | |- context [add_summaries basename results ?r] =>
      destruct (add_summaries_defined basename results r Hresults) as [report' Hsum];
      pose proof (add_summaries_extends _ _ _ _ Hsum) as [summaries Hext]
  end.
  rewrite Hsum. cbn [write_file bindM print ret].
  eexists; eexists; exists reports; eexists; exists summaries.
  split; [reflexivity | split; [exact Hreports |]].
  cbn [written]. rewrite Hw1, Hext, <- app_assoc. cbn [map app] in Hfst.
  unfold batch_head. rewrite <- Hfst, map_map. reflexivity.
Qed.

End Batch.

(** X28: a batch run in which the existing files can be read and are not
    empty, in a world whose replies hold text, writes one report for every listed path that exists, in the
    order of the list, and the batch report last: n + 1 files for n existing
    paths.  The batch report names exactly these paths under [Files
    Analyzed]; a path that does not exist is not named. *)
Theorem batch_writes_each_report_once :
  forall (w : Enhanced.world) (self : Enhanced.analyzer) (file_list : list string)
         (focus_areas : list string) (severity : option string) (st : Enhanced.state),
    RunSpec.textual w ->
    (forall filepath, In filepath file_list -> Enhanced.path_exists w filepath = true ->
                      RunSpec.readable w filepath) ->
    exists path st' reports generated summaries,
      Enhanced.run_batch_analysis w self file_list focus_areas severity st = (Ok path, st')
      /\ Forall2 (BatchSpec.written_once self)
           (filter (Enhanced.path_exists w) file_list) reports
      /\ Enhanced.written st'
         = (Enhanced.written st ++ reports
            ++ [(path,
                 (BatchSpec.batch_head generated
                    (filter (Enhanced.path_exists w) file_list)
                  ++ summaries)%string)])%list
      /\ List.length (Enhanced.written st')
         = List.length (Enhanced.written st)
           + List.length (filter (Enhanced.path_exists w) file_list) + 1.
Proof.
  intros w self file_list focus_areas severity st Htext Hread.
  destruct (run_batch_run w self file_list focus_areas severity st Htext Hread)
    as [path [st' [reports [generated [summaries [Hrun [Hreports Hwritten]]]]]]].
  exists path, st', reports, generated, summaries.
  split; [exact Hrun | split; [exact Hreports | split; [exact Hwritten |]]].
  rewrite Hwritten, !length_app. cbn [List.length].
  apply Forall2_length in Hreports. lia.
Qed.

Lemma batch_writes_each_report_once_witness :
  let w := Fixture.world_of Fixture.files Fixture.no_dirs Fixture.answers_report in
  exists path st' reports generated summaries,
    Enhanced.run_batch_analysis w Fixture.analyzer ["a.py"; "gone.py"; "b.py"] [] None
      Enhanced.initial
    = (Ok path, st')
    /\ Forall2 (BatchSpec.written_once Fixture.analyzer)
         (filter (Enhanced.path_exists w) ["a.py"; "gone.py"; "b.py"]) reports
    /\ Enhanced.written st'
       = (Enhanced.written Enhanced.initial ++ reports
          ++ [(path,
               (BatchSpec.batch_head generated
                  (filter (Enhanced.path_exists w) ["a.py"; "gone.py"; "b.py"])
                ++ summaries)%string)])%list
    /\ List.length (Enhanced.written st')
       = List.length (Enhanced.written Enhanced.initial)
         + List.length (filter (Enhanced.path_exists w) ["a.py"; "gone.py"; "b.py"]) + 1.
Proof.
  intros w. apply batch_writes_each_report_once.
  - apply fixture_textual.
  - intros filepath Hin Hexists.
    destruct Hin as [<- | [<- | [<- | []]]].
    + exists "print(1)". split; [reflexivity | discriminate].
    + vm_compute in Hexists. discriminate Hexists.
    + exists "print(2)". split; [reflexivity | discriminate].
Defined.
